(** * The feedback-to-issue ingestion pipeline

    A shallow embedding of [src/sentry/feedback/usecases/create_feedback.py]
    and the properties its specification states about it.

    Python dictionaries and lists are objects of a store, reached through
    references, so that two names for one object see each other's updates.
    The pipeline is written in a small monad that threads the store, collects
    the calls made to the outside world, in order, and propagates exceptions. *)

From Stdlib Require Import ZArith NArith String Ascii List Lia.
From stdpp Require Import base gmap strings list pretty.

(** ** Values and the object store *)

Definition loc := positive.

(** Python values.  Characters of a string are code points below 256; a float
    is [m * 2^e]; dictionaries and lists live in the store. *)
Inductive val :=
| VNone
| VBool (b : bool)
| VInt (n : Z)
| VFloat (m e : Z)
| VStr (s : string)
| VRef (l : loc).

Abbreviation dict := (gmap string val).

Inductive obj :=
| ODict (d : dict)
| OList (xs : list val).

Abbreviation heap := (gmap loc obj).

(** Subclasses of [Exception]; [OtherException] stands for whatever an
    outside service raises. *)
Inductive exn :=
| KeyError (k : string)
| TypeError
| AttributeError
| ValidationError
| OtherException (name : string).

Inductive result (A : Type) :=
| Ok (a : A)
| Raise (e : exn).
Arguments Ok {A} a.
Arguments Raise {A} e.

Definition is_none (v : val) : bool :=
  match v with VNone => true | _ => false end.

(** [bool(v)]: an empty container, an empty string, zero, [False] and [None]
    are false. *)
Definition truthy (h : heap) (v : val) : bool :=
  match v with
  | VNone => false
  | VBool b => b
  | VInt n => negb (n =? 0)%Z
  | VFloat m _ => negb (m =? 0)%Z
  | VStr s => negb (String.eqb s "")
  | VRef l =>
      match h !! l with
      | Some (ODict d) => negb (bool_decide (d = ∅))
      | Some (OList xs) => match xs with [] => false | _ => true end
      | None => true
      end
  end.

(** The dictionary a reference points to, if it points to one. *)
Definition hdict (h : heap) (l : loc) : option dict :=
  match h !! l with Some (ODict d) => Some d | _ => None end.

Definition is_dict (h : heap) (l : loc) : bool :=
  match hdict h l with Some _ => true | None => false end.

(** The value stored under key [k] of the dictionary at [l]. *)
Definition field (h : heap) (l : loc) (k : string) : option val :=
  match hdict h l with Some d => d !! k | None => None end.

Definition hset (h : heap) (l : loc) (k : string) (v : val) : heap :=
  match hdict h l with
  | Some d => <[l := ODict (<[k := v]> d)]> h
  | None => h
  end.

Definition hdel (h : heap) (l : loc) (k : string) : heap :=
  match hdict h l with
  | Some d => <[l := ODict (delete k d)]> h
  | None => h
  end.

Definition halloc (h : heap) (o : obj) : heap := <[fresh (dom h) := o]> h.

(** ** Strings *)

(** [str.isspace] on code points below 256. *)
Definition is_space (c : ascii) : bool :=
  let n := nat_of_ascii c in
  ((9 <=? n) && (n <=? 13)) || ((28 <=? n) && (n <=? 32))
  || (n =? 133) || (n =? 160).

Fixpoint lstrip_chars (cs : list ascii) : list ascii :=
  match cs with
  | c :: cs' => if is_space c then lstrip_chars cs' else cs
  | [] => []
  end.

(** [s.strip()] *)
Definition strip (s : string) : string :=
  string_of_list_ascii
    (rev (lstrip_chars (rev (lstrip_chars (list_ascii_of_string s))))).

Definition hex_digit (n : N) : ascii :=
  nth (N.to_nat n)
    ["0"; "1"; "2"; "3"; "4"; "5"; "6"; "7"; "8"; "9";
     "a"; "b"; "c"; "d"; "e"; "f"]%char "0"%char.

Fixpoint hex_digits (k : nat) (n : N) (acc : string) : string :=
  match k with
  | O => acc
  | S k' => hex_digits k' (n / 16)%N (String (hex_digit (n mod 16)%N) acc)
  end.

(** ['%032x' % n] for [n < 2^128] *)
Definition hex32 (n : N) : string := hex_digits 32 n "".

(** The integer of [uuid.uuid4()] built from 16 random bytes: the variant and
    version bits are forced. *)
Definition uuid4_int (random : N) : N :=
  let i := (random mod 2 ^ 128)%N in
  let i := N.ldiff i (N.shiftl 49152 48) in
  let i := N.lor i (N.shiftl 32768 48) in
  let i := N.ldiff i (N.shiftl 61440 64) in
  N.lor i (N.shiftl 4 76).

(** ** Records of the issue platform *)

Definition UNREAL_FEEDBACK_UNATTENDED_MESSAGE : string :=
  "Sent in the unattended mode".

Inductive FeedbackCreationSource :=
| NEW_FEEDBACK_ENVELOPE
| NEW_FEEDBACK_DJANGO_ENDPOINT
| USER_REPORT_DJANGO_ENDPOINT
| USER_REPORT_ENVELOPE
| CRASH_REPORT_EMBED_FORM
| UPDATE_USER_REPORTS_TASK.

Definition value (c : FeedbackCreationSource) : string :=
  match c with
  | NEW_FEEDBACK_ENVELOPE => "new_feedback_envelope"
  | NEW_FEEDBACK_DJANGO_ENDPOINT => "new_feedback_sentry_django_endpoint"
  | USER_REPORT_DJANGO_ENDPOINT => "user_report_sentry_django_endpoint"
  | USER_REPORT_ENVELOPE => "user_report_envelope"
  | CRASH_REPORT_EMBED_FORM => "crash_report_embed_form"
  | UPDATE_USER_REPORTS_TASK => "update_user_reports_task"
  end.

Definition new_feedback_category_values : list string :=
  map value [NEW_FEEDBACK_ENVELOPE; NEW_FEEDBACK_DJANGO_ENDPOINT].

Definition old_feedback_category_values : list string :=
  map value [CRASH_REPORT_EMBED_FORM; USER_REPORT_ENVELOPE;
             USER_REPORT_DJANGO_ENDPOINT; UPDATE_USER_REPORTS_TASK].

(** Instants; what [datetime] computes is left to the environment below. *)
Definition datetime := Z.

Record IssueEvidence := mkIssueEvidence {
  ev_name : string;
  ev_value : val;
  ev_important : bool
}.

(** The group types, statuses, substatuses, outcomes and data categories are
    declared elsewhere in the repository; the members listed are the ones the
    pipeline names and some of their neighbours. *)
Inductive GroupType := ErrorGroupType | FeedbackGroup.
Inductive GroupStatus := UNRESOLVED | RESOLVED | IGNORED.
Inductive GroupSubStatus := UNTIL_ESCALATING | ONGOING | FOREVER | NEW.
Inductive Outcome := ACCEPTED | FILTERED | RATE_LIMITED | INVALID.
Inductive DataCategory := ERROR | USER_REPORT_V2.
Inductive schema := EVENT_PAYLOAD_SCHEMA | LEGACY_EVENT_PAYLOAD_SCHEMA.
Inductive signal := first_feedback_received | first_new_feedback_received.

Record IssueOccurrence := mkIssueOccurrence {
  occ_id : string;
  occ_event_id : val;
  occ_project_id : Z;
  occ_fingerprint : list string;
  occ_issue_title : string;
  occ_subtitle : val;
  occ_resource_id : option string;
  occ_evidence_data : dict;
  occ_evidence_display : list IssueEvidence;
  occ_type : GroupType;
  occ_detection_time : datetime;
  occ_culprit : string;
  occ_level : val
}.

Record StatusChangeMessage := mkStatusChangeMessage {
  sc_fingerprint : list string;
  sc_project_id : Z;
  sc_new_status : GroupStatus;
  sc_new_substatus : GroupSubStatus
}.

Record OutcomeRecord := mkOutcomeRecord {
  out_org_id : Z;
  out_project_id : Z;
  out_key_id : option Z;
  out_outcome : Outcome;
  out_reason : option string;
  out_timestamp : datetime;
  out_event_id : val;
  out_category : DataCategory;
  out_quantity : Z
}.

(** What [produce_occurrence_to_kafka] is given: an occurrence with the
    top-level mapping of its event as it is when produced, or a status
    change. *)
Inductive payload :=
| OCCURRENCE (occurrence : IssueOccurrence) (event_data : dict)
| STATUS_CHANGE (status_change : StatusChangeMessage).

(** A project: its [id], its [organization_id], whether
    [project.get_option(key)] is true, and its [flags]. *)
Record Project := mkProject {
  project_id : Z;
  project_organization_id : Z;
  project_get_option : string -> bool;
  flags_has_feedbacks : bool;
  flags_has_new_feedbacks : bool
}.

(** The stored error event a legacy report refers to. *)
Record Event := mkEvent {
  event_event_id : val;
  event_data : val;
  event_datetime : datetime;
  event_platform : val;
  event_environment_name : val;
  event_tags : list (val * val)
}.

(** [UserReportShimDict]: [email] and [comments] are read with [report[...]],
    the other keys with [report.get(...)]. *)
Record UserReportShimDict := mkUserReport {
  report_name : option val;
  report_email : val;
  report_comments : val;
  report_event_id : option val;
  report_level : option val
}.

(** ** Calls to the outside world *)

(** One entry per call, in the order the calls are made.  [IsSpam] records
    that the classifier was invoked, [Produced] that a payload was handed to
    the stream and taken. *)
Inductive effect :=
| MetricsIncr (key : string) (metric_tags : list (string * val))
| LoggerException (msg : string)
| IsSpam (message : val)
| JsonschemaValidate (s : schema)
| SendRobust (s : signal) (project : Z)
| Produced (p : payload)
| TrackOutcome (o : OutcomeRecord).

(** What the pipeline consults outside itself.  Reading the environment does
    not change it. *)
Record Env := mkEnv {
  get_from_cache : Z -> result Project;
  features_has : string -> Z -> bool;
  is_spam : val -> result bool;
  urandom : nat -> N;
  datetime_now : datetime;
  datetime_utcnow : datetime;
  fromtimestamp : val -> result datetime;
  isoformat : datetime -> string;
  timestamp : datetime -> val;
  jsonschema_valid : schema -> heap -> val -> bool;
  kafka : payload -> result unit;
  repr : heap -> val -> string;
  get_path : heap -> val -> list string -> val
}.

(** ** The monad *)

Record world := mkWorld {
  store : heap;
  entropy : nat
}.

Definition M (A : Type) : Type := world -> list effect * world * result A.

Definition ret {A} (a : A) : M A := fun w => ([], w, Ok a).

Definition bind {A B} (m : M A) (f : A -> M B) : M B := fun w =>
  match m w with
  | (t1, w1, Ok a) => match f a w1 with (t2, w2, r) => (t1 ++ t2, w2, r) end
  | (t1, w1, Raise e) => (t1, w1, Raise e)
  end.

Definition raise {A} (e : exn) : M A := fun w => ([], w, Raise e).

Definition emit (e : effect) : M unit := fun w => ([e], w, Ok tt).

Definition lift {A} (r : result A) : M A := fun w => ([], w, r).

(** [try: m except E: handler], for the exceptions [E] that [catch] accepts *)
Definition try_except_on {A} (catch : exn -> bool) (m : M A) (handler : M A) : M A :=
  fun w =>
  match m w with
  | (t1, w1, Ok a) => (t1, w1, Ok a)
  | (t1, w1, Raise e) =>
      if catch e then
        match handler w1 with (t2, w2, r) => (t1 ++ t2, w2, r) end
      else (t1, w1, Raise e)
  end.

(** [try: m except Exception: handler] *)
Definition try_except {A} (m : M A) (handler : M A) : M A :=
  try_except_on (fun _ => true) m handler.

Definition is_ValidationError (e : exn) : bool :=
  match e with ValidationError => true | _ => false end.

Declare Scope py_scope.
Delimit Scope py_scope with py.
Notation "x <- c1 ;; c2" := (bind c1 (fun x => c2))
  (at level 100, c1 at next level, right associativity, only parsing) : py_scope.
Notation "c1 ;; c2" := (bind c1 (fun _ => c2))
  (at level 100, c2 at level 200, right associativity, only parsing) : py_scope.
Open Scope py_scope.

(** [if b: m] *)
Definition when (b : bool) (m : M unit) : M unit := if b then m else ret tt.

(** [a or b] on conditions, left to right, [b] only if [a] is false *)
Definition py_or (a b : M bool) : M bool :=
  x <- a ;; if x then ret true else b.

(** ** Operations on values *)

Definition py_truthy (v : val) : M bool :=
  fun w => ([], w, Ok (truthy (store w) v)).

(** [x.get(k, d)] *)
Definition py_get (x : val) (k : string) (d : val) : M val := fun w =>
  match x with
  | VRef l =>
      match hdict (store w) l with
      | Some m => ([], w, Ok (default d (m !! k)))
      | None => ([], w, Raise AttributeError)
      end
  | _ => ([], w, Raise AttributeError)
  end.

(** [{...}] or [[...]]: a new object *)
Definition new_obj (o : obj) : M val := fun w =>
  ([], mkWorld (halloc (store w) o) (entropy w), Ok (VRef (fresh (dom (store w))))).

(** [x.get(k, {})] and [x.get(k, [])]: the default is built before the
    lookup, whether it is used or not. *)
Definition py_get_new (x : val) (k : string) (o : obj) : M val := fun w =>
  match x with
  | VRef l =>
      match hdict (store w) l with
      | Some _ => (d <- new_obj o ;; py_get x k d) w
      | None => ([], w, Raise AttributeError)
      end
  | _ => ([], w, Raise AttributeError)
  end.

(** [x[k]] for a string [k] *)
Definition py_getitem (x : val) (k : string) : M val := fun w =>
  match x with
  | VRef l =>
      match hdict (store w) l with
      | Some m =>
          match m !! k with
          | Some v => ([], w, Ok v)
          | None => ([], w, Raise (KeyError k))
          end
      | None => ([], w, Raise TypeError)
      end
  | _ => ([], w, Raise TypeError)
  end.

(** [x[k] = v] *)
Definition py_setitem (x : val) (k : string) (v : val) : M unit := fun w =>
  match x with
  | VRef l =>
      match hdict (store w) l with
      | Some _ => ([], mkWorld (hset (store w) l k v) (entropy w), Ok tt)
      | None => ([], w, Raise TypeError)
      end
  | _ => ([], w, Raise TypeError)
  end.

(** [del x[k]] *)
Definition py_delitem (x : val) (k : string) : M unit := fun w =>
  match x with
  | VRef l =>
      match hdict (store w) l with
      | Some m =>
          match m !! k with
          | Some _ => ([], mkWorld (hdel (store w) l k) (entropy w), Ok tt)
          | None => ([], w, Raise (KeyError k))
          end
      | None => ([], w, Raise TypeError)
      end
  | _ => ([], w, Raise TypeError)
  end.

(** [x == s] for a string [s] *)
Definition py_eq_str (x : val) (s : string) : bool :=
  match x with VStr s' => String.eqb s' s | _ => false end.

(** [x.strip()] *)
Definition py_strip (x : val) : M string :=
  match x with
  | VStr s => ret (strip s)
  | _ => raise AttributeError
  end.

(** [str(x)]; the text of a float or of a container is the environment's. *)
Definition py_str (env : Env) (x : val) : M string := fun w =>
  ([], w, Ok match x with
             | VNone => "None"
             | VBool true => "True"
             | VBool false => "False"
             | VInt n => pretty n
             | VStr s => s
             | _ => repr env (store w) x
             end).

(** [uuid4().hex] *)
Definition uuid4_hex (env : Env) : M string := fun w =>
  ([], mkWorld (store w) (S (entropy w)),
   Ok (hex32 (uuid4_int (urandom env (entropy w))))).

Definition metrics_incr (key : string) (metric_tags : list (string * val)) : M unit :=
  emit (MetricsIncr key metric_tags).

Definition logger_exception (msg : string) : M unit :=
  emit (LoggerException msg).

(** [signal.send_robust(project=project, sender=Project)]: receivers'
    failures are caught by the dispatcher. *)
Definition send_robust (s : signal) (project : Project) : M unit :=
  emit (SendRobust s (project_id project)).

Definition track_outcome (o : OutcomeRecord) : M unit :=
  emit (TrackOutcome o).

(** [jsonschema.validate(event_data, s)] *)
Definition jsonschema_validate (env : Env) (event_data : val) (s : schema) : M unit :=
  emit (JsonschemaValidate s) ;;
  b <- (fun w => ([], w, Ok (jsonschema_valid env s (store w) event_data))) ;;
  if b : bool then ret tt else raise ValidationError.

(** [produce_occurrence_to_kafka(payload_type=..., ...)] *)
Definition produce_occurrence_to_kafka (env : Env) (p : payload) : M unit :=
  lift (kafka env p) ;;
  emit (Produced p).

(** The mapping a payload carries, read when it is handed over. *)
Definition py_mapping (x : val) : M dict := fun w =>
  match x with
  | VRef l =>
      match hdict (store w) l with
      | Some m => ([], w, Ok m)
      | None => ([], w, Raise TypeError)
      end
  | _ => ([], w, Raise TypeError)
  end.

(** ** The functions of [create_feedback.py] *)

(** [make_evidence(feedback, source, is_message_spam)], lines 64-97.
    [evidence_data] and [evidence_display] are local until returned. *)
Definition make_evidence (feedback : val) (source : FeedbackCreationSource)
    (is_message_spam : option bool) : M (dict * list IssueEvidence) :=
  let evidence_data : dict := ∅ in
  let evidence_display : list IssueEvidence := [] in
  a <- py_get feedback "associated_event_id" VNone ;;
  ta <- py_truthy a ;;
  e1 <- (if ta : bool then
           v1 <- py_getitem feedback "associated_event_id" ;;
           v2 <- py_getitem feedback "associated_event_id" ;;
           ret (<["associated_event_id" := v1]> evidence_data,
                evidence_display ++ [mkIssueEvidence "associated_event_id" v2 false])
         else ret (evidence_data, evidence_display)) ;;
  c <- py_get feedback "contact_email" VNone ;;
  tc <- py_truthy c ;;
  e2 <- (if tc : bool then
           v1 <- py_getitem feedback "contact_email" ;;
           v2 <- py_getitem feedback "contact_email" ;;
           ret (<["contact_email" := v1]> (e1.1),
                e1.2 ++ [mkIssueEvidence "contact_email" v2 false])
         else ret e1) ;;
  m <- py_get feedback "message" VNone ;;
  tm <- py_truthy m ;;
  e3 <- (if tm : bool then
           v1 <- py_getitem feedback "message" ;;
           v2 <- py_getitem feedback "message" ;;
           ret (<["message" := v1]> (e2.1),
                e2.2 ++ [mkIssueEvidence "message" v2 true])
         else ret e2) ;;
  n <- py_get feedback "name" VNone ;;
  tn <- py_truthy n ;;
  e4 <- (if tn : bool then
           v1 <- py_getitem feedback "name" ;;
           v2 <- py_getitem feedback "name" ;;
           ret (<["name" := v1]> (e3.1),
                e3.2 ++ [mkIssueEvidence "name" v2 false])
         else ret e3) ;;
  let e5 := (<["source" := VStr (value source)]> (e4.1),
             e4.2 ++ [mkIssueEvidence "source" (VStr (value source)) false]) in
  let e6 :=
    match is_message_spam with
    | Some true =>
        (<["is_spam" := VBool true]> (e5.1),
         e5.2 ++ [mkIssueEvidence "is_spam" (VStr "True") false])
    | _ => e5
    end in
  ret e6.

(** [fix_for_issue_platform(event_data)], lines 100-153. *)
Definition fix_for_issue_platform (env : Env) (event_data : val) : M val :=
  ret_event <- new_obj (ODict ∅) ;;
  ts <- py_getitem event_data "timestamp" ;;
  dt <- lift (fromtimestamp env ts) ;;
  py_setitem ret_event "timestamp" (VStr (isoformat env dt)) ;;
  v <- py_getitem event_data "received" ;;
  py_setitem ret_event "received" v ;;
  v <- py_getitem event_data "project_id" ;;
  py_setitem ret_event "project_id" v ;;
  v <- py_get_new event_data "contexts" (ODict ∅) ;;
  py_setitem ret_event "contexts" v ;;
  c <- py_getitem event_data "contexts" ;;
  r <- py_get c "replay" VNone ;;
  tr <- py_truthy r ;;
  cond <- (if tr : bool then ret false else
             c <- py_getitem event_data "contexts" ;;
             f <- py_get_new c "feedback" (ODict ∅) ;;
             rid <- py_get f "replay_id" VNone ;;
             py_truthy rid) ;;
  when cond (
    c <- py_getitem event_data "contexts" ;;
    f <- py_get_new c "feedback" (ODict ∅) ;;
    rid <- py_get f "replay_id" VNone ;;
    replay <- new_obj (ODict {["replay_id" := rid]}) ;;
    rc <- py_getitem ret_event "contexts" ;;
    py_setitem rc "replay" replay) ;;
  v <- py_getitem event_data "event_id" ;;
  py_setitem ret_event "event_id" v ;;
  v <- py_get_new event_data "tags" (OList []) ;;
  py_setitem ret_event "tags" v ;;
  v <- py_get event_data "platform" (VStr "other") ;;
  py_setitem ret_event "platform" v ;;
  v <- py_get event_data "level" (VStr "info") ;;
  py_setitem ret_event "level" v ;;
  v <- py_get event_data "environment" (VStr "production") ;;
  py_setitem ret_event "environment" v ;;
  sdk <- py_get event_data "sdk" VNone ;;
  tsdk <- py_truthy sdk ;;
  when tsdk (
    v <- py_getitem event_data "sdk" ;;
    py_setitem ret_event "sdk" v) ;;
  v <- py_get_new event_data "request" (ODict ∅) ;;
  py_setitem ret_event "request" v ;;
  v <- py_get_new event_data "user" (ODict ∅) ;;
  py_setitem ret_event "user" v ;;
  dist <- py_get event_data "dist" VNone ;;
  when (negb (is_none dist)) (py_delitem event_data "dist") ;;
  u <- py_get_new event_data "user" (ODict ∅) ;;
  name <- py_get u "name" VNone ;;
  when (negb (is_none name)) (
    u <- py_getitem event_data "user" ;;
    py_delitem u "name") ;;
  u <- py_get_new event_data "user" (ODict ∅) ;;
  staff <- py_get u "isStaff" VNone ;;
  when (negb (is_none staff)) (
    u <- py_getitem event_data "user" ;;
    py_delitem u "isStaff") ;;
  u <- py_get_new event_data "user" (ODict ∅) ;;
  uid <- py_get u "id" VNone ;;
  when (negb (is_none uid)) (
    u <- py_getitem event_data "user" ;;
    i <- py_getitem u "id" ;;
    s <- py_str env i ;;
    u <- py_getitem event_data "user" ;;
    py_setitem u "id" (VStr s)) ;;
  c <- py_get_new event_data "contexts" (ODict ∅) ;;
  feedback_obj <- py_get_new c "feedback" (ODict ∅) ;;
  contact_email <- py_get feedback_obj "contact_email" VNone ;;
  u <- py_getitem ret_event "user" ;;
  email <- py_get u "email" (VStr "") ;;
  temail <- py_truthy email ;;
  when (negb temail) (
    u <- py_getitem ret_event "user" ;;
    py_setitem u "email" contact_email) ;;
  m <- py_get feedback_obj "message" VNone ;;
  logentry <- new_obj (ODict {["message" := m]}) ;;
  py_setitem ret_event "logentry" logentry ;;
  ret ret_event.

Definition filtered_metric (reason : string) : effect :=
  MetricsIncr "feedback.create_feedback_issue.filtered" [("reason", VStr reason)].

(** [event["contexts"]["feedback"]["message"]] *)
Definition feedback_message (event : val) : M val :=
  c <- py_getitem event "contexts" ;;
  f <- py_getitem c "feedback" ;;
  py_getitem f "message".

(** [should_filter_feedback(event, project_id, source)], lines 156-183. *)
Definition should_filter_feedback (event : val) (project_id : Z)
    (source : FeedbackCreationSource) : M bool :=
  missing <-
    py_or (c <- py_get event "contexts" VNone ;; ret (is_none c))
      (py_or (c <- py_getitem event "contexts" ;;
              f <- py_get c "feedback" VNone ;;
              ret (is_none f))
             (c <- py_getitem event "contexts" ;;
              f <- py_getitem c "feedback" ;;
              m <- py_get f "message" VNone ;;
              ret (is_none m))) ;;
  if missing : bool then
    emit (filtered_metric "missing_context") ;;
    ret true
  else
    m <- feedback_message event ;;
    if py_eq_str m UNREAL_FEEDBACK_UNATTENDED_MESSAGE then
      emit (filtered_metric "unreal.unattended") ;;
      ret true
    else
      m <- feedback_message event ;;
      s <- py_strip m ;;
      if String.eqb s "" then
        emit (filtered_metric "empty") ;;
        ret true
      else ret false.

(** [validate_issue_platform_event_schema(event_data)], lines 279-291. *)
Definition validate_issue_platform_event_schema (env : Env) (event_data : val) : M unit :=
  try_except_on is_ValidationError
    (jsonschema_validate env event_data EVENT_PAYLOAD_SCHEMA)
    (try_except_on is_ValidationError
       (jsonschema_validate env event_data LEGACY_EVENT_PAYLOAD_SCHEMA)
       (metrics_incr "feedback.create_feedback_issue.invalid_schema" [] ;;
        raise ValidationError)).

(** [auto_ignore_spam_feedbacks(project, issue_fingerprint)], lines 358-369. *)
Definition auto_ignore_spam_feedbacks (env : Env) (project : Project)
    (issue_fingerprint : list string) : M unit :=
  when (features_has env "organizations:user-feedback-spam-filter-actions"
          (project_organization_id project)) (
    metrics_incr "feedback.spam-detection-actions.set-ignored" [] ;;
    produce_occurrence_to_kafka env
      (STATUS_CHANGE
         (mkStatusChangeMessage issue_fingerprint (project_id project) IGNORED FOREVER))).

(** Lines 194-202 of [create_feedback_issue]: the spam verdict. *)
Definition spam_verdict (env : Env) (project : Project) (event : val) : M (option bool) :=
  let is_message_spam : option bool := None in
  if features_has env "organizations:user-feedback-spam-filter-ingest"
       (project_organization_id project)
     && project_get_option project "sentry:feedback_ai_spam_detection"
  then
    try_except
      (m <- feedback_message event ;;
       emit (IsSpam m) ;;
       b <- lift (is_spam env m) ;;
       ret (Some b))
      (logger_exception "Error checking if message is spam" ;;
       ret is_message_spam)
  else ret is_message_spam.

(** [if is_message_spam:] *)
Definition verdict_truthy (is_message_spam : option bool) : bool :=
  match is_message_spam with Some true => true | _ => false end.

Definition is_new_feedback (source : FeedbackCreationSource) : bool :=
  match source with
  | NEW_FEEDBACK_ENVELOPE | NEW_FEEDBACK_DJANGO_ENDPOINT => true
  | _ => false
  end.

(** Lines 204-276 of [create_feedback_issue]: what follows the verdict. *)
Definition create_feedback_occurrence (env : Env) (project : Project)
    (is_message_spam : option bool) (event : val) (project_id : Z)
    (source : FeedbackCreationSource) : M unit :=
  e <- py_get event "event_id" VNone ;;
  te <- py_truthy e ;;
  eid <- (if te : bool then ret e else h <- uuid4_hex env ;; ret (VStr h)) ;;
  py_setitem event "event_id" eid ;;
  ts <- py_getitem event "timestamp" ;;
  detection_time <- lift (fromtimestamp env ts) ;;
  c <- py_getitem event "contexts" ;;
  f <- py_getitem c "feedback" ;;
  evidence <- make_evidence f source is_message_spam ;;
  fp <- uuid4_hex env ;;
  let issue_fingerprint := [fp] in
  oid <- uuid4_hex env ;;
  e <- py_get event "event_id" VNone ;;
  te <- py_truthy e ;;
  oeid <- (if te : bool then ret e else h <- uuid4_hex env ;; ret (VStr h)) ;;
  subtitle <- feedback_message event ;;
  level <- py_get event "level" (VStr "info") ;;
  let occurrence :=
    mkIssueOccurrence oid oeid project_id issue_fingerprint "User Feedback"
      subtitle None (evidence.1) (evidence.2) FeedbackGroup detection_time
      "user" level in
  let now := datetime_now env in
  tg <- py_get_new event "tags" (ODict ∅) ;;
  ev <- py_mapping event ;;
  event_data <- new_obj (ODict (ev ∪ {["project_id" := VInt project_id;
                                       "received" := VStr (isoformat env now);
                                       "tags" := tg]})) ;;
  event_fixed <- fix_for_issue_platform env event_data ;;
  validate_issue_platform_event_schema env event_fixed ;;
  when (negb (flags_has_feedbacks project))
    (send_robust first_feedback_received project) ;;
  when (is_new_feedback source && negb (flags_has_new_feedbacks project))
    (send_robust first_new_feedback_received project) ;;
  sent <- py_mapping event_fixed ;;
  produce_occurrence_to_kafka env (OCCURRENCE occurrence sent) ;;
  when (verdict_truthy is_message_spam)
    (auto_ignore_spam_feedbacks env project issue_fingerprint) ;;
  c <- py_getitem event "contexts" ;;
  f <- py_getitem c "feedback" ;;
  client_source <- py_get f "source" VNone ;;
  metrics_incr "feedback.create_feedback_issue.produced_occurrence"
    [("referrer", VStr (value source)); ("client_source", client_source)] ;;
  eid <- py_getitem event "event_id" ;;
  track_outcome
    (mkOutcomeRecord (project_organization_id project) project_id None ACCEPTED
       None detection_time eid USER_REPORT_V2 1).

(** [create_feedback_issue(event, project_id, source)], lines 186-276. *)
Definition create_feedback_issue (env : Env) (event : val) (project_id : Z)
    (source : FeedbackCreationSource) : M unit :=
  metrics_incr "feedback.create_feedback_issue.entered" [] ;;
  filtered <- should_filter_feedback event project_id source ;;
  if filtered : bool then ret tt else
  project <- lift (get_from_cache env project_id) ;;
  is_message_spam <- spam_verdict env project event ;;
  create_feedback_occurrence env project is_message_spam event project_id source.

(** [[list(item) for item in event.tags]] *)
Fixpoint tag_lists (items : list (val * val)) : M (list val) :=
  match items with
  | [] => ret []
  | (k, v) :: rest =>
      x <- new_obj (OList [k; v]) ;;
      xs <- tag_lists rest ;;
      ret (x :: xs)
  end.

(** [shim_to_feedback(report, event, project, source)], lines 302-355. *)
Definition shim_to_feedback (env : Env) (report : UserReportShimDict)
    (event : option Event) (project : Project)
    (source : FeedbackCreationSource) : M unit :=
  try_except
    (feedback <- new_obj (ODict {["name" := default (VStr "") (report_name report);
                                  "contact_email" := report_email report;
                                  "message" := report_comments report]}) ;;
     contexts <- new_obj (ODict {["feedback" := feedback]}) ;;
     feedback_event <- new_obj (ODict {["contexts" := contexts]}) ;;
     match event with
     | Some event =>
         c <- py_getitem feedback_event "contexts" ;;
         f <- py_getitem c "feedback" ;;
         py_setitem f "associated_event_id" (event_event_id event) ;;
         rid <- (fun w => ([], w, Ok (get_path env (store w) (event_data event)
                                        ["contexts"; "replay"; "replay_id"]))) ;;
         trid <- py_truthy rid ;;
         when trid (
           ec <- py_getitem (event_data event) "contexts" ;;
           er <- py_getitem ec "replay" ;;
           c <- py_getitem feedback_event "contexts" ;;
           py_setitem c "replay" er ;;
           ec <- py_getitem (event_data event) "contexts" ;;
           er <- py_getitem ec "replay" ;;
           erid <- py_getitem er "replay_id" ;;
           c <- py_getitem feedback_event "contexts" ;;
           f <- py_getitem c "feedback" ;;
           py_setitem f "replay_id" erid) ;;
         py_setitem feedback_event "timestamp" (timestamp env (event_datetime event)) ;;
         lv <- py_getitem (event_data event) "level" ;;
         py_setitem feedback_event "level" lv ;;
         py_setitem feedback_event "platform" (event_platform event) ;;
         lv <- py_getitem (event_data event) "level" ;;
         py_setitem feedback_event "level" lv ;;
         py_setitem feedback_event "environment" (event_environment_name event) ;;
         items <- tag_lists (event_tags event) ;;
         tg <- new_obj (OList items) ;;
         py_setitem feedback_event "tags" tg
     | None =>
         metrics_incr "feedback.user_report.missing_event" [] ;;
         py_setitem feedback_event "timestamp" (timestamp env (datetime_utcnow env)) ;;
         py_setitem feedback_event "platform" (VStr "other") ;;
         py_setitem feedback_event "level" (default (VStr "info") (report_level report)) ;;
         rid <- py_truthy (default VNone (report_event_id report)) ;;
         when rid (
           c <- py_getitem feedback_event "contexts" ;;
           f <- py_getitem c "feedback" ;;
           py_setitem f "associated_event_id" (default VNone (report_event_id report)))
     end ;;
     create_feedback_issue env feedback_event (project_id project) source)
    (logger_exception
       "Error attempting to create new User Feedback from Shiming old User Report").

(** ** Vocabulary of the statements *)

(** [x.get(k)] is [None]: [x] is a dictionary without key [k], or with
    [None] under it. *)
Definition absent (h : heap) (x : val) (k : string) : Prop :=
  exists l d, x = VRef l /\ hdict h l = Some d /\ default VNone (d !! k) = VNone.

(** [x.get(k)] is [v], which is not [None]. *)
Definition present (h : heap) (x : val) (k : string) (v : val) : Prop :=
  exists l d, x = VRef l /\ hdict h l = Some d /\ d !! k = Some v /\ v <> VNone.

(** [contexts], [contexts.feedback] or [contexts.feedback.message] is absent. *)
Definition missing_context (h : heap) (event : val) : Prop :=
  absent h event "contexts"
  \/ (exists c, present h event "contexts" c /\ absent h c "feedback")
  \/ (exists c f, present h event "contexts" c /\ present h c "feedback" f
                  /\ absent h f "message").

(** [contexts.feedback.message] is [m]. *)
Definition has_message (h : heap) (event : val) (m : val) : Prop :=
  exists c f, present h event "contexts" c /\ present h c "feedback" f
              /\ present h f "message" m.

Definition entered_metric : effect :=
  MetricsIncr "feedback.create_feedback_issue.entered" [].

(** ** Sample inputs *)

Definition sample_project : Project :=
  mkProject 7%Z 1%Z (fun _ => true) false false.

(** An environment in which the classifier answers [spam], the schemas
    accept as [valid] says and the stream takes or refuses as [stream] says. *)
Definition sample_env_with (spam : result bool) (valid : schema -> bool)
    (stream : payload -> result unit) : Env :=
  mkEnv (fun _ => Ok sample_project) (fun _ _ => true) (fun _ => spam)
    (fun n => N.of_nat n) 1700000100%Z 1700000200%Z
    (fun v => match v with VInt n => Ok n | _ => Raise TypeError end)
    (fun d => pretty d) (fun d => VInt d) (fun s _ _ => valid s)
    stream (fun _ _ => "") (fun _ _ _ => VNone).

(** Every service answers: both schemas accept everything, the stream takes
    everything. *)
Definition sample_env (spam : result bool) : Env :=
  sample_env_with spam (fun _ => true) (fun _ => Ok tt).

(** The stream takes occurrences and refuses status changes. *)
Definition refuse_status_change (p : payload) : result unit :=
  match p with
  | OCCURRENCE _ _ => Ok tt
  | STATUS_CHANGE _ => Raise (OtherException "KafkaException")
  end.

(** [{"contexts": {"feedback": {"message": message, "contact_email":
    "a@b.com"}}, "timestamp": 1700000000, "event_id": "abc123"}] at
    location 1. *)
Definition sample_store (message : val) : heap :=
  <[1%positive := ODict {["contexts" := VRef 2%positive;
                          "timestamp" := VInt 1700000000%Z;
                          "event_id" := VStr "abc123"]}]>
  (<[2%positive := ODict {["feedback" := VRef 3%positive]}]>
  (<[3%positive := ODict {["message" := message;
                           "contact_email" := VStr "a@b.com"]}]> ∅)).

Definition sample_world (message : val) : world :=
  mkWorld (sample_store message) 0.

Definition sample_event : val := VRef 1%positive.

(** ** Evidence, as the specification words it *)

(** The entry for key [name] of the feedback context: there is one when the
    value under [name] is true in the sense of [bool(...)]. *)
Definition evidence_entry (h : heap) (feedback : dict) (name : string)
    (important : bool) : list IssueEvidence :=
  match feedback !! name with
  | Some v => if truthy h v then [mkIssueEvidence name v important] else []
  | None => []
  end.

(** The entries in the fixed order: associated_event_id, contact_email,
    message, name, source, is_spam. *)
Definition ordered_evidence (h : heap) (feedback : dict)
    (source : FeedbackCreationSource) (is_message_spam : option bool)
    : list IssueEvidence :=
  evidence_entry h feedback "associated_event_id" false
  ++ evidence_entry h feedback "contact_email" false
  ++ evidence_entry h feedback "message" true
  ++ evidence_entry h feedback "name" false
  ++ [mkIssueEvidence "source" (VStr (value source)) false]
  ++ match is_message_spam with
     | Some true => [mkIssueEvidence "is_spam" (VStr "True") false]
     | _ => []
     end.

Definition evidence_order : list string :=
  ["associated_event_id"; "contact_email"; "message"; "name"; "source"; "is_spam"].

(** The value of an entry is present: the source tag always is, the spam
    verdict is when it is [True] or [False], a key of the feedback context is
    when it holds something other than [None]. *)
Definition entry_present (feedback : dict) (is_message_spam : option bool)
    (name : string) : Prop :=
  name = "source"
  \/ (name = "is_spam" /\ is_message_spam <> None)
  \/ (name ∈ ["associated_event_id"; "contact_email"; "message"; "name"]
      /\ exists v, feedback !! name = Some v /\ v <> VNone).

(** The claim on evidence as stated: every entry whose value is present is
    listed. *)
Definition lists_every_present_entry : Prop :=
  forall w lf feedback source is_message_spam data display,
    hdict (store w) lf = Some feedback ->
    make_evidence (VRef lf) source is_message_spam w = ([], w, Ok (data, display)) ->
    forall name, entry_present feedback is_message_spam name ->
                 name ∈ map ev_name display.

(** ** The calls of one run, stage by stage *)

Definition invalid_schema_metric : effect :=
  MetricsIncr "feedback.create_feedback_issue.invalid_schema" [].

Definition set_ignored_metric : effect :=
  MetricsIncr "feedback.spam-detection-actions.set-ignored" [].

Definition produced_metric (source : FeedbackCreationSource) (client_source : val)
    : effect :=
  MetricsIncr "feedback.create_feedback_issue.produced_occurrence"
    [("referrer", VStr (value source)); ("client_source", client_source)].

(** The calls of a validation that passes: the current schema alone, or the
    current schema and then the legacy one. *)
Definition validated (t : list effect) : Prop :=
  t = [JsonschemaValidate EVENT_PAYLOAD_SCHEMA]
  \/ t = [JsonschemaValidate EVENT_PAYLOAD_SCHEMA;
          JsonschemaValidate LEGACY_EVENT_PAYLOAD_SCHEMA].

(** The calls of a validation that fails. *)
Definition invalidated : list effect :=
  [JsonschemaValidate EVENT_PAYLOAD_SCHEMA;
   JsonschemaValidate LEGACY_EVENT_PAYLOAD_SCHEMA;
   invalid_schema_metric].

(** The first-seen signals of a project for a source. *)
Definition first_seen_signals (project : Project) (source : FeedbackCreationSource)
    : list effect :=
  (if negb (flags_has_feedbacks project)
   then [SendRobust first_feedback_received (project_id project)] else [])
  ++ (if is_new_feedback source && negb (flags_has_new_feedbacks project)
      then [SendRobust first_new_feedback_received (project_id project)] else []).

Definition spam_actions_enabled (env : Env) (project : Project) : bool :=
  features_has env "organizations:user-feedback-spam-filter-actions"
    (project_organization_id project).

Definition ignore_message (project : Project) (fingerprint : list string)
    : StatusChangeMessage :=
  mkStatusChangeMessage fingerprint (project_id project) IGNORED FOREVER.

(** The calls of the spam triage once the status change is taken. *)
Definition spam_triage (env : Env) (project : Project)
    (is_message_spam : option bool) (fingerprint : list string) : list effect :=
  if verdict_truthy is_message_spam && spam_actions_enabled env project
  then [set_ignored_metric; Produced (STATUS_CHANGE (ignore_message project fingerprint))]
  else [].

Definition accepted_outcome (project : Project) (project_id : Z)
    (detection_time : datetime) (eid : val) : OutcomeRecord :=
  mkOutcomeRecord (project_organization_id project) project_id None ACCEPTED
    None detection_time eid USER_REPORT_V2 1.

(** What an occurrence built by the pipeline always carries. *)
Definition feedback_occurrence (project_id : Z) (occ : IssueOccurrence) : Prop :=
  occ_project_id occ = project_id
  /\ (exists fp, occ_fingerprint occ = [fp])
  /\ occ_issue_title occ = "User Feedback"
  /\ occ_resource_id occ = None
  /\ occ_type occ = FeedbackGroup
  /\ occ_culprit occ = "user".

(** The runs of [create_feedback_occurrence]: the calls made and how the run
    ends.  Building the occurrence and its event makes no call. *)
Inductive occurrence_run (env : Env) (project : Project)
    (is_message_spam : option bool) (project_id : Z)
    (source : FeedbackCreationSource) : list effect -> result unit -> Prop :=
| run_build_raises e :
    occurrence_run env project is_message_spam project_id source [] (Raise e)
| run_invalid :
    occurrence_run env project is_message_spam project_id source
      invalidated (Raise ValidationError)
| run_produce_raises tv e :
    validated tv ->
    occurrence_run env project is_message_spam project_id source
      (tv ++ first_seen_signals project source) (Raise e)
| run_triage_raises tv occ sent e :
    validated tv -> feedback_occurrence project_id occ ->
    verdict_truthy is_message_spam = true ->
    spam_actions_enabled env project = true ->
    kafka env (STATUS_CHANGE (ignore_message project (occ_fingerprint occ))) = Raise e ->
    occurrence_run env project is_message_spam project_id source
      (tv ++ first_seen_signals project source
          ++ [Produced (OCCURRENCE occ sent); set_ignored_metric]) (Raise e)
| run_read_raises tv occ sent e :
    validated tv -> feedback_occurrence project_id occ ->
    occurrence_run env project is_message_spam project_id source
      (tv ++ first_seen_signals project source
          ++ [Produced (OCCURRENCE occ sent)]
          ++ spam_triage env project is_message_spam (occ_fingerprint occ))
      (Raise e)
| run_read_id_raises tv occ sent client_source e :
    validated tv -> feedback_occurrence project_id occ ->
    occurrence_run env project is_message_spam project_id source
      (tv ++ first_seen_signals project source
          ++ [Produced (OCCURRENCE occ sent)]
          ++ spam_triage env project is_message_spam (occ_fingerprint occ)
          ++ [produced_metric source client_source])
      (Raise e)
| run_recorded tv occ sent client_source eid :
    validated tv -> feedback_occurrence project_id occ ->
    occurrence_run env project is_message_spam project_id source
      (tv ++ first_seen_signals project source
          ++ [Produced (OCCURRENCE occ sent)]
          ++ spam_triage env project is_message_spam (occ_fingerprint occ)
          ++ [produced_metric source client_source;
              TrackOutcome (accepted_outcome project project_id
                              (occ_detection_time occ) eid)])
      (Ok tt).

Definition spam_error_log : effect :=
  LoggerException "Error checking if message is spam".

Definition spam_filter_enabled (env : Env) (project : Project) : bool :=
  features_has env "organizations:user-feedback-spam-filter-ingest"
    (project_organization_id project)
  && project_get_option project "sentry:feedback_ai_spam_detection".

(** The calls of the classification and the verdict it leaves: nothing when
    the classifier is switched off; the call and its answer; the call and the
    logged failure; or the logged failure to read the message. *)
Inductive classified (env : Env) (project : Project)
    : list effect -> option bool -> Prop :=
| classify_off :
    spam_filter_enabled env project = false ->
    classified env project [] None
| classify_answer m b :
    spam_filter_enabled env project = true -> is_spam env m = Ok b ->
    classified env project [IsSpam m] (Some b)
| classify_failure m e :
    spam_filter_enabled env project = true -> is_spam env m = Raise e ->
    classified env project [IsSpam m; spam_error_log] None
| classify_unread :
    spam_filter_enabled env project = true ->
    classified env project [spam_error_log] None.

(** The runs of [create_feedback_issue]. *)
Inductive issue_run (env : Env) (project_id : Z) (source : FeedbackCreationSource)
    : list effect -> result unit -> Prop :=
| issue_filter_raises e :
    issue_run env project_id source [entered_metric] (Raise e)
| issue_rejected reason :
    issue_run env project_id source
      [entered_metric; filtered_metric reason] (Ok tt)
| issue_no_project e :
    get_from_cache env project_id = Raise e ->
    issue_run env project_id source [entered_metric] (Raise e)
| issue_accepted project tc v t r :
    get_from_cache env project_id = Ok project ->
    classified env project tc v ->
    occurrence_run env project v project_id source t r ->
    issue_run env project_id source (entered_metric :: tc ++ t) r.

(** ** The order of the stages *)

(** The stage a call belongs to: 0 filter (entry and rejection counters),
    1 classify, 3 validate, 4 first-seen signals, 5 publish of the
    occurrence, 6 spam triage, 7 accounting (produced counter and outcome).
    Stage 2, the build, makes no call. *)
Definition stage (e : effect) : nat :=
  match e with
  | MetricsIncr key _ =>
      if String.eqb key "feedback.create_feedback_issue.invalid_schema" then 3
      else if String.eqb key "feedback.spam-detection-actions.set-ignored" then 6
      else if String.eqb key "feedback.create_feedback_issue.produced_occurrence" then 7
      else 0
  | IsSpam _ | LoggerException _ => 1
  | JsonschemaValidate _ => 3
  | SendRobust _ _ => 4
  | Produced (OCCURRENCE _ _) => 5
  | Produced (STATUS_CHANGE _) => 6
  | TrackOutcome _ => 7
  end.

(** The stages as the specification orders them: publish before the
    first-seen signals. *)
Definition stage_as_stated (e : effect) : nat :=
  match e with
  | SendRobust _ _ => 5
  | Produced (OCCURRENCE _ _) => 4
  | _ => stage e
  end.

Fixpoint nondecreasing (l : list nat) : bool :=
  match l with
  | [] => true
  | x :: l' => forallb (fun y => x <=? y) l' && nondecreasing l'
  end.

Definition calls {A} (x : list effect * world * result A) : list effect := x.1.1.

(** The claim on the order of one run's calls as stated. *)
Definition publishes_before_signalling : Prop :=
  forall env event project_id source w,
    nondecreasing
      (map stage_as_stated
         (calls (create_feedback_issue env event project_id source w))) = true.

Definition is_outcome (e : effect) : bool :=
  match e with TrackOutcome _ => true | _ => false end.

Definition is_occurrence (e : effect) : bool :=
  match e with Produced (OCCURRENCE _ _) => true | _ => false end.

Definition is_status_change (e : effect) : bool :=
  match e with Produced (STATUS_CHANGE _) => true | _ => false end.

Definition is_signal (e : effect) : bool :=
  match e with SendRobust _ _ => true | _ => false end.

Definition is_produced (e : effect) : bool :=
  match e with Produced _ => true | _ => false end.

Definition is_classifier_call (e : effect) : bool :=
  match e with IsSpam _ => true | _ => false end.

Definition is_metric (key : string) (e : effect) : bool :=
  match e with MetricsIncr k _ => String.eqb k key | _ => false end.

(** How many calls of a kind a run makes. *)
Definition count (p : effect -> bool) (t : list effect) : nat :=
  length (filter (fun e => p e = true) t).

(** The claim on outcomes as stated: a published occurrence has its outcome
    record. *)
Definition records_every_published_occurrence : Prop :=
  forall env event project_id source w,
    let t := calls (create_feedback_issue env event project_id source w) in
    count is_occurrence t = 1 -> count is_outcome t = 1.

Definition is_validation (s : schema) (e : effect) : bool :=
  match e, s with
  | JsonschemaValidate EVENT_PAYLOAD_SCHEMA, EVENT_PAYLOAD_SCHEMA => true
  | JsonschemaValidate LEGACY_EVENT_PAYLOAD_SCHEMA, LEGACY_EVENT_PAYLOAD_SCHEMA => true
  | _, _ => false
  end.

(** The environment [env] with another classifier. *)
Definition with_is_spam (env : Env) (classifier : val -> result bool) : Env :=
  mkEnv (get_from_cache env) (features_has env) classifier (urandom env)
    (datetime_now env) (datetime_utcnow env) (fromtimestamp env) (isoformat env)
    (timestamp env) (jsonschema_valid env) (kafka env) (repr env) (get_path env).

(** ** Kinds of computations *)

(** A computation that only reads: no call is made and the world is left as
    it was. *)
Definition reads {A} (m : M A) : Prop := forall w, exists r, m w = ([], w, r).

(** A computation that makes no call. *)
Definition silent {A} (m : M A) : Prop :=
  forall w t w' r, m w = (t, w', r) -> t = [].


(** ** Changes of the store *)

(** From [h] to [h'] every object of [h] is still there, a dictionary is
    still a dictionary, and a field keeps its value unless [P] lets it
    change. *)
Definition changed (P : loc -> string -> Prop) (h h' : heap) : Prop :=
  forall l, is_Some (h !! l) ->
    is_Some (h' !! l) /\ is_dict h' l = is_dict h l
    /\ forall k, ~ P l k -> field h' l k = field h l k.

(** A computation that draws no identifier and changes fields that [P]
    allows only. *)
Definition modifies {A} (P : loc -> string -> Prop) (m : M A) : Prop :=
  forall w t w' r, m w = (t, w', r) ->
    changed P (store w) (store w') /\ entropy w' = entropy w.

Definition in_keys (ks : list string) (k : string) : bool :=
  existsb (String.eqb k) ks.

(** The fields [fix_for_issue_platform] may change in objects that exist
    before the call: these keys, wherever its argument leads. *)
Definition fixed_keys : list string :=
  ["replay"; "dist"; "name"; "isStaff"; "id"; "email"].

(** The fields [fix_for_issue_platform] may change once its result is at
    [lr]: any field of the result, and the fixed keys elsewhere. *)
Definition may_change (lr : loc) : loc -> string -> Prop :=
  fun l k => l = lr \/ in_keys fixed_keys k = true.

(** A computation that, when it returns, returns [v]. *)
Definition returns {A} (v : A) (m : M A) : Prop :=
  forall w t w' r, m w = (t, w', Ok r) -> r = v.

(** ** The legacy report without its event *)

Definition missing_event_metric : effect :=
  MetricsIncr "feedback.user_report.missing_event" [].

Definition shim_error_log : effect :=
  LoggerException
    "Error attempting to create new User Feedback from Shiming old User Report".

(** What the handler of [shim_to_feedback] adds to the calls of a run. *)
Definition shim_handled {A} (r : result A) : list effect :=
  match r with Ok _ => [] | Raise _ => [shim_error_log] end.

(** ** The changes [fix_for_issue_platform] makes in its argument *)

(** The keys changed in the objects of the argument once the copy is made,
    in the order they are changed. *)
Definition in_place_keys : list string := ["dist"; "name"; "isStaff"; "id"; "email"].

(** The fields that may be changed when the result is at [lr] and the keys
    [ks] are the ones written so far in the other objects. *)
Definition written (lr : loc) (ks : list string) : loc -> string -> Prop :=
  fun l k => l = lr \/ in_keys ks k = true.

(** What [if x.get(k) is not None: del x[k]] leaves under [k]. *)
Definition cleared (v : option val) : option val :=
  if is_none (default VNone v) then v else None.

(** [event.get("contexts", {}).get("feedback", {}).get("contact_email")] *)
Definition feedback_contact_email (h : heap) (l : loc) : val :=
  match field h l "contexts" with
  | Some (VRef lc) =>
      match field h lc "feedback" with
      | Some (VRef lf) => default VNone (field h lf "contact_email")
      | _ => VNone
      end
  | _ => VNone
  end.

(** [str(v)] for the values whose text does not depend on the environment. *)
Definition text_of (v : val) : option string :=
  match v with
  | VNone => Some "None"
  | VBool true => Some "True"
  | VBool false => Some "False"
  | VInt n => Some (pretty n)
  | VStr s => Some s
  | _ => None
  end.

(** The references the event holds under [user], [contexts] and
    [contexts.feedback] point to objects of the store. *)
Definition sound_event (h : heap) (l : loc) : Prop :=
  (forall lu, field h l "user" = Some (VRef lu) -> is_Some (h !! lu))
  /\ (forall lc, field h l "contexts" = Some (VRef lc) ->
        is_Some (h !! lc)
        /\ forall lf, field h lc "feedback" = Some (VRef lf) -> is_Some (h !! lf)).

(** [{"contexts": {"feedback": {"message": "Great app!"}}, "timestamp":
    1700000000, "received": "2023-11-14T22:13:20", "project_id": 7,
    "event_id": "abc123", "dist": "1.0", "user": {"name": "Ada", "isStaff":
    False, "id": 42}, "tags": []}] at location 1: a user, a [dist], no
    contact email. *)
Definition sample_user_store : heap :=
  <[1%positive := ODict {["contexts" := VRef 2%positive;
                          "timestamp" := VInt 1700000000%Z;
                          "received" := VStr "2023-11-14T22:13:20";
                          "project_id" := VInt 7%Z;
                          "event_id" := VStr "abc123";
                          "dist" := VStr "1.0";
                          "user" := VRef 4%positive;
                          "tags" := VRef 5%positive]}]>
  (<[2%positive := ODict {["feedback" := VRef 3%positive]}]>
  (<[3%positive := ODict {["message" := VStr "Great app!"]}]>
  (<[4%positive := ODict {["name" := VStr "Ada";
                           "isStaff" := VBool false;
                           "id" := VInt 42%Z]}]>
  (<[5%positive := OList []]> ∅)))).

(** ** Further sample inputs *)

(** The environment [env] with another project cache. *)
Definition with_get_from_cache (env : Env) (lookup : Z -> result Project) : Env :=
  mkEnv lookup (features_has env) (is_spam env) (urandom env)
    (datetime_now env) (datetime_utcnow env) (fromtimestamp env) (isoformat env)
    (timestamp env) (jsonschema_valid env) (kafka env) (repr env) (get_path env).

(** The keys [fix_for_issue_platform] writes in its result. *)
Definition result_keys : list string :=
  ["timestamp"; "received"; "project_id"; "contexts"; "event_id"; "tags";
   "platform"; "level"; "environment"; "sdk"; "request"; "user"; "logentry"].

(** The state in which [fix_for_issue_platform] reads its argument at [l]:
    the result at [lr] is a dictionary, and the argument is as it was. *)
Definition copying (lr l : loc) (d : dict) (n : nat) (w : world) : Prop :=
  is_dict (store w) lr = true /\ l <> lr /\ hdict (store w) l = Some d
  /\ entropy w = n.


(** [event.get("contexts", {}).get("feedback", {}).get(k)] *)
Definition feedback_get (h : heap) (l : loc) (k : string) : val :=
  match field h l "contexts" with
  | Some (VRef lc) =>
      match field h lc "feedback" with
      | Some (VRef lf) => default VNone (field h lf k)
      | _ => VNone
      end
  | _ => VNone
  end.

(** ** Further kinds of calls *)

(** The signal [s] is sent. *)
Definition is_send (s : signal) (e : effect) : bool :=
  match e, s with
  | SendRobust first_feedback_received _, first_feedback_received => true
  | SendRobust first_new_feedback_received _, first_new_feedback_received => true
  | _, _ => false
  end.

(** ** The evidence data *)

(** [if feedback.get(name): evidence_data[name] = feedback[name]] *)
Definition evidence_value (h : heap) (feedback : dict) (name : string)
    (data : dict) : dict :=
  match feedback !! name with
  | Some v => if truthy h v then <[name := v]> data else data
  | None => data
  end.

(** The evidence data [make_evidence] builds, key by key in its order. *)
Definition evidence_data_of (h : heap) (feedback : dict)
    (source : FeedbackCreationSource) (is_message_spam : option bool) : dict :=
  let d :=
    <["source" := VStr (value source)]>
      (evidence_value h feedback "name"
         (evidence_value h feedback "message"
            (evidence_value h feedback "contact_email"
               (evidence_value h feedback "associated_event_id" ∅)))) in
  match is_message_spam with
  | Some true => <["is_spam" := VBool true]> d
  | _ => d
  end.

(** The data hold each displayed value under its name, and the names are
    among [ks]. *)
Definition displayed (ks : list string) (data : dict)
    (display : list IssueEvidence) : Prop :=
  forall e, e ∈ display ->
    data !! ev_name e = Some (ev_value e) /\ ev_name e ∈ ks.

(** [{"contexts": {"feedback": {"message": "Great app!", "replay_id":
    "r1"}}, "timestamp": 1700000000, "received": "2023-11-14T22:13:20",
    "project_id": 7, "event_id": "abc123"}] at location 1: a replay id in
    the feedback context and no replay context. *)
Definition sample_replay_store : heap :=
  <[1%positive := ODict {["contexts" := VRef 2%positive;
                          "timestamp" := VInt 1700000000%Z;
                          "received" := VStr "2023-11-14T22:13:20";
                          "project_id" := VInt 7%Z;
                          "event_id" := VStr "abc123"]}]>
  (<[2%positive := ODict {["feedback" := VRef 3%positive]}]>
  (<[3%positive := ODict {["message" := VStr "Great app!";
                           "replay_id" := VStr "r1"]}]> ∅)).

(** A stored error event of an SDK: its data is at location 1 of
    [sample_event_store]. *)
Definition sample_error_event : Event :=
  mkEvent (VStr "e1") (VRef 1%positive) 1700000000%Z (VStr "python")
    (VStr "production") [(VStr "browser", VStr "Firefox")].

(** [{"level": "error", "contexts": {"trace": {}}}] at location 1. *)
Definition sample_event_store : heap :=
  <[1%positive := ODict {["level" := VStr "error"; "contexts" := VRef 2%positive]}]>
  (<[2%positive := ODict {["trace" := VRef 3%positive]}]>
  (<[3%positive := ODict ∅]> ∅)).

(** The event of [sample_replay_store] with a replay context,
    [{"replay_id": "r0"}] at location 4, in its contexts. *)
Definition sample_replayed_store : heap :=
  <[2%positive := ODict {["feedback" := VRef 3%positive;
                          "replay" := VRef 4%positive]}]>
  (<[4%positive := ODict {["replay_id" := VStr "r0"]}]> sample_replay_store).

(** [v] is a scalar or a reference to a dictionary of the store. *)
Definition scalar_or_dict (h : heap) (v : val) : Prop :=
  forall l, v = VRef l -> is_dict h l = true.

(** The store at line 329 of [shim_to_feedback] called in store [h] with an
    event: the three new dictionaries of the feedback event are there, and
    the feedback context holds the event's id. *)
Definition shim_event_store (report : UserReportShimDict) (event_id : val)
    (h : heap) : heap :=
  let feedback := fresh (dom h) in
  let h1 := halloc h (ODict {["name" := default (VStr "") (report_name report);
                              "contact_email" := report_email report;
                              "message" := report_comments report]}) in
  let contexts := fresh (dom h1) in
  let h2 := halloc h1 (ODict {["feedback" := VRef feedback]}) in
  let h3 := halloc h2 (ODict {["contexts" := VRef contexts]}) in
  hset h3 feedback "associated_event_id" event_id.

(** The environment [env] with another [get_path]. *)
Definition with_get_path (env : Env) (f : heap -> val -> list string -> val) : Env :=
  mkEnv (get_from_cache env) (features_has env) (is_spam env) (urandom env)
    (datetime_now env) (datetime_utcnow env) (fromtimestamp env) (isoformat env)
    (timestamp env) (jsonschema_valid env) (kafka env) (repr env) f.

(** A [get_path] that reads the store: it follows the keys through nested
    dictionaries and gives [None] where a key or a dictionary is missing. *)
Fixpoint sample_get_path (h : heap) (x : val) (path : list string) : val :=
  match path with
  | [] => x
  | k :: rest =>
      match x with
      | VRef l =>
          match field h l k with
          | Some v => sample_get_path h v rest
          | None => VNone
          end
      | _ => VNone
      end
  end.

(** * Properties *)

(** ** Running the monad *)

Lemma bind_run {A B} (m : M A) (f : A -> M B) w :
  bind m f w =
  match m w with
  | (t1, w1, Ok a) => let '(t2, w2, r) := f a w1 in (t1 ++ t2, w2, r)
  | (t1, w1, Raise e) => (t1, w1, Raise e)
  end.
Proof. reflexivity. Qed.

Lemma py_get_dict h w l d k dflt :
  store w = h -> hdict h l = Some d ->
  py_get (VRef l) k dflt w = ([], w, Ok (default dflt (d !! k))).
Proof. intros <- H. unfold py_get. by rewrite H. Qed.

Lemma py_getitem_dict h w l d k v :
  store w = h -> hdict h l = Some d -> d !! k = Some v ->
  py_getitem (VRef l) k w = ([], w, Ok v).
Proof. intros <- H Hk. unfold py_getitem. by rewrite H, Hk. Qed.

Lemma py_get_absent w x k :
  absent (store w) x k -> py_get x k VNone w = ([], w, Ok VNone).
Proof.
  intros (l & d & -> & Hd & Hk). erewrite py_get_dict by eauto. by rewrite Hk.
Qed.

Lemma py_get_present w x k v :
  present (store w) x k v -> py_get x k VNone w = ([], w, Ok v).
Proof.
  intros (l & d & -> & Hd & Hk & _). erewrite py_get_dict by eauto. by rewrite Hk.
Qed.

Lemma py_getitem_present w x k v :
  present (store w) x k v -> py_getitem x k w = ([], w, Ok v).
Proof. intros (l & d & -> & Hd & Hk & _). by erewrite py_getitem_dict. Qed.

Lemma is_none_present h x k v : present h x k v -> is_none v = false.
Proof. intros (_ & _ & _ & _ & _ & Hv). by destruct v. Qed.

Lemma feedback_message_has w event m :
  has_message (store w) event m -> feedback_message event w = ([], w, Ok m).
Proof.
  intros (c & f & Hc & Hf & Hm). unfold feedback_message.
  rewrite bind_run, (py_getitem_present _ _ _ _ Hc).
  cbv beta iota zeta. rewrite bind_run, (py_getitem_present _ _ _ _ Hf).
  cbv beta iota zeta. by rewrite (py_getitem_present _ _ _ _ Hm).
Qed.

Lemma bind_assoc {A B C} (m : M A) (f : A -> M B) (g : B -> M C) w :
  bind (bind m f) g w = bind m (fun a => bind (f a) g) w.
Proof.
  unfold bind. destruct (m w) as [[t1 w1] [a|e]]; [|done].
  destruct (f a w1) as [[t2 w2] [b|e]]; [|done].
  destruct (g b w2) as [[t3 w3] r]. by rewrite app_assoc.
Qed.

Lemma bind_ret {A B} (a : A) (f : A -> M B) w : bind (ret a) f w = f a w.
Proof. unfold bind, ret. by destruct (f a w) as [[t2 w2] r]. Qed.

Lemma bind_pure {A B} (m : M A) (f : A -> M B) w a :
  m w = ([], w, Ok a) -> bind m f w = f a w.
Proof. intros H. unfold bind. rewrite H. by destruct (f a w) as [[t2 w2] r]. Qed.

Lemma bind_pure_raise {A B} (m : M A) (f : A -> M B) w e :
  m w = ([], w, Raise e) -> bind m f w = ([], w, Raise e).
Proof. intros H. unfold bind. by rewrite H. Qed.

Lemma bind_emit {B} (e : effect) (f : unit -> M B) w :
  bind (emit e) f w = let '(t, w', r) := f tt w in (e :: t, w', r).
Proof. reflexivity. Qed.

Ltac norm := rewrite ?bind_assoc, ?bind_ret.
Ltac step H := norm; rewrite (bind_pure _ _ _ _ H); cbv beta iota.

Lemma reads_ret {A} (a : A) : reads (ret a).
Proof. intros w. by eexists. Qed.

Lemma reads_raise {A} e : reads (@raise A e).
Proof. intros w. by eexists. Qed.

Lemma reads_lift {A} (r : result A) : reads (lift r).
Proof. intros w. by eexists. Qed.

Lemma reads_bind {A B} (m : M A) (f : A -> M B) :
  reads m -> (forall a, reads (f a)) -> reads (bind m f).
Proof.
  intros Hm Hf w. destruct (Hm w) as [[a|e] Hr].
  - destruct (Hf a w) as [r Hr']. exists r. by rewrite (bind_pure _ _ _ _ Hr).
  - exists (Raise e). by rewrite (bind_pure_raise _ _ _ _ Hr).
Qed.

Lemma reads_py_truthy v : reads (py_truthy v).
Proof. intros w. by eexists. Qed.

Lemma reads_py_get x k d : reads (py_get x k d).
Proof.
  intros w. unfold py_get. destruct x; try by eexists.
  destruct (hdict (store w) l); by eexists.
Qed.

Lemma reads_py_getitem x k : reads (py_getitem x k).
Proof.
  intros w. unfold py_getitem. destruct x; try by eexists.
  destruct (hdict (store w) l) as [d|]; [|by eexists].
  destruct (d !! k); by eexists.
Qed.

Lemma reads_py_mapping x : reads (py_mapping x).
Proof.
  intros w. unfold py_mapping. destruct x; try by eexists.
  destruct (hdict (store w) l); by eexists.
Qed.

Lemma reads_py_strip x : reads (py_strip x).
Proof. destruct x; apply reads_ret || apply reads_raise. Qed.

Lemma reads_py_str env x : reads (py_str env x).
Proof. intros w. by eexists. Qed.

Lemma reads_if {A} (b : bool) (m1 m2 : M A) :
  reads m1 -> reads m2 -> reads (if b then m1 else m2).
Proof. by destruct b. Qed.

Lemma reads_py_or a b : reads a -> reads b -> reads (py_or a b).
Proof.
  intros Ha Hb. apply reads_bind; [done|]. intros x.
  apply reads_if; [apply reads_ret | done].
Qed.

Create HintDb reads.
#[export] Hint Resolve reads_ret reads_raise reads_lift reads_py_truthy
  reads_py_get reads_py_getitem reads_py_mapping reads_py_strip reads_py_str
  reads_if reads_py_or : reads.

Ltac solve_reads :=
  repeat first
    [ apply reads_bind; [|intros ?]
    | progress eauto with reads
    | apply reads_if
    | apply reads_py_or ].

Lemma reads_feedback_message event : reads (feedback_message event).
Proof. unfold feedback_message. solve_reads. Qed.
#[export] Hint Resolve reads_feedback_message : reads.

Lemma reads_make_evidence f source v : reads (make_evidence f source v).
Proof. unfold make_evidence. solve_reads. Qed.
#[export] Hint Resolve reads_make_evidence : reads.

(** A reading step followed by the rest. *)
Lemma bind_reads {A B} (m : M A) (f : A -> M B) w :
  reads m ->
  exists r, m w = ([], w, r) /\
    bind m f w = match r with Ok a => f a w | Raise e => ([], w, Raise e) end.
Proof.
  intros Hm. destruct (Hm w) as [[a|e] Hr]; eexists; split; try done.
  - by apply bind_pure.
  - by apply bind_pure_raise.
Qed.

(** ** The filter stage *)

Lemma missing_check_false event w m :
  has_message (store w) event m ->
  py_or (c <- py_get event "contexts" VNone ;; ret (is_none c))
      (py_or (c <- py_getitem event "contexts" ;;
              f <- py_get c "feedback" VNone ;;
              ret (is_none f))
             (c <- py_getitem event "contexts" ;;
              f <- py_getitem c "feedback" ;;
              m <- py_get f "message" VNone ;;
              ret (is_none m))) w = ([], w, Ok false).
Proof.
  intros (c & f & Hc & Hf & Hm). unfold py_or.
  step (py_get_present _ _ _ _ Hc). norm. rewrite (is_none_present _ _ _ _ Hc).
  step (py_getitem_present _ _ _ _ Hc). step (py_get_present _ _ _ _ Hf). norm.
  rewrite (is_none_present _ _ _ _ Hf).
  step (py_getitem_present _ _ _ _ Hc). step (py_getitem_present _ _ _ _ Hf).
  step (py_get_present _ _ _ _ Hm). norm. by rewrite (is_none_present _ _ _ _ Hm).
Qed.

Lemma sf_missing event pid source w :
  missing_context (store w) event ->
  should_filter_feedback event pid source w
  = ([filtered_metric "missing_context"], w, Ok true).
Proof.
  intros [Ha | [(c & Hc & Ha) | (c & f & Hc & Hf & Ha)]];
    unfold should_filter_feedback, py_or.
  - step (py_get_absent _ _ _ Ha). norm. reflexivity.
  - step (py_get_present _ _ _ _ Hc). norm. rewrite (is_none_present _ _ _ _ Hc).
    step (py_getitem_present _ _ _ _ Hc). step (py_get_absent _ _ _ Ha).
    norm. reflexivity.
  - step (py_get_present _ _ _ _ Hc). norm. rewrite (is_none_present _ _ _ _ Hc).
    step (py_getitem_present _ _ _ _ Hc). step (py_get_present _ _ _ _ Hf). norm.
    rewrite (is_none_present _ _ _ _ Hf).
    step (py_getitem_present _ _ _ _ Hc). step (py_getitem_present _ _ _ _ Hf).
    step (py_get_absent _ _ _ Ha). norm. reflexivity.
Qed.

Lemma sf_message event pid source w s :
  has_message (store w) event (VStr s) ->
  should_filter_feedback event pid source w =
  if String.eqb s UNREAL_FEEDBACK_UNATTENDED_MESSAGE
  then ([filtered_metric "unreal.unattended"], w, Ok true)
  else if String.eqb (strip s) ""
       then ([filtered_metric "empty"], w, Ok true)
       else ([], w, Ok false).
Proof.
  intros Hm. unfold should_filter_feedback.
  step (missing_check_false _ _ _ Hm).
  step (feedback_message_has _ _ _ Hm).
  unfold py_eq_str. destruct (String.eqb s _); [reflexivity|].
  step (feedback_message_has _ _ _ Hm). unfold py_strip. norm.
  by destruct (String.eqb (strip s) "").
Qed.

Ltac read_step H :=
  match type of H with
  | bind ?m ?f ?w = _ =>
      let r := fresh "r" in
      let Hr := fresh "Hr" in
      destruct (bind_reads m f w) as (r & _ & Hr);
      [unfold py_or; solve_reads | rewrite Hr in H; clear Hr]
  end.

Lemma sf_rejection event pid source w t w' :
  should_filter_feedback event pid source w = (t, w', Ok true) ->
  w' = w /\ exists reason, t = [filtered_metric reason].
Proof.
  unfold should_filter_feedback. intros H.
  read_step H. destruct r as [[|]|e]; [| |done].
  { inversion H. eauto. }
  read_step H. destruct r as [m|e]; [|done].
  destruct (py_eq_str m _). { inversion H. eauto. }
  read_step H. destruct r as [m'|e]; [|done].
  read_step H. destruct r as [s|e]; [|done].
  destruct (String.eqb s ""); inversion H. eauto.
Qed.

Lemma cfi_rejected env event pid source w t w' :
  should_filter_feedback event pid source w = (t, w', Ok true) ->
  create_feedback_issue env event pid source w = (entered_metric :: t, w', Ok tt).
Proof.
  intros H. unfold create_feedback_issue, metrics_incr.
  rewrite bind_emit. unfold bind. rewrite H. cbn. by rewrite app_nil_r.
Qed.

(** C1. The filter rejects, in this order: with reason [missing_context] when
    [contexts], [contexts.feedback] or [contexts.feedback.message] is absent;
    otherwise with reason [unreal.unattended] when the message is the
    unattended sentinel; otherwise with reason [empty] when the message is
    empty once stripped; otherwise it accepts.  Whenever the filter rejects,
    [create_feedback_issue] makes two calls only, the entry counter and the
    rejection counter, leaves the world as it was (nothing built, no
    identifier drawn) and returns: nothing is produced to the stream and no
    outcome is recorded. *)
Theorem C1_filter_rejects_in_order env event pid source w :
  (missing_context (store w) event ->
   should_filter_feedback event pid source w
   = ([filtered_metric "missing_context"], w, Ok true))
  /\ (forall s, has_message (store w) event (VStr s) ->
        s = UNREAL_FEEDBACK_UNATTENDED_MESSAGE ->
        should_filter_feedback event pid source w
        = ([filtered_metric "unreal.unattended"], w, Ok true))
  /\ (forall s, has_message (store w) event (VStr s) ->
        s <> UNREAL_FEEDBACK_UNATTENDED_MESSAGE -> strip s = "" ->
        should_filter_feedback event pid source w
        = ([filtered_metric "empty"], w, Ok true))
  /\ (forall s, has_message (store w) event (VStr s) ->
        s <> UNREAL_FEEDBACK_UNATTENDED_MESSAGE -> strip s <> "" ->
        should_filter_feedback event pid source w = ([], w, Ok false))
  /\ (forall t w',
        should_filter_feedback event pid source w = (t, w', Ok true) ->
        exists reason,
          create_feedback_issue env event pid source w
          = ([entered_metric; filtered_metric reason], w, Ok tt)).
Proof.
  repeat split.
  - apply sf_missing.
  - intros s Hm ->. by rewrite (sf_message _ _ _ _ _ Hm).
  - intros s Hm Hs Hst. rewrite (sf_message _ _ _ _ _ Hm), Hst.
    by apply String.eqb_neq in Hs as ->.
  - intros s Hm Hs Hst. rewrite (sf_message _ _ _ _ _ Hm).
    apply String.eqb_neq in Hs as ->. by apply String.eqb_neq in Hst as ->.
  - intros t w' H. destruct (sf_rejection _ _ _ _ _ _ H) as (-> & reason & ->).
    exists reason. by apply cfi_rejected.
Qed.

Lemma sample_has_message m :
  m <> VNone -> has_message (sample_store m) sample_event m.
Proof.
  intros Hm. exists (VRef 2%positive), (VRef 3%positive).
  repeat split; eexists _, _; (split; [reflexivity|]);
    (split; [reflexivity|]); (split; [reflexivity|]); done.
Defined.

Lemma C1_witness :
  create_feedback_issue (sample_env (Ok false)) sample_event 7%Z
    NEW_FEEDBACK_ENVELOPE (sample_world (VStr "  "))
  = ([entered_metric; filtered_metric "empty"], sample_world (VStr "  "), Ok tt).
Proof.
  destruct (C1_filter_rejects_in_order (sample_env (Ok false)) sample_event 7%Z
              NEW_FEEDBACK_ENVELOPE (sample_world (VStr "  ")))
    as (_ & _ & Hempty & _ & Hrun).
  assert (Hsf := Hempty "  " (sample_has_message (VStr "  ") ltac:(done))
                   ltac:(done) ltac:(reflexivity)).
  destruct (Hrun _ _ Hsf) as [reason Hr]. rewrite Hr.
  vm_compute in Hr. by inversion Hr.
Defined.

(** ** Evidence *)

Lemma py_truthy_run v w : py_truthy v w = ([], w, Ok (truthy (store w) v)).
Proof. reflexivity. Qed.

(** One block of [make_evidence]: the entry is appended when the value is
    true. *)
Lemma evidence_block w lf feedback name important
    (e : dict * list IssueEvidence) :
  hdict (store w) lf = Some feedback ->
  exists data,
  (forall B (k : dict * list IssueEvidence -> M B),
  bind (py_get (VRef lf) name VNone) (fun a =>
    bind (py_truthy a) (fun ta =>
      bind (if ta : bool then
              bind (py_getitem (VRef lf) name) (fun v1 =>
                bind (py_getitem (VRef lf) name) (fun v2 =>
                  ret (<[name := v1]> (e.1),
                       e.2 ++ [mkIssueEvidence name v2 important])))
            else ret e) k)) w
  = k (data, e.2 ++ evidence_entry (store w) feedback name important) w)
  /\ (forall key, is_Some (data !! key) <->
        is_Some (e.1 !! key) \/
        key ∈ map ev_name (evidence_entry (store w) feedback name important)).
Proof.
  intros Hd. unfold evidence_entry.
  destruct (feedback !! name) as [v|] eqn:Hv.
  - destruct (truthy (store w) v) eqn:Ht.
    + exists (<[name := v]> (e.1)). split.
      * intros B k.
        step (py_get_dict _ w _ _ name VNone eq_refl Hd). rewrite Hv. simpl default.
        step (py_truthy_run v w). rewrite Ht.
        step (py_getitem_dict _ w _ _ _ _ eq_refl Hd Hv).
        step (py_getitem_dict _ w _ _ _ _ eq_refl Hd Hv). by norm.
      * intros key. rewrite lookup_insert_is_Some. simpl.
        rewrite list_elem_of_singleton. destruct (decide (name = key)); intuition congruence.
    + exists (e.1). split.
      * intros B k.
        step (py_get_dict _ w _ _ name VNone eq_refl Hd). rewrite Hv. simpl default.
        step (py_truthy_run v w). rewrite Ht. norm. rewrite app_nil_r. by destruct e.
      * intros key. simpl. rewrite elem_of_nil. tauto.
  - exists (e.1). split.
    + intros B k.
      step (py_get_dict _ w _ _ name VNone eq_refl Hd). rewrite Hv. simpl default.
      step (py_truthy_run VNone w). simpl truthy. cbv iota. norm.
      rewrite app_nil_r. by destruct e.
    + intros key. simpl. rewrite elem_of_nil. tauto.
Qed.

Lemma make_evidence_run w lf feedback source v :
  hdict (store w) lf = Some feedback ->
  exists data,
    make_evidence (VRef lf) source v w
    = ([], w, Ok (data, ordered_evidence (store w) feedback source v))
    /\ forall key, is_Some (data !! key) <->
         key ∈ map ev_name (ordered_evidence (store w) feedback source v).
Proof.
  intros Hd. unfold make_evidence, ordered_evidence.
  destruct (evidence_block w lf feedback "associated_event_id" false (∅, []) Hd)
    as (d1 & Heq & H1). rewrite Heq. clear Heq. cbv beta.
  edestruct (evidence_block w lf feedback "contact_email" false)
    as (d2 & Heq & H2); [exact Hd|]. rewrite Heq. clear Heq. cbv beta.
  edestruct (evidence_block w lf feedback "message" true)
    as (d3 & Heq & H3); [exact Hd|]. rewrite Heq. clear Heq. cbv beta.
  edestruct (evidence_block w lf feedback "name" false)
    as (d4 & Heq & H4); [exact Hd|]. rewrite Heq. clear Heq. cbv beta.
  simpl fst in *. simpl snd in *.
  simpl fst in *. simpl snd in *.
  exists (match v with
          | Some true => <["is_spam" := VBool true]> (<["source" := VStr (value source)]> d4)
          | _ => <["source" := VStr (value source)]> d4
          end). split.
  - unfold ret.
    destruct v as [[|]|]; simpl fst; simpl snd;
      rewrite <- ?app_assoc, ?app_nil_r; reflexivity.
  - intros key. rewrite !map_app, !elem_of_app.
    assert (Hn : ~ is_Some (@None val)) by (intros [? ?]; done).
    assert (Hs : is_Some ((<["source" := VStr (value source)]> d4) !! key) <->
                 is_Some (d4 !! key) \/ key = "source").
    { rewrite lookup_insert_is_Some. destruct (decide ("source" = key)); intuition congruence. }
    rewrite H4, H3, H2, H1, lookup_empty in Hs.
    destruct v as [[|]|]; simpl map;
      rewrite ?list_elem_of_singleton, ?elem_of_nil.
    + rewrite lookup_insert_is_Some, Hs.
      destruct (decide ("is_spam" = key)); intuition congruence.
    + rewrite Hs. tauto.
    + rewrite Hs. tauto.
Qed.

Lemma ordered_evidence_sublist h feedback source v :
  map ev_name (ordered_evidence h feedback source v) `sublist_of` evidence_order.
Proof.
  unfold ordered_evidence, evidence_entry, evidence_order.
  repeat case_match; simpl;
    repeat first [apply sublist_nil | apply sublist_skip | apply sublist_cons].
Qed.

(** C2 (amended). The entries of [evidence_display] come in the fixed order
    associated_event_id, contact_email, message, name, source, is_spam.  An
    entry of the feedback context is listed exactly when its value is true in
    Python's sense (present, not [None], not empty); the source is always
    listed; is_spam is listed exactly when the verdict is [True].
    [evidence_data] has the same keys. *)
Theorem C2_evidence_in_fixed_order w lf feedback source is_message_spam :
  hdict (store w) lf = Some feedback ->
  exists data display,
    make_evidence (VRef lf) source is_message_spam w = ([], w, Ok (data, display))
    /\ display = ordered_evidence (store w) feedback source is_message_spam
    /\ map ev_name display `sublist_of` evidence_order
    /\ forall key, is_Some (data !! key) <-> key ∈ map ev_name display.
Proof.
  intros Hd.
  destruct (make_evidence_run w lf feedback source is_message_spam Hd)
    as (data & Hrun & Hkeys).
  exists data, (ordered_evidence (store w) feedback source is_message_spam).
  repeat split; try done; try apply Hkeys. apply ordered_evidence_sublist.
Qed.

Lemma C2_witness :
  exists data display,
    make_evidence (VRef 3%positive) NEW_FEEDBACK_ENVELOPE (Some true)
      (sample_world (VStr "Great app!"))
    = ([], sample_world (VStr "Great app!"), Ok (data, display))
    /\ map ev_name display = ["contact_email"; "message"; "source"; "is_spam"].
Proof.
  destruct (C2_evidence_in_fixed_order (sample_world (VStr "Great app!"))
              3%positive
              {["message" := VStr "Great app!"; "contact_email" := VStr "a@b.com"]}
              NEW_FEEDBACK_ENVELOPE (Some true) eq_refl)
    as (data & display & Hrun & -> & _).
  eexists data, _. split; [exact Hrun | reflexivity].
Defined.

(** C2 as stated fails: with the verdict [False] the value of is_spam is
    present, and no is_spam entry is listed. *)
Lemma C2_counterexample : ~ lists_every_present_entry.
Proof.
  intros H.
  destruct (make_evidence_run (sample_world (VStr "Great app!")) 3%positive
              {["message" := VStr "Great app!"; "contact_email" := VStr "a@b.com"]}
              NEW_FEEDBACK_ENVELOPE (Some false) eq_refl) as (data & Hrun & _).
  specialize (H (sample_world (VStr "Great app!")) 3%positive
                {["message" := VStr "Great app!"; "contact_email" := VStr "a@b.com"]}
                _ _ _ _ eq_refl Hrun "is_spam").
  assert (Hin : "is_spam" ∈ map ev_name
            (ordered_evidence (store (sample_world (VStr "Great app!")))
               {["message" := VStr "Great app!"; "contact_email" := VStr "a@b.com"]}
               NEW_FEEDBACK_ENVELOPE (Some false))).
  { apply H. right. left. done. }
  vm_compute in Hin.
  repeat (apply elem_of_cons in Hin as [Hin|Hin]; [discriminate|]).
  by apply elem_of_nil in Hin.
Qed.

(** ** Taking a run apart *)

Lemma bind_inv {A B} (m : M A) (f : A -> M B) w t w' r :
  bind m f w = (t, w', r) ->
  exists t1 w1 r1, m w = (t1, w1, r1) /\
    match r1 with
    | Ok a => exists t2, f a w1 = (t2, w', r) /\ t = t1 ++ t2
    | Raise e => r = Raise e /\ t = t1 /\ w' = w1
    end.
Proof.
  unfold bind. destruct (m w) as [[t1 w1] [a|e]]; intros H.
  - exists t1, w1, (Ok a). split; [done|].
    destruct (f a w1) as [[t2 w2] r2]. inversion H. by exists t2.
  - exists t1, w1, (Raise e). by inversion H.
Qed.

Lemma silent_reads {A} (m : M A) : reads m -> silent m.
Proof. intros Hm w t w' r H. destruct (Hm w) as [r' Hr]. congruence. Qed.

Lemma silent_bind {A B} (m : M A) (f : A -> M B) :
  silent m -> (forall a, silent (f a)) -> silent (bind m f).
Proof.
  intros Hm Hf w t w' r H.
  apply bind_inv in H as (t1 & w1 & [a|e] & H1 & H2).
  - destruct H2 as (t2 & H2 & ->). by rewrite (Hm _ _ _ _ H1), (Hf _ _ _ _ _ H2).
  - destruct H2 as (_ & -> & _). by apply (Hm _ _ _ _ H1).
Qed.

Lemma silent_ret {A} (a : A) : silent (ret a).
Proof. intros w t w' r H. by inversion H. Qed.

Lemma silent_new_obj o : silent (new_obj o).
Proof. intros w t w' r H. by inversion H. Qed.

Lemma silent_uuid4_hex env : silent (uuid4_hex env).
Proof. intros w t w' r H. by inversion H. Qed.

Lemma silent_py_setitem x k v : silent (py_setitem x k v).
Proof.
  intros w t w' r. unfold py_setitem. destruct x; try by inversion 1.
  destruct (hdict (store w) l); by inversion 1.
Qed.

Lemma silent_py_delitem x k : silent (py_delitem x k).
Proof.
  intros w t w' r. unfold py_delitem. destruct x; try by inversion 1.
  destruct (hdict (store w) l) as [d|]; [|by inversion 1].
  destruct (d !! k); by inversion 1.
Qed.

Lemma silent_py_get_new x k o : silent (py_get_new x k o).
Proof.
  intros w t w' r. unfold py_get_new. destruct x; try by inversion 1.
  destruct (hdict (store w) l) as [d|]; [|by inversion 1].
  apply silent_bind; [apply silent_new_obj|].
  intros a. apply silent_reads, reads_py_get.
Qed.

Lemma silent_if {A} (b : bool) (m1 m2 : M A) :
  silent m1 -> silent m2 -> silent (if b then m1 else m2).
Proof. by destruct b. Qed.

Lemma silent_when b m : silent m -> silent (when b m).
Proof. intros Hm. apply silent_if; [done | apply silent_ret]. Qed.

Ltac solve_silent :=
  repeat first
    [ apply silent_bind; [|intros ?]
    | apply silent_ret
    | apply silent_new_obj
    | apply silent_uuid4_hex
    | apply silent_py_setitem
    | apply silent_py_delitem
    | apply silent_py_get_new
    | apply silent_when
    | apply silent_if
    | apply silent_reads; solve [eauto with reads] ].

Lemma silent_fix_for_issue_platform env x : silent (fix_for_issue_platform env x).
Proof. unfold fix_for_issue_platform. solve_silent. Qed.

Ltac silent_step H :=
  let t1 := fresh "t" in
  let w1 := fresh "w" in
  let r1 := fresh "r" in
  let Hm := fresh "Hm" in
  let Hs := fresh "Hs" in
  apply bind_inv in H as (t1 & w1 & r1 & Hm & H);
  match type of Hm with
  | ?m _ = _ => assert (Hs : silent m) by solve_silent
  end;
  apply Hs in Hm as ->; clear Hs;
  destruct r1 as [?a|?e];
  [ destruct H as (?t & H & ->) | destruct H as (-> & -> & ->) ].

(** ** The stages after the build *)

Lemma validate_run env x w :
  validate_issue_platform_event_schema env x w =
  if jsonschema_valid env EVENT_PAYLOAD_SCHEMA (store w) x
  then ([JsonschemaValidate EVENT_PAYLOAD_SCHEMA], w, Ok tt)
  else if jsonschema_valid env LEGACY_EVENT_PAYLOAD_SCHEMA (store w) x
       then ([JsonschemaValidate EVENT_PAYLOAD_SCHEMA;
              JsonschemaValidate LEGACY_EVENT_PAYLOAD_SCHEMA], w, Ok tt)
       else (invalidated, w, Raise ValidationError).
Proof.
  unfold validate_issue_platform_event_schema, try_except_on, jsonschema_validate,
    metrics_incr, bind, emit, ret, raise.
  destruct (jsonschema_valid env EVENT_PAYLOAD_SCHEMA (store w) x); [done|].
  by destruct (jsonschema_valid env LEGACY_EVENT_PAYLOAD_SCHEMA (store w) x).
Qed.

Lemma validate_inv env x w t w' r :
  validate_issue_platform_event_schema env x w = (t, w', r) ->
  w' = w /\ ((validated t /\ r = Ok tt)
             \/ (t = invalidated /\ r = Raise ValidationError)).
Proof.
  rewrite validate_run. unfold validated.
  repeat case_match; inversion 1; subst; eauto.
Qed.

Lemma first_seen_run {B} project source (f : unit -> M B) w :
  bind (when (negb (flags_has_feedbacks project))
          (send_robust first_feedback_received project))
    (fun _ => bind (when (is_new_feedback source && negb (flags_has_new_feedbacks project))
                      (send_robust first_new_feedback_received project)) f) w
  = let '(t, w', r) := f tt w in (first_seen_signals project source ++ t, w', r).
Proof.
  unfold first_seen_signals, when, send_robust, bind, emit, ret.
  destruct (negb (flags_has_feedbacks project));
    destruct (is_new_feedback source && negb (flags_has_new_feedbacks project));
    by destruct (f tt w) as [[t w'] r].
Qed.

Lemma produce_run env p w :
  produce_occurrence_to_kafka env p w =
  match kafka env p with
  | Ok _ => ([Produced p], w, Ok tt)
  | Raise e => ([], w, Raise e)
  end.
Proof.
  unfold produce_occurrence_to_kafka, bind, lift, emit. by destruct (kafka env p).
Qed.

Lemma triage_run env project v fp w :
  when (verdict_truthy v) (auto_ignore_spam_feedbacks env project fp) w =
  if verdict_truthy v && spam_actions_enabled env project
  then match kafka env (STATUS_CHANGE (ignore_message project fp)) with
       | Ok _ => (spam_triage env project v fp, w, Ok tt)
       | Raise e => ([set_ignored_metric], w, Raise e)
       end
  else ([], w, Ok tt).
Proof.
  unfold spam_triage, when, auto_ignore_spam_feedbacks, when.
  fold (spam_actions_enabled env project). fold (ignore_message project fp).
  destruct (verdict_truthy v); [|done]. simpl andb.
  destruct (spam_actions_enabled env project); [|done].
  unfold metrics_incr. rewrite bind_emit, produce_run.
  by destruct (kafka env _).
Qed.

Lemma occurrence_runs env project v event pid source w t w' r :
  create_feedback_occurrence env project v event pid source w = (t, w', r) ->
  occurrence_run env project v pid source t r.
Proof.
  unfold create_feedback_occurrence. intros H.
  do 20 (silent_step H; [|apply run_build_raises]). simpl.
  apply bind_inv in H as (tv & wv & rv & Hv & H).
  apply validate_inv in Hv as (-> & [(Hv & ->) | (-> & ->)]);
    [|destruct H as (-> & -> & _); apply run_invalid].
  destruct H as (tr & H & ->). rewrite first_seen_run in H.
  destruct (bind _ _ _) as [[ts ws] rs] eqn:H2 in H. inversion H; subst; clear H.
  silent_step H2; [|rewrite !app_nil_r; by apply run_produce_raises].
  apply bind_inv in H2 as (tp & wp & rp & Hp & H2).
  rewrite produce_run in Hp.
  match type of Hp with context [OCCURRENCE ?o _] => set (occ := o) in * end.
  assert (Hocc : feedback_occurrence pid occ) by (repeat split; eauto).
  destruct (kafka env (OCCURRENCE occ _)) as [[]|e]; inversion Hp; subst; clear Hp;
    [|destruct H2 as (-> & -> & _); rewrite !app_nil_r; by apply run_produce_raises].
  destruct H2 as (tq & H2 & ->).
  apply bind_inv in H2 as (tg & wg & rg & Hg & H2).
  rewrite triage_run in Hg.
  match type of Hg with context [spam_triage _ _ _ ?fp] =>
    change fp with (occ_fingerprint occ) in Hg end.
  assert (Hg' : (rg = Ok tt /\ tg = spam_triage env project v (occ_fingerprint occ))
                \/ (exists e, rg = Raise e /\ tg = [set_ignored_metric]
                      /\ verdict_truthy v = true
                      /\ spam_actions_enabled env project = true
                      /\ kafka env (STATUS_CHANGE
                            (ignore_message project (occ_fingerprint occ))) = Raise e)).
  { unfold spam_triage in *.
    destruct (verdict_truthy v && spam_actions_enabled env project) eqn:Hflag.
    - apply andb_prop in Hflag as [? ?].
      destruct (kafka env (STATUS_CHANGE _)) as [[]|e] eqn:Hk; inversion Hg; eauto 10.
    - inversion Hg; eauto. }
  clear Hg. destruct Hg' as [(-> & ->) | (e & -> & -> & Hv1 & Hv2 & Hk)].
  2:{ destruct H2 as (-> & -> & _). by eapply run_triage_raises. }
  destruct H2 as (tu & H2 & ->).
  silent_step H2; [|rewrite !app_nil_r; by apply run_read_raises].
  silent_step H2; [|rewrite !app_nil_r; by apply run_read_raises].
  silent_step H2; [|rewrite !app_nil_r; by apply run_read_raises].
  unfold metrics_incr in H2. rewrite bind_emit in H2.
  destruct (bind _ _ _) as [[tz wz] rz] eqn:H5 in H2. inversion H2; subst; clear H2.
  silent_step H5; [|by apply run_read_id_raises].
  inversion H5; subst. by apply run_recorded.
Qed.

(** ** The classification *)

Lemma spam_verdict_inv env project event w t w' r :
  spam_verdict env project event w = (t, w', r) ->
  w' = w /\ exists v, r = Ok v /\ classified env project t v.
Proof.
  unfold spam_verdict. fold (spam_filter_enabled env project).
  destruct (spam_filter_enabled env project) eqn:Hf.
  2:{ inversion 1. split; [done|]. eexists. split; [done|]. by constructor. }
  unfold try_except, try_except_on, logger_exception. fold spam_error_log.
  destruct (bind_reads (feedback_message event)
              (fun m => emit (IsSpam m) ;; b <- lift (is_spam env m) ;; ret (Some b)) w)
    as (rm & _ & ->); [solve_reads|].
  destruct rm as [m|e].
  - rewrite bind_emit. unfold bind, lift, ret, emit.
    destruct (is_spam env m) as [b|e] eqn:Hs; inversion 1; subst;
      (split; [done|]); eexists; (split; [done|]).
    + by apply classify_answer.
    + by eapply classify_failure.
  - unfold bind, emit, ret. inversion 1; subst. split; [done|].
    eexists. split; [done|]. by apply classify_unread.
Qed.

Lemma sf_inv event pid source w t w' r :
  should_filter_feedback event pid source w = (t, w', r) ->
  w' = w /\ ((exists reason, t = [filtered_metric reason] /\ r = Ok true)
             \/ (t = [] /\ r <> Ok true)).
Proof.
  unfold should_filter_feedback. intros H.
  read_step H. destruct r0 as [[|]|e]; [| |inversion H; subst; eauto].
  { inversion H. eauto. }
  read_step H. destruct r0 as [m|e]; [|inversion H; subst; eauto].
  destruct (py_eq_str m _). { inversion H. eauto. }
  read_step H. destruct r0 as [m'|e]; [|inversion H; subst; eauto].
  read_step H. destruct r0 as [s|e]; [|inversion H; subst; eauto].
  destruct (String.eqb s ""); inversion H; eauto.
Qed.

Lemma issue_runs env event pid source w t w' r :
  create_feedback_issue env event pid source w = (t, w', r) ->
  issue_run env pid source t r.
Proof.
  unfold create_feedback_issue, metrics_incr. fold entered_metric.
  rewrite bind_emit. intros H.
  destruct (bind _ _ _) as [[t1 w1] r1] eqn:H1 in H. inversion H; subst; clear H.
  apply bind_inv in H1 as (tf & wf & rf & Hf & H1).
  apply sf_inv in Hf as (-> & [(reason & -> & ->) | (-> & Hr)]).
  { destruct H1 as (t2 & H1 & ->). inversion H1. apply issue_rejected. }
  destruct rf as [[|]|e]; [done| |destruct H1 as (-> & -> & _); apply issue_filter_raises].
  destruct H1 as (t2 & H1 & ->). simpl.
  apply bind_inv in H1 as (tp & wp & rp & Hp & H1). unfold lift in Hp.
  inversion Hp; subst; clear Hp.
  destruct (get_from_cache env pid) as [project|e] eqn:Hproj;
    [|destruct H1 as (-> & -> & _); by apply issue_no_project].
  destruct H1 as (t3 & H1 & ->). simpl.
  apply bind_inv in H1 as (tc & wc & rc & Hc & H1).
  apply spam_verdict_inv in Hc as (-> & v & -> & Hc).
  destruct H1 as (t4 & H1 & ->).
  eapply issue_accepted; eauto. by eapply occurrence_runs.
Qed.

(** ** Properties of every run *)

(** All the shapes the calls of a run can take. *)
Ltac run_shapes H :=
  let Hc := fresh "Hc" in
  let Ho := fresh "Ho" in
  inversion H as [ | | | ? ? ? ? ? ? Hc Ho ]; subst;
  [ .. | inversion Hc; subst; inversion Ho; subst ];
  unfold validated in *;
  repeat match goal with
    | Hv : _ \/ _ |- _ => destruct Hv; subst
    end;
  unfold first_seen_signals, spam_triage, invalidated in *;
  repeat match goal with
    | |- context [if ?b then _ else _] => destruct b eqn:?
    end;
  cbn [app] in *.

Lemma issue_run_ordered env pid source t r :
  issue_run env pid source t r -> nondecreasing (map stage t) = true.
Proof. intros H. run_shapes H; reflexivity. Qed.

Lemma issue_run_invalid env pid source t r :
  issue_run env pid source t r ->
  count (is_metric "feedback.create_feedback_issue.invalid_schema") t <> 0 ->
  r = Raise ValidationError
  /\ count is_produced t = 0 /\ count is_signal t = 0 /\ count is_outcome t = 0.
Proof. intros H. run_shapes H; intros Hn; try done. Qed.

Lemma run_of {A} (x : list effect * world * result A) : x = (calls x, x.1.2, x.2).
Proof. by destruct x as [[? ?] ?]. Qed.

(** An accepted submission: the project is looked up, the message is
    classified, and the occurrence is built and published. *)
Lemma issue_accepted_inv env event pid source w t w' r :
  should_filter_feedback event pid source w = ([], w, Ok false) ->
  create_feedback_issue env event pid source w = (t, w', r) ->
  (exists e, get_from_cache env pid = Raise e /\ t = [entered_metric] /\ r = Raise e)
  \/ (exists project tc v t0,
        get_from_cache env pid = Ok project
        /\ spam_verdict env project event w = (tc, w, Ok v)
        /\ classified env project tc v
        /\ create_feedback_occurrence env project v event pid source w = (t0, w', r)
        /\ t = entered_metric :: tc ++ t0).
Proof.
  intros Hf. unfold create_feedback_issue, metrics_incr. fold entered_metric.
  rewrite bind_emit. rewrite (bind_pure _ _ _ _ Hf). cbv iota.
  intros H.
  destruct (bind _ _ _) as [[t1 w1] r1] eqn:H1 in H. inversion H; subst; clear H.
  apply bind_inv in H1 as (tp & wp & rp & Hp & H1). unfold lift in Hp.
  inversion Hp; subst; clear Hp.
  destruct (get_from_cache env pid) as [project|e] eqn:Hproj.
  2:{ destruct H1 as (-> & -> & _). left. eauto. }
  destruct H1 as (t3 & H1 & ->). simpl.
  apply bind_inv in H1 as (tc & wc & rc & Hc & H1).
  destruct (spam_verdict_inv _ _ _ _ _ _ _ Hc) as (-> & v & -> & Hcl).
  destruct H1 as (t4 & H1 & ->). right. eauto 10.
Qed.

Lemma occurrence_run_ok env project v pid source t :
  occurrence_run env project v pid source t (Ok tt) ->
  count is_occurrence t = 1 /\ count is_outcome t = 1
  /\ count (is_validation EVENT_PAYLOAD_SCHEMA) t = 1.
Proof.
  inversion 1; subst. unfold validated in *.
  repeat match goal with Hv : _ \/ _ |- _ => destruct Hv; subst end;
  unfold first_seen_signals, spam_triage;
  repeat match goal with
    | |- context [if ?b then _ else _] => destruct b eqn:?
    end; done.
Qed.

(** C4 (amended). The calls of every run come in the order filter, classify,
    (build, which makes no call,) validate, first-seen signals, publish, spam
    triage, accounting: the first-seen signals are sent before the occurrence
    is published, not after.  An accepted submission whose run returns
    validates once against the current schema, publishes one occurrence and
    records one outcome. *)
Theorem C4_calls_in_stage_order env event pid source w t w' r :
  create_feedback_issue env event pid source w = (t, w', r) ->
  nondecreasing (map stage t) = true
  /\ (should_filter_feedback event pid source w = ([], w, Ok false) ->
      r = Ok tt ->
      count (is_validation EVENT_PAYLOAD_SCHEMA) t = 1
      /\ count is_occurrence t = 1 /\ count is_outcome t = 1).
Proof.
  intros H. split.
  - eapply issue_run_ordered, issue_runs, H.
  - intros Hf ->.
    destruct (issue_accepted_inv _ _ _ _ _ _ _ _ Hf H)
      as [(e & _ & _ & ?) | (project & tc & v & t0 & _ & _ & Hc & Ho & ->)]; [done|].
    apply occurrence_runs, occurrence_run_ok in Ho as (H1 & H2 & H3).
    inversion Hc; subst; cbn; auto.
Qed.

Lemma C4_witness :
  nondecreasing
    (map stage (calls (create_feedback_issue (sample_env (Ok true)) sample_event 7
                         NEW_FEEDBACK_ENVELOPE (sample_world (VStr "Great app!")))))
  = true
  /\ count is_outcome
       (calls (create_feedback_issue (sample_env (Ok true)) sample_event 7
                 NEW_FEEDBACK_ENVELOPE (sample_world (VStr "Great app!")))) = 1.
Proof.
  destruct (C4_calls_in_stage_order (sample_env (Ok true)) sample_event 7
              NEW_FEEDBACK_ENVELOPE (sample_world (VStr "Great app!")) _ _ _
              (run_of _)) as [Hs Hc].
  split; [exact Hs|]. apply Hc; vm_compute; reflexivity.
Defined.

(** C4 as stated fails: the first-seen signals of the sample run are sent
    before its occurrence is published. *)
Lemma C4_counterexample : ~ publishes_before_signalling.
Proof.
  intros H.
  specialize (H (sample_env (Ok true)) sample_event 7%Z NEW_FEEDBACK_ENVELOPE
                (sample_world (VStr "Great app!"))).
  vm_compute in H. discriminate.
Qed.

(** C5. [validate_issue_platform_event_schema] validates against the current
    schema; only when that fails, against the legacy schema; only when both
    fail does it count the invalid schema and raise.  A run of
    [create_feedback_issue] in which the invalid schema is counted raises the
    validation error and has produced nothing, sent no signal and recorded no
    outcome. *)
Theorem C5_schema_validation env :
  (forall x w,
     validate_issue_platform_event_schema env x w =
     if jsonschema_valid env EVENT_PAYLOAD_SCHEMA (store w) x
     then ([JsonschemaValidate EVENT_PAYLOAD_SCHEMA], w, Ok tt)
     else if jsonschema_valid env LEGACY_EVENT_PAYLOAD_SCHEMA (store w) x
          then ([JsonschemaValidate EVENT_PAYLOAD_SCHEMA;
                 JsonschemaValidate LEGACY_EVENT_PAYLOAD_SCHEMA], w, Ok tt)
          else ([JsonschemaValidate EVENT_PAYLOAD_SCHEMA;
                 JsonschemaValidate LEGACY_EVENT_PAYLOAD_SCHEMA;
                 invalid_schema_metric], w, Raise ValidationError))
  /\ (forall event pid source w t w' r,
        create_feedback_issue env event pid source w = (t, w', r) ->
        count (is_metric "feedback.create_feedback_issue.invalid_schema") t <> 0 ->
        r = Raise ValidationError
        /\ count is_produced t = 0 /\ count is_signal t = 0
        /\ count is_outcome t = 0).
Proof.
  split.
  - apply validate_run.
  - intros event pid source w t w' r H. eapply issue_run_invalid, issue_runs, H.
Qed.

Lemma C5_witness :
  let run := create_feedback_issue
               (sample_env_with (Ok false) (fun _ => false) (fun _ => Ok tt))
               sample_event 7 NEW_FEEDBACK_ENVELOPE
               (sample_world (VStr "Great app!")) in
  run.2 = Raise ValidationError
  /\ count is_produced (calls run) = 0 /\ count is_signal (calls run) = 0
  /\ count is_outcome (calls run) = 0.
Proof.
  intros run.
  destruct (C5_schema_validation
              (sample_env_with (Ok false) (fun _ => false) (fun _ => Ok tt)))
    as [_ H].
  apply (H sample_event 7%Z NEW_FEEDBACK_ENVELOPE
           (sample_world (VStr "Great app!")) _ run.1.2 _ (run_of run)).
  vm_compute. discriminate.
Defined.

(** ** The classifier fails open *)

Lemma issue_run_classifier env pid source t r :
  issue_run env pid source t r ->
  count is_classifier_call t <> 0 ->
  exists project, get_from_cache env pid = Ok project
                  /\ spam_filter_enabled env project = true.
Proof. intros H. run_shapes H; intros Hn; try done; eauto. Qed.

Lemma spam_verdict_failure env project event w m e :
  spam_filter_enabled env project = true ->
  has_message (store w) event m -> is_spam env m = Raise e ->
  spam_verdict env project event w = ([IsSpam m; spam_error_log], w, Ok None).
Proof.
  intros Hf Hm He. unfold spam_verdict. fold (spam_filter_enabled env project).
  rewrite Hf. unfold try_except, try_except_on.
  rewrite (bind_pure _ _ _ _ (feedback_message_has _ _ _ Hm)).
  rewrite bind_emit. unfold bind, lift. by rewrite He.
Qed.

Lemma occurrence_not_spam env project event pid source w :
  create_feedback_occurrence env project None event pid source w
  = create_feedback_occurrence env project (Some false) event pid source w.
Proof. reflexivity. Qed.

Lemma issue_accepted_run env event pid source w project tc v :
  should_filter_feedback event pid source w = ([], w, Ok false) ->
  get_from_cache env pid = Ok project ->
  spam_verdict env project event w = (tc, w, Ok v) ->
  create_feedback_issue env event pid source w =
  let '(t, w', r) := create_feedback_occurrence env project v event pid source w in
  (entered_metric :: tc ++ t, w', r).
Proof.
  intros Hf Hp Hv. unfold create_feedback_issue, metrics_incr. fold entered_metric.
  rewrite bind_emit, (bind_pure _ _ _ _ Hf). cbv iota.
  assert (Hl : lift (get_from_cache env pid) w = ([], w, Ok project))
    by (unfold lift; by rewrite Hp).
  rewrite (bind_pure _ _ _ _ Hl). unfold bind at 1. rewrite Hv.
  by destruct (create_feedback_occurrence _ _ _ _ _ _ _) as [[t w'] r].
Qed.


(** ** Spam triage *)

Lemma count_app p t1 t2 : count p (t1 ++ t2) = count p t1 + count p t2.
Proof. unfold count. by rewrite filter_app, length_app. Qed.

Lemma count_cons p e t : count p (e :: t) = (if p e then 1 else 0) + count p t.
Proof. unfold count. rewrite filter_cons. by destruct (p e). Qed.

Lemma classified_no_produce env project tc v :
  classified env project tc v ->
  count is_produced tc = 0
  /\ count (is_metric "feedback.spam-detection-actions.set-ignored") tc = 0.
Proof. by inversion 1. Qed.

Lemma occurrence_run_triage env project v pid source t r :
  occurrence_run env project v pid source t r ->
  (r = Ok tt -> verdict_truthy v = true -> spam_actions_enabled env project = true ->
   exists pre occ sent post,
     t = pre ++ [Produced (OCCURRENCE occ sent); set_ignored_metric;
                 Produced (STATUS_CHANGE
                             (mkStatusChangeMessage (occ_fingerprint occ)
                                (project_id project) IGNORED FOREVER))] ++ post
     /\ (exists fp, occ_fingerprint occ = [fp])
     /\ count is_produced (pre ++ post) = 0
     /\ count (is_metric "feedback.spam-detection-actions.set-ignored") (pre ++ post) = 0)
  /\ (verdict_truthy v = false \/ spam_actions_enabled env project = false ->
      count is_status_change t = 0
      /\ count (is_metric "feedback.spam-detection-actions.set-ignored") t = 0
      /\ (r = Ok tt -> count is_occurrence t = 1)).
Proof.
  intros H. split.
  - intros -> Hv Hen. inversion H as [ | | | | | | tv occ sent cs eid Hval Hocc]; subst.
    exists (tv ++ first_seen_signals project source), occ, sent,
      [produced_metric source cs;
       TrackOutcome (accepted_outcome project pid (occ_detection_time occ) eid)].
    unfold spam_triage. rewrite Hv, Hen. simpl.
    split; [by rewrite <- ?app_assoc|]. split; [apply Hocc|].
    unfold validated, first_seen_signals in *.
    destruct Hval; subst; repeat case_match; done.
  - intros Hoff.
    assert (Hnil : forall fp, spam_triage env project v fp = []).
    { intros fp. unfold spam_triage. destruct Hoff as [-> | ->]; [done|].
      by rewrite andb_false_r. }
    inversion H; subst; rewrite ?Hnil;
      try (destruct Hoff; congruence);
      unfold validated, first_seen_signals, invalidated in *;
      repeat match goal with Hv : _ \/ _ |- _ => destruct Hv; subst end;
      repeat case_match; done.
Qed.

(** C3. The classifier is called only when the organization's feature flag
    and the project's option are both on.  When the call raises, the verdict
    is [None], the failure is logged and not propagated, and the run goes on
    with what follows a non-spam verdict: it is the run of the same
    submission with a classifier that answers [False], plus the log entry.
    What follows is the build, validation and publication of the occurrence:
    it publishes no status change, it raises only where building, validating
    or publishing does, and when it returns it has validated the event,
    sent the first-seen signals, published one occurrence of the submission's
    project and recorded its outcome, in this order. *)
Theorem C3_classifier_fails_open env event pid source w :
  (forall t w' r,
     create_feedback_issue env event pid source w = (t, w', r) ->
     count is_classifier_call t <> 0 ->
     exists project, get_from_cache env pid = Ok project
                     /\ spam_filter_enabled env project = true)
  /\ (forall project m e,
        should_filter_feedback event pid source w = ([], w, Ok false) ->
        get_from_cache env pid = Ok project ->
        spam_filter_enabled env project = true ->
        has_message (store w) event m ->
        is_spam env m = Raise e ->
        spam_verdict env project event w = ([IsSpam m; spam_error_log], w, Ok None)
        /\ exists t w' r,
             create_feedback_occurrence env project (Some false) event pid source w
             = (t, w', r)
             /\ create_feedback_issue env event pid source w
                = (entered_metric :: IsSpam m :: spam_error_log :: t, w', r)
             /\ create_feedback_issue (with_is_spam env (fun _ => Ok false))
                  event pid source w
                = (entered_metric :: IsSpam m :: t, w', r)
             /\ occurrence_run env project None pid source t r
             /\ count is_status_change t = 0
             /\ (r = Ok tt ->
                 exists tv occ sent client_source eid,
                   validated tv /\ feedback_occurrence pid occ
                   /\ t = tv ++ first_seen_signals project source
                          ++ [Produced (OCCURRENCE occ sent);
                              produced_metric source client_source;
                              TrackOutcome
                                (accepted_outcome project pid
                                   (occ_detection_time occ) eid)])).
Proof.
  split.
  - intros t w' r H. eapply issue_run_classifier, issue_runs, H.
  - intros project m e Hf Hp Hen Hm He.
    assert (Hv := spam_verdict_failure _ _ _ _ _ _ Hen Hm He).
    split; [exact Hv|].
    destruct (create_feedback_occurrence env project (Some false) event pid source w)
      as [[t w'] r] eqn:Ho.
    exists t, w', r. split; [done|]. split; [|split].
    + rewrite (issue_accepted_run _ _ _ _ _ _ _ _ Hf Hp Hv).
      by rewrite occurrence_not_spam, Ho.
    + assert (Hv' : spam_verdict (with_is_spam env (fun _ => Ok false)) project event w
                    = ([IsSpam m], w, Ok (Some false))).
      { unfold spam_verdict.
        change (features_has (with_is_spam env _)) with (features_has env).
        fold (spam_filter_enabled env project). rewrite Hen.
        unfold try_except, try_except_on.
        by rewrite (bind_pure _ _ _ _ (feedback_message_has _ _ _ Hm)). }
      rewrite (issue_accepted_run (with_is_spam env (fun _ => Ok false))
                 _ _ _ _ project _ _ Hf Hp Hv').
      change (create_feedback_occurrence (with_is_spam env (fun _ => Ok false)))
        with (create_feedback_occurrence env).
      by rewrite Ho.
    + rewrite <- occurrence_not_spam in Ho. apply occurrence_runs in Ho.
      split; [exact Ho|]. split.
      * by apply (occurrence_run_triage _ _ _ _ _ _ _ Ho); left.
      * intros ->.
        inversion Ho as [ | | | | | | tv occ sent cs eid Hval Hocc Ht]; subst.
        exists tv, occ, sent, cs, eid. split; [done|]. split; [done|].
        reflexivity.
Qed.

Lemma C3_witness :
  let run := create_feedback_issue (sample_env (Raise (OtherException "Timeout")))
               sample_event 7 NEW_FEEDBACK_ENVELOPE
               (sample_world (VStr "Great app!")) in
  run.2 = Ok tt
  /\ firstn 3 (calls run)
     = [entered_metric; IsSpam (VStr "Great app!"); spam_error_log]
  /\ count (is_validation EVENT_PAYLOAD_SCHEMA) (calls run) = 1
  /\ count is_occurrence (calls run) = 1
  /\ count is_status_change (calls run) = 0
  /\ count is_outcome (calls run) = 1.
Proof.
  intros run.
  assert (Hr : run.2 = Ok tt) by (vm_compute; reflexivity).
  destruct (C3_classifier_fails_open
              (sample_env (Raise (OtherException "Timeout")))
              sample_event 7%Z NEW_FEEDBACK_ENVELOPE
              (sample_world (VStr "Great app!"))) as [_ H].
  destruct (H sample_project (VStr "Great app!") (OtherException "Timeout"))
    as (_ & t & w' & r & _ & Hi & _ & _ & Hns & Hok).
  - vm_compute. reflexivity.
  - reflexivity.
  - reflexivity.
  - by apply sample_has_message.
  - reflexivity.
  - change (run = (entered_metric :: IsSpam (VStr "Great app!")
                     :: spam_error_log :: t, w', r)) in Hi.
    clearbody run. subst run. cbn [snd] in Hr. subst r.
    destruct (Hok eq_refl) as (tv & occ & sent & cs & eid & Hval & _ & ->).
    unfold calls. cbn [fst snd firstn].
    split; [done|]. split; [done|].
    rewrite !count_cons. cbn [is_validation is_occurrence is_status_change is_outcome].
    unfold validated in Hval.
    destruct Hval as [-> | ->]; vm_compute; done.
Defined.

(** C6. After an accepted submission whose run returns: when the verdict is
    [True] and the spam-actions flag is on, the occurrence is published and,
    right after it, the spam-action counter is incremented and one status
    change is published, for the occurrence's own single fingerprint, with
    status ignored and substatus forever; nothing else is published.  When
    the verdict is [False] or [None], or the flag is off, no run publishes a
    status change, and a run that returns still publishes the occurrence. *)
Theorem C6_spam_triage env event pid source w project tc v t w' r :
  should_filter_feedback event pid source w = ([], w, Ok false) ->
  get_from_cache env pid = Ok project ->
  spam_verdict env project event w = (tc, w, Ok v) ->
  create_feedback_issue env event pid source w = (t, w', r) ->
  (r = Ok tt -> v = Some true -> spam_actions_enabled env project = true ->
   exists pre occ sent post,
     t = pre ++ [Produced (OCCURRENCE occ sent); set_ignored_metric;
                 Produced (STATUS_CHANGE
                             (mkStatusChangeMessage (occ_fingerprint occ)
                                (project_id project) IGNORED FOREVER))] ++ post
     /\ (exists fp, occ_fingerprint occ = [fp])
     /\ count is_produced (pre ++ post) = 0
     /\ count (is_metric "feedback.spam-detection-actions.set-ignored") (pre ++ post) = 0)
  /\ (v <> Some true \/ spam_actions_enabled env project = false ->
      count is_status_change t = 0
      /\ count (is_metric "feedback.spam-detection-actions.set-ignored") t = 0
      /\ (r = Ok tt -> count is_occurrence t = 1)).
Proof.
  intros Hf Hp Hv H.
  destruct (issue_accepted_inv _ _ _ _ _ _ _ _ Hf H)
    as [(e & He & _) | (project' & tc' & v' & t0 & Hp' & Hv' & Hc & Ho & ->)];
    [congruence|].
  rewrite Hp in Hp'. inversion Hp'; subst project'. rewrite Hv in Hv'.
  inversion Hv'; subst tc' v'. clear Hp' Hv'.
  apply occurrence_runs, occurrence_run_triage in Ho as [Hon Hoff].
  destruct (classified_no_produce _ _ _ _ Hc) as [Hc1 Hc2].
  split.
  - intros -> -> Hen.
    destruct (Hon eq_refl eq_refl Hen) as (pre & occ & sent & post & -> & Hfp & H1 & H2).
    exists (entered_metric :: tc ++ pre), occ, sent, post.
    split; [cbn [app]; by rewrite <- app_assoc|]. split; [done|].
    cbn [app]. rewrite !count_cons, !count_app in *. simpl. lia.
  - intros Hv0.
    assert (Hv1 : verdict_truthy v = false \/ spam_actions_enabled env project = false).
    { destruct Hv0 as [Hv0|Hv0]; [left|by right]. by destruct v as [[|]|]. }
    destruct (Hoff Hv1) as (H1 & H2 & H3).
    assert (Hcs : count is_status_change tc = 0) by (by inversion Hc).
    assert (Hco : count is_occurrence tc = 0) by (by inversion Hc).
    rewrite !count_cons, !count_app. simpl.
    split; [lia|]. split; [lia|]. intros Hr. specialize (H3 Hr). lia.
Qed.

Lemma C6_witness :
  let run := create_feedback_issue (sample_env (Ok true)) sample_event 7
               NEW_FEEDBACK_ENVELOPE (sample_world (VStr "Great app!")) in
  exists pre occ sent post,
    calls run
    = pre ++ [Produced (OCCURRENCE occ sent); set_ignored_metric;
              Produced (STATUS_CHANGE
                          (mkStatusChangeMessage (occ_fingerprint occ) 7
                             IGNORED FOREVER))] ++ post
    /\ (exists fp, occ_fingerprint occ = [fp])
    /\ count is_produced (pre ++ post) = 0
    /\ count (is_metric "feedback.spam-detection-actions.set-ignored") (pre ++ post) = 0.
Proof.
  intros run.
  destruct (C6_spam_triage (sample_env (Ok true)) sample_event 7%Z
              NEW_FEEDBACK_ENVELOPE (sample_world (VStr "Great app!"))
              sample_project [IsSpam (VStr "Great app!")] (Some true)
              (calls run) run.1.2 run.2) as [H _].
  - vm_compute. reflexivity.
  - reflexivity.
  - vm_compute. reflexivity.
  - apply run_of.
  - apply H; vm_compute; reflexivity.
Defined.

(** ** The store *)

Lemma is_dict_allocated h l : is_dict h l = true -> is_Some (h !! l).
Proof. unfold is_dict, hdict. destruct (h !! l); [eauto | done]. Qed.

Lemma field_is_dict h l k v : field h l k = Some v -> is_dict h l = true.
Proof. unfold field, is_dict. by destruct (hdict h l). Qed.

Lemma hdict_insert_eq (h : heap) l o :
  hdict (<[l := o]> h) l = match o with ODict d => Some d | _ => None end.
Proof. unfold hdict. by rewrite lookup_insert_eq. Qed.

Lemma hdict_insert_ne (h : heap) l l' o :
  l <> l' -> hdict (<[l := o]> h) l' = hdict h l'.
Proof. intros Hne. unfold hdict. by rewrite lookup_insert_ne. Qed.

Lemma changed_refl P h : changed P h h.
Proof. by intros l Hl. Qed.

Lemma changed_trans P h1 h2 h3 :
  changed P h1 h2 -> changed P h2 h3 -> changed P h1 h3.
Proof.
  intros H12 H23 l Hl. destruct (H12 l Hl) as (Hl2 & Hd2 & Hf2).
  destruct (H23 l Hl2) as (Hl3 & Hd3 & Hf3).
  split; [done|]. split; [congruence|]. intros k Hk.
  by rewrite Hf3, Hf2.
Qed.

Lemma changed_weaken (P Q : loc -> string -> Prop) h h' :
  (forall l k, P l k -> Q l k) -> changed P h h' -> changed Q h h'.
Proof.
  intros HPQ H l Hl. destruct (H l Hl) as (Hl2 & Hd2 & Hf2).
  split; [done|]. split; [done|]. intros k Hk. apply Hf2. naive_solver.
Qed.

Lemma changed_hset h l k v :
  changed (fun l' k' => l' = l /\ k' = k) h (hset h l k v).
Proof.
  intros l' Hl'. unfold hset. destruct (hdict h l) as [d|] eqn:Hd; [|done].
  destruct (decide (l = l')) as [<-|Hne].
  - split; [rewrite lookup_insert_eq; eauto|].
    unfold is_dict, field. rewrite hdict_insert_eq, Hd. split; [done|].
    intros k' Hk'. rewrite lookup_insert_ne; [done|]. naive_solver.
  - split; [by rewrite lookup_insert_ne|].
    unfold is_dict, field. by rewrite hdict_insert_ne.
Qed.

Lemma changed_hdel h l k :
  changed (fun l' k' => l' = l /\ k' = k) h (hdel h l k).
Proof.
  intros l' Hl'. unfold hdel. destruct (hdict h l) as [d|] eqn:Hd; [|done].
  destruct (decide (l = l')) as [<-|Hne].
  - split; [rewrite lookup_insert_eq; eauto|].
    unfold is_dict, field. rewrite hdict_insert_eq, Hd. split; [done|].
    intros k' Hk'. rewrite lookup_delete_ne; [done|]. naive_solver.
  - split; [by rewrite lookup_insert_ne|].
    unfold is_dict, field. by rewrite hdict_insert_ne.
Qed.

Lemma fresh_not_allocated (h : heap) l :
  is_Some (h !! l) -> l <> fresh (dom h).
Proof.
  intros Hl ->. apply elem_of_dom in Hl. by apply is_fresh in Hl.
Qed.

Lemma changed_halloc P h o : changed P h (halloc h o).
Proof.
  intros l Hl. assert (Hne := fresh_not_allocated h l Hl). unfold halloc.
  split; [by rewrite lookup_insert_ne|].
  unfold is_dict, field. by rewrite hdict_insert_ne.
Qed.

Lemma field_hset h l k v :
  is_dict h l = true -> field (hset h l k v) l k = Some v.
Proof.
  unfold is_dict, hset, field. destruct (hdict h l) as [d|] eqn:Hd; [|done].
  intros _. by rewrite hdict_insert_eq, lookup_insert_eq.
Qed.

Lemma field_hdel h l k : field (hdel h l k) l k = None.
Proof.
  unfold hdel, field. destruct (hdict h l) as [d|] eqn:Hd.
  - by rewrite hdict_insert_eq, lookup_delete_eq.
  - by rewrite Hd.
Qed.

Lemma field_halloc h d k :
  field (halloc h (ODict d)) (fresh (dom h)) k = d !! k.
Proof. unfold halloc, field. by rewrite hdict_insert_eq. Qed.

Lemma is_dict_halloc h d : is_dict (halloc h (ODict d)) (fresh (dom h)) = true.
Proof. unfold halloc, is_dict. by rewrite hdict_insert_eq. Qed.

(** ** Computations that change allowed fields only *)

Lemma modifies_weaken {A} (P Q : loc -> string -> Prop) (m : M A) :
  (forall l k, P l k -> Q l k) -> modifies P m -> modifies Q m.
Proof.
  intros HPQ Hm w t w' r H. destruct (Hm _ _ _ _ H) as [Hc He].
  split; [by eapply changed_weaken|done].
Qed.

Lemma modifies_reads {A} P (m : M A) : reads m -> modifies P m.
Proof.
  intros Hm w t w' r H. destruct (Hm w) as [r' Hr].
  rewrite Hr in H. inversion H; subst. split; [apply changed_refl|done].
Qed.

Lemma modifies_bind {A B} P (m : M A) (f : A -> M B) :
  modifies P m -> (forall a, modifies P (f a)) -> modifies P (bind m f).
Proof.
  intros Hm Hf w t w' r H.
  apply bind_inv in H as (t1 & w1 & [a|e] & H1 & H2).
  - destruct H2 as (t2 & H2 & ->).
    destruct (Hm _ _ _ _ H1) as [Hc1 He1]. destruct (Hf _ _ _ _ _ H2) as [Hc2 He2].
    split; [by eapply changed_trans | congruence].
  - destruct H2 as (_ & _ & ->). by apply (Hm _ _ _ _ H1).
Qed.

Lemma modifies_new_obj P o : modifies P (new_obj o).
Proof.
  intros w t w' r H. inversion H; subst. split; [apply changed_halloc|done].
Qed.

Lemma modifies_py_setitem (P : loc -> string -> Prop) x k v :
  (forall l, x = VRef l -> P l k) -> modifies P (py_setitem x k v).
Proof.
  intros HP w t w' r. unfold py_setitem.
  destruct x; try (inversion 1; subst; split; [apply changed_refl|done]).
  destruct (hdict (store w) l);
    inversion 1; subst; (split; [|done]); [|apply changed_refl].
  eapply changed_weaken, changed_hset. intros l' k' [-> ->]. by apply HP.
Qed.

Lemma modifies_py_delitem (P : loc -> string -> Prop) x k :
  (forall l, x = VRef l -> P l k) -> modifies P (py_delitem x k).
Proof.
  intros HP w t w' r. unfold py_delitem.
  destruct x; try (inversion 1; subst; split; [apply changed_refl|done]).
  destruct (hdict (store w) l) as [d|];
    [destruct (d !! k)|]; inversion 1; subst; (split; [|done]);
    try apply changed_refl.
  eapply changed_weaken, changed_hdel. intros l' k' [-> ->]. by apply HP.
Qed.

Lemma modifies_py_get_new P x k o : modifies P (py_get_new x k o).
Proof.
  intros w t w' r. unfold py_get_new.
  destruct x; try (inversion 1; subst; split; [apply changed_refl|done]).
  destruct (hdict (store w) l) as [d|];
    [|inversion 1; subst; split; [apply changed_refl|done]].
  apply modifies_bind; [apply modifies_new_obj|].
  intros a. apply modifies_reads, reads_py_get.
Qed.

Lemma modifies_if {A} P (b : bool) (m1 m2 : M A) :
  modifies P m1 -> modifies P m2 -> modifies P (if b then m1 else m2).
Proof. by destruct b. Qed.

Lemma modifies_when P b m : modifies P m -> modifies P (when b m).
Proof. intros Hm. apply modifies_if; [done | apply modifies_reads, reads_ret]. Qed.

Ltac modifies_side :=
  let l := fresh "l" in
  let Hl := fresh "Hl" in
  intros l Hl; cbv beta;
  first [ done | by right | left; congruence | discriminate ].

Ltac solve_modifies :=
  repeat first
    [ apply modifies_bind; [|intros ?]
    | apply modifies_new_obj
    | apply modifies_py_get_new
    | apply modifies_when
    | apply modifies_if
    | apply modifies_py_setitem; modifies_side
    | apply modifies_py_delitem; modifies_side
    | apply modifies_reads; solve [eauto with reads] ].

(** ** Runs that return *)

Lemma bind_ok {A B} (m : M A) (f : A -> M B) w t w' b :
  bind m f w = (t, w', Ok b) ->
  exists a t1 w1 t2, m w = (t1, w1, Ok a) /\ f a w1 = (t2, w', Ok b) /\ t = t1 ++ t2.
Proof.
  intros H. apply bind_inv in H as (t1 & w1 & [a|e] & H1 & H2).
  - destruct H2 as (t2 & H2 & ->). eauto 10.
  - by destruct H2.
Qed.

Lemma ret_ok {A} (a b : A) w t w' :
  ret a w = (t, w', Ok b) -> t = [] /\ w' = w /\ b = a.
Proof. by inversion 1. Qed.

Lemma lift_ok {A} (r : result A) w t w' a :
  lift r w = (t, w', Ok a) -> t = [] /\ w' = w /\ r = Ok a.
Proof. by inversion 1. Qed.

Lemma py_truthy_ok x w t w' b :
  py_truthy x w = (t, w', Ok b) -> t = [] /\ w' = w /\ b = truthy (store w) x.
Proof. by inversion 1. Qed.

Lemma py_get_ok x k d w t w' v :
  py_get x k d w = (t, w', Ok v) ->
  t = [] /\ w' = w /\ exists l, x = VRef l /\ is_dict (store w) l = true
                                /\ v = default d (field (store w) l k).
Proof.
  unfold py_get. destruct x; try by inversion 1.
  destruct (hdict (store w) l) as [m|] eqn:Hd; inversion 1; subst.
  split; [done|]. split; [done|]. exists l. unfold is_dict, field.
  by rewrite Hd.
Qed.

Lemma py_getitem_ok x k w t w' v :
  py_getitem x k w = (t, w', Ok v) ->
  t = [] /\ w' = w /\ exists l, x = VRef l /\ field (store w) l k = Some v.
Proof.
  unfold py_getitem. destruct x; try by inversion 1.
  destruct (hdict (store w) l) as [m|] eqn:Hd; [|by inversion 1].
  destruct (m !! k) eqn:Hk; inversion 1; subst.
  split; [done|]. split; [done|]. exists l. unfold field. by rewrite Hd.
Qed.

Lemma py_mapping_ok x w t w' d :
  py_mapping x w = (t, w', Ok d) ->
  t = [] /\ w' = w /\ exists l, x = VRef l /\ hdict (store w) l = Some d.
Proof.
  unfold py_mapping. destruct x; try by inversion 1.
  destruct (hdict (store w) l) as [m|] eqn:Hd; inversion 1; subst.
  split; [done|]. split; [done|]. exists l. repeat split; done.
Qed.

Lemma py_setitem_ok x k v w t w' u :
  py_setitem x k v w = (t, w', Ok u) ->
  t = [] /\ exists l, x = VRef l /\ is_dict (store w) l = true
                      /\ w' = mkWorld (hset (store w) l k v) (entropy w).
Proof.
  unfold py_setitem. destruct x; try by inversion 1.
  destruct (hdict (store w) l) as [m|] eqn:Hd; inversion 1; subst.
  split; [done|]. exists l. unfold is_dict. by rewrite Hd.
Qed.

Lemma py_delitem_ok x k w t w' u :
  py_delitem x k w = (t, w', Ok u) ->
  t = [] /\ exists l, x = VRef l /\ is_dict (store w) l = true
                      /\ w' = mkWorld (hdel (store w) l k) (entropy w).
Proof.
  unfold py_delitem. destruct x; try by inversion 1.
  destruct (hdict (store w) l) as [m|] eqn:Hd; [|by inversion 1].
  destruct (m !! k); inversion 1; subst.
  split; [done|]. exists l. unfold is_dict. by rewrite Hd.
Qed.

Lemma new_obj_ok o w t w' v :
  new_obj o w = (t, w', Ok v) ->
  t = [] /\ v = VRef (fresh (dom (store w)))
  /\ w' = mkWorld (halloc (store w) o) (entropy w).
Proof. by inversion 1. Qed.

Lemma py_get_new_ok x k o w t w' v :
  py_get_new x k o w = (t, w', Ok v) ->
  t = [] /\ exists l, x = VRef l /\ is_dict (store w) l = true
    /\ w' = mkWorld (halloc (store w) o) (entropy w)
    /\ v = default (VRef (fresh (dom (store w)))) (field (store w) l k).
Proof.
  unfold py_get_new. destruct x; try by inversion 1.
  destruct (hdict (store w) l) as [m|] eqn:Hd; [|by inversion 1].
  intros H. apply bind_ok in H as (a & t1 & w1 & t2 & H1 & H2 & ->).
  apply new_obj_ok in H1 as (-> & -> & ->).
  apply py_get_ok in H2 as (-> & -> & l' & [= <-] & Hl' & ->).
  split; [done|]. exists l.
  assert (Hdl : is_dict (store w) l = true) by (unfold is_dict; by rewrite Hd).
  repeat split; try done. simpl store.
  destruct (changed_halloc (fun _ _ => False) (store w) o l
              (is_dict_allocated _ _ Hdl)) as (_ & _ & Hf).
  rewrite Hf; [done|tauto].
Qed.

Lemma uuid4_hex_ok env w t w' s :
  uuid4_hex env w = (t, w', Ok s) ->
  t = [] /\ w' = mkWorld (store w) (S (entropy w))
  /\ s = hex32 (uuid4_int (urandom env (entropy w))).
Proof. by inversion 1. Qed.

(** ** [fix_for_issue_platform] *)

Ltac same_refs :=
  repeat match goal with
    | H : VRef ?a = VRef ?b |- _ =>
        first [ is_var b; injection H as <- | is_var a; injection H as -> ]
    | H : ?x = VRef _ |- _ => is_var x; subst x
    end.

Ltac ok_bind H :=
  let Hm := fresh "Hm" in
  apply bind_ok in H as (?a & ?t & ?w & ?t & Hm & H & ->);
  first
    [ apply uuid4_hex_ok in Hm as (-> & ?Hw & ?Hv)
    | apply new_obj_ok in Hm as (-> & ?Hv & ?Hw)
    | apply py_getitem_ok in Hm as (-> & -> & ?l & ?Hx & ?Hf)
    | apply py_get_ok in Hm as (-> & -> & ?l & ?Hx & ?Hd & ?Hv)
    | apply py_get_new_ok in Hm as (-> & ?l & ?Hx & ?Hd & ?Hw & ?Hv)
    | apply py_setitem_ok in Hm as (-> & ?l & ?Hx & ?Hd & ?Hw)
    | apply py_delitem_ok in Hm as (-> & ?l & ?Hx & ?Hd & ?Hw)
    | apply py_truthy_ok in Hm as (-> & -> & ?Hv)
    | apply py_mapping_ok in Hm as (-> & -> & ?l & ?Hx & ?Hd)
    | apply lift_ok in Hm as (-> & -> & ?Hv)
    | apply ret_ok in Hm as (-> & -> & ?Hv)
    | idtac ];
  same_refs.

(** What is left to run changes allowed fields only. *)
Ltac rest_modifies H P Hc He :=
  match type of H with
  | ?m ?w = _ =>
      let Hm := fresh "Hmod" in
      assert (Hm : modifies P m) by solve_modifies;
      destruct (Hm _ _ _ _ H) as [Hc He]; clear Hm
  end.

Lemma returns_bind {A B} (v : B) (m : M A) (f : A -> M B) :
  (forall a, returns v (f a)) -> returns v (bind m f).
Proof.
  intros Hf w t w' r H. apply bind_ok in H as (a & t1 & w1 & t2 & _ & H & _).
  by apply (Hf _ _ _ _ _ H).
Qed.

Lemma returns_ret {A} (v : A) : returns v (ret v).
Proof. intros w t w' r H. by inversion H. Qed.

Lemma field_halloc_old h o l k v :
  field (halloc h (ODict o)) l k = Some v -> o = ∅ ->
  l <> fresh (dom h) /\ is_Some (h !! l).
Proof.
  intros Hf ->. assert (Hne : l <> fresh (dom h)).
  { intros ->. by rewrite field_halloc, lookup_empty in Hf. }
  split; [done|]. apply field_is_dict, is_dict_allocated in Hf.
  unfold halloc in Hf. by rewrite lookup_insert_ne in Hf.
Qed.

(** A field read while a computation runs is the field of the start, when
    neither the whole computation nor what is left of it may change it. *)
Lemma frame_back P (h0 hj h' : heap) l k :
  changed P h0 h' -> changed P hj h' ->
  is_Some (h0 !! l) -> is_Some (hj !! l) -> ~ P l k ->
  field hj l k = field h0 l k.
Proof.
  intros H0 Hj Hl0 Hlj HP.
  destruct (H0 l Hl0) as (_ & _ & Hf0). destruct (Hj l Hlj) as (_ & _ & Hfj).
  by rewrite <- Hf0, <- Hfj.
Qed.

Lemma not_may_change lr l k :
  l <> lr -> in_keys fixed_keys k = false -> ~ may_change lr l k.
Proof. intros Hl Hk [?|?]; congruence. Qed.

Lemma keep_written (h h' : heap) lr key v :
  is_dict h lr = true ->
  changed (fun (_ : loc) k => k <> key) (hset h lr key v) h' ->
  field h' lr key = Some v.
Proof.
  intros Hd Hc.
  assert (Hl : is_Some (hset h lr key v !! lr)).
  { destruct (changed_hset h lr key v lr (is_dict_allocated _ _ Hd)) as (? & _). done. }
  destruct (Hc lr Hl) as (_ & _ & Hf). rewrite Hf; [|naive_solver].
  by apply field_hset.
Qed.

Lemma fix_returns env x w t w' rv :
  fix_for_issue_platform env x w = (t, w', Ok rv) ->
  exists l lr, x = VRef l /\ rv = VRef lr
    /\ is_Some (store w !! l) /\ store w !! lr = None
    /\ entropy w' = entropy w /\ is_dict (store w') lr = true
    /\ changed (fun _ k => in_keys fixed_keys k = true) (store w) (store w')
    /\ field (store w') lr "contexts" = field (store w) l "contexts"
    /\ is_Some (field (store w) l "contexts")
    /\ field (store w') lr "event_id" = field (store w) l "event_id"
    /\ is_Some (field (store w) l "event_id")
    /\ (forall v, field (store w) l "tags" = Some v ->
                  field (store w') lr "tags" = Some v)
    /\ (forall v, field (store w) l "user" = Some v ->
                  field (store w') lr "user" = Some v).
Proof.
  intros H. unfold fix_for_issue_platform in H.
  ok_bind H.
  assert (Hlr : store w !! fresh (dom (store w)) = None)
    by (apply not_elem_of_dom, is_fresh).
  assert (Hdr : is_dict (store w0) (fresh (dom (store w))) = true)
    by (subst w0; apply is_dict_halloc).
  assert (Hold : forall l, is_Some (store w !! l) -> l <> fresh (dom (store w)))
    by apply fresh_not_allocated.
  assert (H0 : changed (fun _ _ => False) (store w) (store w0))
    by (subst w0; apply changed_halloc).
  assert (He0 : entropy w0 = entropy w) by (by subst w0).
  assert (Hnew : forall l k v, field (store w0) l k = Some v -> is_Some (store w !! l)).
  { intros l k v Hf. subst w0. by eapply field_halloc_old. }
  clear Hw. set (lr := fresh (dom (store w))) in *. clearbody lr.
  assert (Hrv : rv = VRef lr).
  { revert H. match goal with |- ?m _ = _ -> _ => 
      assert (Hr : returns (VRef lr) m); [|intros H; apply (Hr _ _ _ _ H)] end.
    repeat (apply returns_bind; intros ?). apply returns_ret. }
  rest_modifies H (may_change lr) Hall Hent.
  assert (Hstart : changed (may_change lr) (store w) (store w')).
  { eapply changed_trans; [|exact Hall]. by eapply changed_weaken; [|exact H0]. }
  ok_bind H. assert (Hl := Hnew _ _ _ Hf). assert (Hne := Hold _ Hl).
  assert (Hback : forall wj k,
            changed (may_change lr) (store wj) (store w') ->
            is_dict (store wj) l = true -> in_keys fixed_keys k = false ->
            field (store wj) l k = field (store w) l k).
  { intros wj k Hcj Hdj Hk. eapply frame_back; eauto using is_dict_allocated.
    by apply not_may_change. }
  do 6 ok_bind H.
  (* contexts *)
  rest_modifies H (may_change lr) Hc1 He1. ok_bind H. ok_bind H.
  rest_modifies H (fun (_ : loc) k => k <> "contexts") Hk1 Hke1.
  rewrite Hw3 in Hk1. apply keep_written in Hk1; [|done].
  rewrite (Hback _ "contexts" Hc1 Hd2 eq_refl) in Hv0.
  rest_modifies H (may_change lr) Hc2 He2. ok_bind H.
  rewrite (Hback _ "contexts" Hc2 (field_is_dict _ _ _ _ Hf2) eq_refl) in Hf2.
  rewrite Hf2 in Hv0. simpl in Hv0. subst a6.
  do 4 ok_bind H.
  (* event_id *)
  rest_modifies H (may_change lr) Hc3 He3. ok_bind H.
  rewrite (Hback _ "event_id" Hc3 (field_is_dict _ _ _ _ Hf3) eq_refl) in Hf3.
  ok_bind H.
  rest_modifies H (fun (_ : loc) k => k <> "event_id") Hk2 Hke2.
  rewrite Hw4 in Hk2. apply keep_written in Hk2; [|done].
  (* tags *)
  rest_modifies H (may_change lr) Hc4 He4. ok_bind H. ok_bind H.
  rest_modifies H (fun (_ : loc) k => k <> "tags") Hk3 Hke3.
  rewrite Hw6 in Hk3. apply keep_written in Hk3; [|done].
  rewrite (Hback _ "tags" Hc4 Hd6 eq_refl) in Hv2.
  do 11 ok_bind H.
  (* user *)
  rest_modifies H (may_change lr) Hc5 He5. ok_bind H. ok_bind H.
  rest_modifies H (fun (_ : loc) k => k <> "user") Hk4 Hke4.
  rewrite Hw13 in Hk4. apply keep_written in Hk4; [|done].
  rewrite (Hback _ "user" Hc5 Hd17 eq_refl) in Hv9.
  exists l, lr. split; [done|]. split; [done|]. split; [done|]. split; [done|].
  split; [congruence|]. split.
  { destruct (Hall lr (is_dict_allocated _ _ Hdr)) as (_ & -> & _). done. }
  split.
  { intros l' Hl'. destruct (Hstart l' Hl') as (Ha & Hb & Hc).
    split; [done|]. split; [done|]. intros k Hk. apply Hc, not_may_change; [auto|].
    by destruct (in_keys fixed_keys k). }
  split; [congruence|]. split; [by rewrite Hf2|].
  split; [congruence|]. split; [by rewrite Hf3|].
  split; intros v Hfv.
  - rewrite Hfv in Hv2. simpl in Hv2. congruence.
  - rewrite Hfv in Hv9. simpl in Hv9. congruence.
Qed.

(** ** The event id of an occurrence *)

Lemma hex_digits_nonempty k n acc : acc <> "" -> hex_digits k n acc <> "".
Proof.
  revert n acc. induction k as [|k IH]; intros n acc Hacc; [done|].
  simpl. by apply IH.
Qed.

Lemma hex32_truthy h n : truthy h (VStr (hex32 n)) = true.
Proof.
  assert (Hne : hex32 n <> "").
  { apply (hex_digits_nonempty 31 (n / 16)%N). done. }
  unfold truthy. by destruct (hex32 n).
Qed.

Lemma truthy_hset h l k v x :
  truthy h x = true -> truthy (hset h l k v) x = true.
Proof.
  destruct x as [| | | | |l0]; try done. unfold hset, truthy.
  destruct (hdict h l) as [d|] eqn:Hd; [|done].
  destruct (decide (l = l0)) as [<-|Hne].
  - rewrite lookup_insert_eq. intros _. apply negb_true_iff, bool_decide_eq_false.
    apply insert_non_empty.
  - by rewrite lookup_insert_ne.
Qed.

Lemma hdict_field h l d k : hdict h l = Some d -> field h l k = d !! k.
Proof. unfold field. by intros ->. Qed.

Lemma hdict_is_dict h l d : hdict h l = Some d -> is_dict h l = true.
Proof. unfold is_dict. by intros ->. Qed.

Lemma reads_ok {A} (m : M A) w t w' r :
  reads m -> m w = (t, w', r) -> t = [] /\ w' = w.
Proof. intros Hm H. destruct (Hm w) as [r' Hr]. rewrite Hr in H. by inversion H. Qed.

Ltac ok_read H :=
  let Hm := fresh "Hm" in
  let Hr := fresh "Hr" in
  apply bind_ok in H as (?a & ?t & ?w & ?t & Hm & H & ->);
  match type of Hm with
  | ?m _ = _ => assert (Hr : reads m) by solve_reads
  end;
  apply (reads_ok _ _ _ _ _ Hr) in Hm as (-> & ->); clear Hr.

(** [x or uuid4().hex] *)
Lemma or_uuid_ok env x (b : bool) w t w' y :
  (if b then ret x else bind (uuid4_hex env) (fun h => ret (VStr h))) w
  = (t, w', Ok y) ->
  t = [] /\ store w' = store w
  /\ y = (if b then x else VStr (hex32 (uuid4_int (urandom env (entropy w)))))
  /\ entropy w' = (if b then 0 else 1) + entropy w.
Proof.
  destruct b; [by inversion 1|].
  intros H. ok_bind H. apply ret_ok in H as (-> & -> & ->). by subst.
Qed.

Lemma field_halloc_ne h o l k :
  is_Some (h !! l) -> field (halloc h o) l k = field h l k.
Proof.
  intros Hl. destruct (changed_halloc (fun _ _ => False) h o l Hl) as (_ & _ & Hf).
  apply Hf. tauto.
Qed.

Lemma field_hset_ne h l k v l' k' :
  k' <> k -> field (hset h l k v) l' k' = field h l' k'.
Proof.
  intros Hk. destruct (h !! l') eqn:Hl'.
  - destruct (changed_hset h l k v l') as (_ & _ & Hf); [by rewrite Hl'|].
    apply Hf. naive_solver.
  - unfold hset. destruct (hdict h l) as [d|] eqn:Hd; [|done].
    unfold field. rewrite hdict_insert_ne; [done|]. intros ->.
    unfold hdict in Hd. by rewrite Hl' in Hd.
Qed.

Lemma occurrence_returns env project v event pid source w t w' :
  create_feedback_occurrence env project v event pid source w = (t, w', Ok tt) ->
  exists l eid ts dt occ sent cs tv,
    event = VRef l /\ is_dict (store w) l = true
    /\ eid = (if truthy (store w) (default VNone (field (store w) l "event_id"))
              then default VNone (field (store w) l "event_id")
              else VStr (hex32 (uuid4_int (urandom env (entropy w)))))
    /\ entropy w' =
       (if truthy (store w) (default VNone (field (store w) l "event_id"))
        then 2 else 3) + entropy w
    /\ field (store w) l "timestamp" = Some ts /\ fromtimestamp env ts = Ok dt
    /\ feedback_occurrence pid occ
    /\ occ_event_id occ = eid /\ occ_detection_time occ = dt
    /\ sent !! "event_id" = Some eid
    /\ field (store w') l "event_id" = Some eid
    /\ validated tv
    /\ t = tv ++ first_seen_signals project source
            ++ [Produced (OCCURRENCE occ sent)]
            ++ spam_triage env project v (occ_fingerprint occ)
            ++ [produced_metric source cs;
                TrackOutcome (accepted_outcome project pid dt eid)].
Proof.
  unfold create_feedback_occurrence. intros H.
  ok_bind H. ok_bind H. ok_bind H.
  apply or_uuid_ok in Hm as (-> & Hs0 & Ha1 & He0).
  ok_bind H. rewrite Hs0 in Hw, Hd0.
  assert (Hid1 : field (store w1) l "event_id" = Some a1)
    by (subst w1; by apply field_hset).
  assert (Hta : truthy (store w1) a1 = true).
  { subst w1. simpl store. subst a1. destruct a0 eqn:Ha0.
    - apply truthy_hset. by subst.
    - apply hex32_truthy. }
  ok_bind H.
  assert (Hts : field (store w) l "timestamp" = Some a3).
  { subst w1. simpl store in Hf. by rewrite field_hset_ne in Hf. }
  ok_bind H. ok_bind H. ok_bind H. ok_read H.
  ok_bind H. ok_bind H.
  assert (Hs3 : store w3 = store w1) by (by subst w3 w2).
  assert (He3 : entropy w3 = 2 + entropy w0) by (by subst w3 w2 w1).
  ok_bind H.
  match goal with
  | Hx : ?b = default VNone (field (store w3) l "event_id") |- _ =>
      rewrite Hs3, Hid1 in Hx; simpl in Hx; subst b
  end.
  ok_bind H.
  match goal with
  | Hx : ?b = truthy (store w3) a1 |- _ => rewrite Hs3, Hta in Hx; subst b
  end.
  ok_bind H.
  match goal with Hx : Ok a1 = Ok _ |- _ => injection Hx as <- end.
  ok_read H. ok_bind H. ok_bind H. ok_bind H. ok_bind H. ok_bind H.
  match goal with
  | Hx : hdict (store ?wa) l = Some ?d |- _ =>
      rename Hx into Hev; rename d into ev; rename wa into wA
  end.
  match goal with Hx : wA = _ |- _ => rename Hx into HwA end.
  match goal with
  | Hx : ?wb = mkWorld (halloc (store wA) _) _ |- _ =>
      rename Hx into HwB; rename wb into wB
  end.
  rewrite Hs3 in *.
  assert (Hl1 : is_Some (store w1 !! l)) by (by apply is_dict_allocated).
  assert (HlA : field (store wA) l "event_id" = Some a1).
  { subst wA. simpl store. by rewrite field_halloc_ne. }
  assert (Hev1 : ev !! "event_id" = Some a1)
    by (by rewrite <- (hdict_field _ _ _ _ Hev)).
  set (li := fresh (dom (store wA))) in *.
  assert (Hli : field (store wB) li "event_id" = Some a1).
  { subst wB. simpl store. unfold li. rewrite field_halloc.
    by apply lookup_union_Some_l. }
  assert (HlB : field (store wB) l "event_id" = Some a1).
  { subst wB. simpl store. rewrite field_halloc_ne; [done|].
    apply is_dict_allocated. by eapply hdict_is_dict. }
  assert (HeB : entropy wB = 2 + entropy w0) by (subst wB wA; exact He3).
  clear HwB.
  assert (Ht := silent_fix_for_issue_platform _ _ _ _ _ _ Hm). subst t.
  apply fix_returns in Hm
    as (li' & lr & [= <-] & -> & _ & _ & He7 & Hdr & Hfr & _ & _ & Hfid & _ & _ & _).
  rewrite Hli in Hfid.
  match type of Hfr with changed _ _ (store ?wc) => rename wc into wC end.
  assert (HlC : field (store wC) l "event_id" = Some a1).
  { destruct (Hfr l) as (_ & _ & Hf7);
      [by apply is_dict_allocated, (field_is_dict _ _ _ _ HlB)|].
    rewrite Hf7; done. }
  clear Hfr.
  apply bind_ok in H as (? & tv & wv & tr & Hval & H & ->).
  apply validate_inv in Hval as (-> & [(Hval & _) | (_ & ?)]); [|done].
  rewrite first_seen_run in H.
  destruct (bind _ _ _) as [[ts ws] rs] eqn:H2 in H.
  injection H as <- -> ->.
  ok_bind H2.
  match goal with
  | Hx : hdict (store wC) lr = Some ?d |- _ => rename Hx into Hsent; rename d into sent
  end.
  apply bind_ok in H2 as (? & tp & wp & tq & Hp & H2 & ->).
  rewrite produce_run in Hp.
  match type of Hp with context [OCCURRENCE ?o _] => set (occ := o) in * end.
  destruct (kafka env (OCCURRENCE occ sent)) as [[]|e]; [|done].
  injection Hp as <- <-.
  apply bind_ok in H2 as (? & tg & wg & tu & Hg & H2 & ->).
  rewrite triage_run in Hg.
  assert (Hg' : tg = spam_triage env project v (occ_fingerprint occ) /\ wg = wC).
  { unfold spam_triage in *.
    destruct (verdict_truthy v && spam_actions_enabled env project).
    - destruct (kafka env (STATUS_CHANGE _)) as [[]|e]; by inversion Hg.
    - by inversion Hg. }
  destruct Hg' as [-> ->]. clear Hg.
  ok_bind H2. ok_bind H2. ok_bind H2.
  unfold metrics_incr in H2. rewrite bind_emit in H2.
  destruct (bind _ _ _) as [[tz wz] rz] eqn:H3 in H2.
  injection H2 as <- -> ->.
  ok_bind H3.
  match goal with
  | Hx : field (store wC) l "event_id" = Some ?e |- _ =>
      rewrite HlC in Hx; injection Hx as <-
  end.
  unfold track_outcome, emit in H3. injection H3 as <- <-.
  exists l, a1, a3, a4, occ, sent.
  match goal with
  | |- context [MetricsIncr _ [_; (_, ?c)]] => exists c
  end.
  exists tv.
  split; [done|]. split; [done|]. split; [by subst|].
  split. { rewrite He7, HeB, He0. subst a0 a. by destruct (truthy _ _). }
  split; [done|]. split; [done|].
  split; [repeat split; eauto|]. split; [done|]. split; [done|].
  split; [by rewrite <- (hdict_field _ _ _ _ Hsent)|].
  split; [done|]. split; [done|]. reflexivity.
Qed.

(** ** The event id and the outcome *)

Lemma accepted_run_counts env project tc v tv source occ sent cs o :
  classified env project tc v -> validated tv ->
  let t := entered_metric :: tc ++ tv ++ first_seen_signals project source
             ++ [Produced (OCCURRENCE occ sent)]
             ++ spam_triage env project v (occ_fingerprint occ)
             ++ [produced_metric source cs; TrackOutcome o] in
  count is_occurrence t = 1 /\ count is_outcome t = 1.
Proof.
  intros Hc Hv. inversion Hc; subst; destruct Hv; subst;
    unfold first_seen_signals, spam_triage;
    repeat match goal with
      | |- context [if ?b then _ else _] => destruct b eqn:?
      end; done.
Qed.

(** C8. For an accepted submission whose run returns: the event id is the one
    the caller supplied when there is one (a true value under [event_id]),
    and otherwise a fresh one, the first identifier drawn; in both cases
    nothing more is drawn than the fingerprint and the occurrence id, so a
    fresh event id is generated once.  That same id is the occurrence's, the
    one of the event handed to the stream, the one of the outcome record, and
    the one left in the caller's event. *)
Theorem C8_one_event_id env event pid source w t w' :
  should_filter_feedback event pid source w = ([], w, Ok false) ->
  create_feedback_issue env event pid source w = (t, w', Ok tt) ->
  exists l eid occ sent o pre mid,
    event = VRef l
    /\ eid = (if truthy (store w) (default VNone (field (store w) l "event_id"))
              then default VNone (field (store w) l "event_id")
              else VStr (hex32 (uuid4_int (urandom env (entropy w)))))
    /\ entropy w' =
       (if truthy (store w) (default VNone (field (store w) l "event_id"))
        then 2 else 3) + entropy w
    /\ t = pre ++ [Produced (OCCURRENCE occ sent)] ++ mid ++ [TrackOutcome o]
    /\ count is_occurrence t = 1 /\ count is_outcome t = 1
    /\ occ_event_id occ = eid
    /\ sent !! "event_id" = Some eid
    /\ out_event_id o = eid
    /\ field (store w') l "event_id" = Some eid.
Proof.
  intros Hf H.
  destruct (issue_accepted_inv _ _ _ _ _ _ _ _ Hf H)
    as [(e & _ & _ & ?) | (project & tc & v & t0 & Hp & Hv & Hc & Ho & ->)]; [done|].
  apply occurrence_returns in Ho
    as (l & eid & ts & dt & occ & sent & cs & tv & -> & Hd & Heid & Hent & Hts & Hdt
        & Hocc & Hoe & Hod & Hsent & Hfin & Hval & ->).
  exists l, eid, occ, sent, (accepted_outcome project pid dt eid),
    (entered_metric :: tc ++ tv ++ first_seen_signals project source),
    (spam_triage env project v (occ_fingerprint occ) ++ [produced_metric source cs]).
  split; [done|]. split; [done|]. split; [done|].
  split. { repeat (progress (cbn [app]; rewrite <- ?app_assoc)). reflexivity. }
  split; [|split; [|done]];
    by apply (accepted_run_counts env project tc v tv source occ sent cs).
Qed.

Lemma C8_witness :
  let w := sample_world (VStr "Great app!") in
  let run := create_feedback_issue (sample_env (Ok false)) sample_event 7
               NEW_FEEDBACK_ENVELOPE w in
  exists l eid occ sent o pre mid,
    sample_event = VRef l
    /\ eid = (if truthy (store w) (default VNone (field (store w) l "event_id"))
              then default VNone (field (store w) l "event_id")
              else VStr (hex32 (uuid4_int
                                  (urandom (sample_env (Ok false)) (entropy w)))))
    /\ entropy run.1.2 =
       (if truthy (store w) (default VNone (field (store w) l "event_id"))
        then 2 else 3) + entropy w
    /\ calls run = pre ++ [Produced (OCCURRENCE occ sent)] ++ mid ++ [TrackOutcome o]
    /\ count is_occurrence (calls run) = 1 /\ count is_outcome (calls run) = 1
    /\ occ_event_id occ = eid
    /\ sent !! "event_id" = Some eid
    /\ out_event_id o = eid
    /\ field (store run.1.2) l "event_id" = Some eid.
Proof.
  intros w run.
  apply (C8_one_event_id (sample_env (Ok false)) sample_event 7%Z
           NEW_FEEDBACK_ENVELOPE w (calls run) run.1.2).
  - vm_compute. reflexivity.
  - vm_compute. reflexivity.
Defined.

Lemma issue_run_outcome env pid source t r :
  issue_run env pid source t r ->
  count is_outcome t <= 1
  /\ count is_outcome t <= count is_occurrence t
  /\ (forall e, r = Raise e -> count is_outcome t = 0).
Proof.
  intros H. run_shapes H; (split; [|split]);
    first [ by intros ? ? | vm_compute; lia ].
Qed.

(** C7 (amended). One outcome record is written by a run that accepts the
    submission and returns, after the occurrence is published and as the last
    call: outcome accepted, quantity 1, category user-report-v2, no key, no
    reason, the event's id, and the detection time as timestamp.  A run that
    raises writes none: so it is when the publish of the occurrence or an
    earlier stage fails, and also when the status change of the spam triage,
    published after the occurrence, fails.  No run writes two, and none
    without a published occurrence. *)
Theorem C7_outcome_record env event pid source w t w' r :
  create_feedback_issue env event pid source w = (t, w', r) ->
  count is_outcome t <= 1
  /\ count is_outcome t <= count is_occurrence t
  /\ (forall e, r = Raise e -> count is_outcome t = 0)
  /\ (should_filter_feedback event pid source w = ([], w, Ok false) ->
      r = Ok tt ->
      exists project l ts dt eid occ sent pre,
        get_from_cache env pid = Ok project
        /\ event = VRef l
        /\ field (store w) l "timestamp" = Some ts
        /\ fromtimestamp env ts = Ok dt
        /\ field (store w') l "event_id" = Some eid
        /\ t = pre ++ [TrackOutcome
                         (mkOutcomeRecord (project_organization_id project) pid
                            None ACCEPTED None dt eid USER_REPORT_V2 1)]
        /\ count is_outcome pre = 0
        /\ count is_occurrence pre = 1
        /\ Produced (OCCURRENCE occ sent) ∈ pre
        /\ occ_event_id occ = eid /\ occ_detection_time occ = dt).
Proof.
  intros H.
  destruct (issue_run_outcome _ _ _ _ _ (issue_runs _ _ _ _ _ _ _ _ H))
    as (H1 & H2 & H3).
  split; [done|]. split; [done|]. split; [done|].
  intros Hf ->.
  destruct (issue_accepted_inv _ _ _ _ _ _ _ _ Hf H)
    as [(e & _ & _ & ?) | (project & tc & v & t0 & Hp & Hv & Hc & Ho & ->)]; [done|].
  apply occurrence_returns in Ho
    as (l & eid & ts & dt & occ & sent & cs & tv & -> & Hd & Heid & Hent & Hts & Hdt
        & Hocc & Hoe & Hod & Hsent & Hfin & Hval & ->).
  destruct (accepted_run_counts env project tc v tv source occ sent cs
              (accepted_outcome project pid dt eid) Hc Hval) as [Hc1 Hc2].
  exists project, l, ts, dt, eid, occ, sent,
    (entered_metric :: tc ++ tv ++ first_seen_signals project source
       ++ [Produced (OCCURRENCE occ sent)]
       ++ spam_triage env project v (occ_fingerprint occ)
       ++ [produced_metric source cs]).
  split; [done|]. split; [done|]. split; [done|]. split; [done|]. split; [done|].
  split. { repeat (progress (cbn [app]; rewrite <- ?app_assoc)). reflexivity. }
  assert (Heq : entered_metric :: tc ++ tv ++ first_seen_signals project source
             ++ [Produced (OCCURRENCE occ sent)]
             ++ spam_triage env project v (occ_fingerprint occ)
             ++ [produced_metric source cs;
                 TrackOutcome (accepted_outcome project pid dt eid)]
          = (entered_metric :: tc ++ tv ++ first_seen_signals project source
             ++ [Produced (OCCURRENCE occ sent)]
             ++ spam_triage env project v (occ_fingerprint occ)
             ++ [produced_metric source cs])
            ++ [TrackOutcome (accepted_outcome project pid dt eid)]).
  { repeat (progress (cbn [app]; rewrite <- ?app_assoc)). reflexivity. }
  rewrite Heq, count_app in Hc1, Hc2.
  rewrite (count_cons is_occurrence _ []) in Hc1.
  rewrite (count_cons is_outcome _ []) in Hc2.
  change (count is_occurrence []) with 0 in Hc1.
  change (count is_outcome []) with 0 in Hc2.
  cbn [is_occurrence is_outcome] in Hc1, Hc2.
  split; [lia|]. split; [lia|].
  split; [|done].
  rewrite elem_of_cons, !elem_of_app. right. right. right. right. left.
  constructor.
Qed.

(** C7 as stated fails: when the stream takes the occurrence and refuses the
    status change of the spam triage, the occurrence is published and no
    outcome is recorded. *)
Lemma C7_counterexample : ~ records_every_published_occurrence.
Proof.
  intros H.
  specialize (H (sample_env_with (Ok true) (fun _ => true) refuse_status_change)
                sample_event 7%Z NEW_FEEDBACK_ENVELOPE
                (sample_world (VStr "Great app!"))).
  vm_compute in H. specialize (H eq_refl). discriminate.
Qed.

Lemma C7_witness :
  let w := sample_world (VStr "Great app!") in
  let run := create_feedback_issue (sample_env (Ok false)) sample_event 7
               NEW_FEEDBACK_ENVELOPE w in
  count is_outcome (calls run) <= 1
  /\ count is_outcome (calls run) <= count is_occurrence (calls run)
  /\ exists project l ts dt eid occ sent pre,
       get_from_cache (sample_env (Ok false)) 7 = Ok project
       /\ sample_event = VRef l
       /\ field (store w) l "timestamp" = Some ts
       /\ fromtimestamp (sample_env (Ok false)) ts = Ok dt
       /\ field (store run.1.2) l "event_id" = Some eid
       /\ calls run = pre ++ [TrackOutcome
                                (mkOutcomeRecord (project_organization_id project) 7
                                   None ACCEPTED None dt eid USER_REPORT_V2 1)]
       /\ count is_outcome pre = 0
       /\ count is_occurrence pre = 1
       /\ Produced (OCCURRENCE occ sent) ∈ pre
       /\ occ_event_id occ = eid /\ occ_detection_time occ = dt.
Proof.
  intros w run.
  destruct (C7_outcome_record (sample_env (Ok false)) sample_event 7%Z
              NEW_FEEDBACK_ENVELOPE w (calls run) run.1.2 run.2 (run_of run))
    as (H1 & H2 & _ & H4).
  split; [exact H1|]. split; [exact H2|].
  apply H4; vm_compute; reflexivity.
Defined.
(** ** The legacy report without its event *)

Lemma new_obj_run o w :
  new_obj o w
  = ([], mkWorld (halloc (store w) o) (entropy w), Ok (VRef (fresh (dom (store w))))).
Proof. reflexivity. Qed.

Lemma py_setitem_run l k v w :
  is_dict (store w) l = true ->
  py_setitem (VRef l) k v w = ([], mkWorld (hset (store w) l k v) (entropy w), Ok tt).
Proof.
  unfold is_dict, py_setitem. by destruct (hdict (store w) l).
Qed.

Lemma py_getitem_field l k v w :
  field (store w) l k = Some v -> py_getitem (VRef l) k w = ([], w, Ok v).
Proof.
  unfold field. destruct (hdict (store w) l) as [d|] eqn:Hd; [|done].
  intros Hk. by eapply py_getitem_dict.
Qed.

Lemma is_dict_hset h l k v l' : is_dict (hset h l k v) l' = is_dict h l'.
Proof.
  unfold hset. destruct (hdict h l) as [d|] eqn:Hd; [|done].
  unfold is_dict. destruct (decide (l = l')) as [<-|Hne].
  - by rewrite hdict_insert_eq, Hd.
  - by rewrite hdict_insert_ne.
Qed.

Lemma is_dict_halloc_old h o l :
  is_dict h l = true -> is_dict (halloc h o) l = true.
Proof.
  intros Hd. destruct (changed_halloc (fun _ _ => False) h o l) as (_ & -> & _);
    [by apply is_dict_allocated|done].
Qed.

Lemma field_halloc_keep h o l k v :
  field h l k = Some v -> field (halloc h o) l k = Some v.
Proof.
  intros Hf. rewrite field_halloc_ne; [done|].
  by eapply is_dict_allocated, field_is_dict.
Qed.

Lemma changed_hset_fresh P h0 h l k v :
  h0 !! l = None -> changed P h0 h -> changed P h0 (hset h l k v).
Proof.
  intros Hl Hc l' Hl'. destruct (Hc l' Hl') as (H1 & H2 & H3).
  assert (Hne : l <> l') by (intros ->; rewrite Hl in Hl'; by destruct Hl').
  rewrite is_dict_hset. split; [|split; [done|]].
  - unfold hset. destruct (hdict h l); [by rewrite lookup_insert_ne|done].
  - intros k' Hk'. rewrite <- (H3 k' Hk'). unfold hset.
    destruct (hdict h l); [|done]. unfold field. by rewrite hdict_insert_ne.
Qed.

Lemma unallocated_before (h0 h : heap) l :
  changed (fun _ _ => False) h0 h -> h !! l = None -> h0 !! l = None.
Proof.
  intros Hc Hl. destruct (h0 !! l) eqn:H0; [|done].
  destruct (Hc l) as ([? H1] & _); [by rewrite H0|]. by rewrite H1 in Hl.
Qed.

Lemma fresh_unallocated (h : heap) : h !! fresh (dom h) = None.
Proof. apply not_elem_of_dom, is_fresh. Qed.

Lemma issue_run_no_missing_event env pid source t r :
  issue_run env pid source t r ->
  count (is_metric "feedback.user_report.missing_event") t = 0.
Proof. intros H. run_shapes H; reflexivity. Qed.

Lemma bind_quiet {A B} (m : M A) (f : A -> M B) w w1 a :
  m w = ([], w1, Ok a) -> bind m f w = f a w1.
Proof. unfold bind. intros ->. by destruct (f a w1) as [[t2 w2] r]. Qed.

Ltac quiet H := norm; rewrite (bind_quiet _ _ _ _ _ H); cbv beta iota.

(** The run of [shim_to_feedback] on a report without event: the counter,
    three new dictionaries, and the pipeline on the event made of them. *)
Lemma lookup_hset_other (h : heap) l k v l' :
  l <> l' -> hset h l k v !! l' = h !! l'.
Proof.
  intros Hne. unfold hset. destruct (hdict h l); [by rewrite lookup_insert_ne|done].
Qed.

Lemma shim_synthesis_kept env report project source w :
  exists l lc lf w1,
    (let run := create_feedback_issue env (VRef l) (project_id project) source w1 in
     shim_to_feedback env report None project source w
     = (missing_event_metric :: calls run ++ shim_handled run.2, run.1.2, Ok tt))
    /\ store w !! l = None /\ store w !! lc = None /\ store w !! lf = None
    /\ entropy w1 = entropy w
    /\ changed (fun _ _ => False) (store w) (store w1)
    /\ field (store w1) l "timestamp" = Some (timestamp env (datetime_utcnow env))
    /\ field (store w1) l "platform" = Some (VStr "other")
    /\ field (store w1) l "level" = Some (default (VStr "info") (report_level report))
    /\ field (store w1) l "contexts" = Some (VRef lc)
    /\ field (store w1) lc "feedback" = Some (VRef lf)
    /\ field (store w1) lf "name" = Some (default (VStr "") (report_name report))
    /\ field (store w1) lf "contact_email" = Some (report_email report)
    /\ field (store w1) lf "message" = Some (report_comments report)
    /\ field (store w1) lf "associated_event_id"
       = (if truthy (store w1) (default VNone (report_event_id report))
          then report_event_id report else None)
    /\ (forall x, is_Some (store w !! x) -> store w1 !! x = store w !! x).
Proof.
  set (h0 := store w).
  set (df := {["name" := default (VStr "") (report_name report);
               "contact_email" := report_email report;
               "message" := report_comments report]} : dict).
  set (l1 := fresh (dom h0)). set (h1 := halloc h0 (ODict df)).
  set (l2 := fresh (dom h1)). set (h2 := halloc h1 (ODict {["feedback" := VRef l1]})).
  set (l3 := fresh (dom h2)). set (h3 := halloc h2 (ODict {["contexts" := VRef l2]})).
  set (h4 := hset h3 l3 "timestamp" (timestamp env (datetime_utcnow env))).
  set (h5 := hset h4 l3 "platform" (VStr "other")).
  set (h6 := hset h5 l3 "level" (default (VStr "info") (report_level report))).
  set (rid := default VNone (report_event_id report)).
  set (h7 := if truthy h6 rid then hset h6 l1 "associated_event_id" rid else h6).
  exists l3, l2, l1, (mkWorld h7 (entropy w)).
  assert (D1 : is_dict h1 l1 = true) by apply is_dict_halloc.
  assert (D2 : is_dict h2 l2 = true) by apply is_dict_halloc.
  assert (D3 : is_dict h3 l3 = true) by apply is_dict_halloc.
  assert (D3' : is_dict h6 l3 = true) by (unfold h6, h5, h4; by rewrite !is_dict_hset).
  assert (D1' : is_dict h6 l1 = true).
  { unfold h6, h5, h4. rewrite !is_dict_hset. by do 2 apply is_dict_halloc_old. }
  assert (N12 : l1 <> l2) by (apply fresh_not_allocated; by apply is_dict_allocated).
  assert (N23 : l2 <> l3) by (apply fresh_not_allocated; by apply is_dict_allocated).
  assert (N13 : l1 <> l3).
  { apply fresh_not_allocated, is_dict_allocated. by apply is_dict_halloc_old. }
  assert (F6 : forall l k, k <> "timestamp" -> k <> "platform" -> k <> "level" ->
                 field h6 l k = field h3 l k).
  { intros l k ? ? ?. unfold h6, h5, h4. by rewrite !field_hset_ne. }
  assert (F32 : field h6 l3 "contexts" = Some (VRef l2)).
  { rewrite F6 by done. unfold h3, l3. by rewrite field_halloc. }
  assert (F21 : field h6 l2 "feedback" = Some (VRef l1)).
  { rewrite F6 by done. apply field_halloc_keep. unfold h2, l2.
    by rewrite field_halloc. }
  assert (F1 : forall k, k <> "timestamp" -> k <> "platform" -> k <> "level" ->
                 field h6 l1 k = df !! k).
  { intros k ? ? ?. rewrite F6 by done. unfold h3, h2.
    rewrite !field_halloc_ne; [apply field_halloc| |].
    - by apply is_dict_allocated.
    - by apply is_dict_allocated, is_dict_halloc_old. }
  split.
  { unfold shim_to_feedback, try_except, try_except_on.
    quiet (new_obj_run (ODict df) w).
    quiet (new_obj_run (ODict {["feedback" := VRef l1]}) (mkWorld h1 (entropy w))).
    quiet (new_obj_run (ODict {["contexts" := VRef l2]}) (mkWorld h2 (entropy w))).
    cbn [store entropy]. fold h0 l1 h1 l2 h2 l3 h3.
    norm. unfold metrics_incr. rewrite bind_emit. fold missing_event_metric.
    assert (D4 : is_dict h4 l3 = true) by (unfold h4; by rewrite is_dict_hset).
    assert (D5 : is_dict h5 l3 = true) by (unfold h5; by rewrite is_dict_hset).
    quiet (py_setitem_run l3 "timestamp" (timestamp env (datetime_utcnow env))
             (mkWorld h3 (entropy w)) D3).
    quiet (py_setitem_run l3 "platform" (VStr "other") (mkWorld h4 (entropy w)) D4).
    quiet (py_setitem_run l3 "level" (default (VStr "info") (report_level report))
             (mkWorld h5 (entropy w)) D5).
    cbn [store entropy]. fold h4 h5 h6.
    step (py_truthy_run (default VNone (report_event_id report))
            (mkWorld h6 (entropy w))).
    cbn [store]. fold rid. subst h7.
    destruct (truthy h6 rid); unfold when.
    - step (py_getitem_field l3 "contexts" (VRef l2) (mkWorld h6 (entropy w)) F32).
      step (py_getitem_field l2 "feedback" (VRef l1) (mkWorld h6 (entropy w)) F21).
      quiet (py_setitem_run l1 "associated_event_id" rid (mkWorld h6 (entropy w)) D1').
      cbn [store entropy].
      destruct (create_feedback_issue _ _ _ _ _) as [[t w'] [[]|e]];
        cbn; by rewrite ?app_nil_r.
    - norm. destruct (create_feedback_issue _ _ _ _ _) as [[t w'] [[]|e]];
        cbn; by rewrite ?app_nil_r. }
  assert (U3 : h2 !! l3 = None) by apply fresh_unallocated.
  assert (U2 : h1 !! l2 = None) by apply fresh_unallocated.
  assert (U1 : h0 !! l1 = None) by apply fresh_unallocated.
  assert (C1 : changed (fun _ _ => False) h0 h1) by apply changed_halloc.
  assert (C2 : changed (fun _ _ => False) h0 h2).
  { eapply changed_trans; [exact C1|apply changed_halloc]. }
  assert (C3 : changed (fun _ _ => False) h0 h3).
  { eapply changed_trans; [exact C2|apply changed_halloc]. }
  assert (V2 := unallocated_before h0 h1 l2 C1 U2).
  assert (V3 := unallocated_before h0 h2 l3 C2 U3).
  cbn [store entropy]. fold h0.
  split; [done|]. split; [done|]. split; [done|]. split; [done|].
  assert (C6 : changed (fun _ _ => False) h0 h6).
  { unfold h6, h5, h4. do 3 (apply changed_hset_fresh; [exact V3|]). exact C3. }
  split. { unfold h7. destruct (truthy h6 rid); [by apply changed_hset_fresh|done]. }
  assert (K : forall k, k <> "associated_event_id" ->
                forall l, field h7 l k = field h6 l k).
  { intros k Hk l. unfold h7. destruct (truthy h6 rid); [|done].
    by apply field_hset_ne. }
  rewrite !K by done.
  split. { unfold h6, h5. rewrite !field_hset_ne by done. by apply field_hset. }
  split. { unfold h6. rewrite !field_hset_ne by done. apply field_hset.
           unfold h4. by rewrite is_dict_hset. }
  split. { apply field_hset. unfold h5, h4. by rewrite !is_dict_hset. }
  split; [done|]. split; [done|].
  rewrite !F1 by done. split; [done|]. split; [done|]. split; [done|].
  split.
  { unfold h7. destruct (truthy h6 rid) eqn:Hrid.
    - rewrite (truthy_hset _ _ _ _ _ Hrid), field_hset by done.
      unfold rid in *. by destruct (report_event_id report).
    - by rewrite Hrid, F1. }
  intros x Hx.
  assert (X1 : l1 <> x) by (intros <-; rewrite U1 in Hx; by destruct Hx).
  assert (X2 : l2 <> x) by (intros <-; rewrite V2 in Hx; by destruct Hx).
  assert (X3 : l3 <> x) by (intros <-; rewrite V3 in Hx; by destruct Hx).
  assert (E6 : h6 !! x = h0 !! x).
  { unfold h6, h5, h4. rewrite !lookup_hset_other by done.
    unfold h3, h2, h1, halloc. by rewrite !lookup_insert_ne. }
  unfold h7. destruct (truthy h6 rid); [by rewrite lookup_hset_other|done].
Qed.
Lemma shim_synthesis env report project source w :
  exists l lc lf w1,
    (let run := create_feedback_issue env (VRef l) (project_id project) source w1 in
     shim_to_feedback env report None project source w
     = (missing_event_metric :: calls run ++ shim_handled run.2, run.1.2, Ok tt))
    /\ store w !! l = None /\ store w !! lc = None /\ store w !! lf = None
    /\ entropy w1 = entropy w
    /\ changed (fun _ _ => False) (store w) (store w1)
    /\ field (store w1) l "timestamp" = Some (timestamp env (datetime_utcnow env))
    /\ field (store w1) l "platform" = Some (VStr "other")
    /\ field (store w1) l "level" = Some (default (VStr "info") (report_level report))
    /\ field (store w1) l "contexts" = Some (VRef lc)
    /\ field (store w1) lc "feedback" = Some (VRef lf)
    /\ field (store w1) lf "name" = Some (default (VStr "") (report_name report))
    /\ field (store w1) lf "contact_email" = Some (report_email report)
    /\ field (store w1) lf "message" = Some (report_comments report)
    /\ field (store w1) lf "associated_event_id"
       = (if truthy (store w1) (default VNone (report_event_id report))
          then report_event_id report else None).
Proof.
  destruct (shim_synthesis_kept env report project source w)
    as (l & lc & lf & w1 & H1 & H2 & H3 & H4 & H5 & H6 & H7 & H8 & H9 & H10
        & H11 & H12 & H13 & H14 & H15 & _).
  exists l, lc, lf, w1. repeat (split; [assumption|]). assumption.
Qed.

(** C9. A legacy report passed to [shim_to_feedback] with no event: the call
    returns and does not raise, whatever the pipeline does; the event it
    hands to the pipeline is a new dictionary with [timestamp] the current
    time, [platform] "other" and [level] the report's level, or "info" when
    the report has none; the missing-event counter is incremented first, and
    once in the whole run; a failure of the pipeline is logged. *)
Theorem C9_shim_without_event env report project source w :
  exists l w1,
    let run := create_feedback_issue env (VRef l) (project_id project) source w1 in
    let out := shim_to_feedback env report None project source w in
    out.2 = Ok tt
    /\ calls out = missing_event_metric :: calls run ++ shim_handled run.2
    /\ out.1.2 = run.1.2
    /\ count (is_metric "feedback.user_report.missing_event") (calls out) = 1
    /\ store w !! l = None
    /\ entropy w1 = entropy w
    /\ changed (fun _ _ => False) (store w) (store w1)
    /\ field (store w1) l "timestamp" = Some (timestamp env (datetime_utcnow env))
    /\ field (store w1) l "platform" = Some (VStr "other")
    /\ field (store w1) l "level" = Some (default (VStr "info") (report_level report)).
Proof.
  destruct (shim_synthesis env report project source w)
    as (l & lc & lf & w1 & Hrun & Hl & _ & _ & He & Hc & Hts & Hp & Hlv & _).
  exists l, w1. cbv zeta in *. rewrite Hrun. cbn [calls fst snd].
  split; [done|]. split; [done|]. split; [done|].
  split; [|done].
  rewrite count_cons, count_app.
  rewrite (issue_run_no_missing_event env (project_id project) source _ _
             (issue_runs _ _ _ _ _ _ _ _
                (run_of (create_feedback_issue env (VRef l) (project_id project)
                           source w1)))).
  by destruct (create_feedback_issue _ _ _ _ _).2.
Qed.
(** ** The changes [fix_for_issue_platform] makes in its argument *)

Lemma changed_step {A} P (m : M A) h0 w t w' r :
  modifies P m -> changed P h0 (store w) -> m w = (t, w', r) ->
  changed P h0 (store w').
Proof.
  intros Hm H0 H. eapply changed_trans; [exact H0|]. by apply (Hm _ _ _ _ H).
Qed.

(** One step of a run that returns, with the fields left alone so far. *)
Ltac track H :=
  match type of H with
  | bind ?m _ ?wc = _ =>
      match goal with
      | Hinv : changed ?P ?h0 (store wc) |- _ =>
          let Hmod := fresh "Hmod" in
          assert (Hmod : modifies P m) by solve_modifies;
          let Hm := fresh "Hm" in
          apply bind_ok in H as (?a & ?t & ?w & ?t & Hm & H & ->);
          let Hn := fresh "Hnew" in
          assert (Hn := changed_step _ _ _ _ _ _ _ Hmod Hinv Hm);
          clear Hinv Hmod; rename Hn into Hinv;
          first
            [ apply new_obj_ok in Hm as (-> & ?Hv & ?Hw)
            | apply py_getitem_ok in Hm as (-> & -> & ?l & ?Hx & ?Hf)
            | apply py_get_ok in Hm as (-> & -> & ?l & ?Hx & ?Hd & ?Hv)
            | apply py_get_new_ok in Hm as (-> & ?l & ?Hx & ?Hd & ?Hw & ?Hv)
            | apply py_setitem_ok in Hm as (-> & ?l & ?Hx & ?Hd & ?Hw)
            | apply py_delitem_ok in Hm as (-> & ?l & ?Hx & ?Hd & ?Hw)
            | apply py_truthy_ok in Hm as (-> & -> & ?Hv)
            | apply lift_ok in Hm as (-> & -> & ?Hv)
            | apply ret_ok in Hm as (-> & -> & ?Hv)
            | idtac ];
          same_refs
      end
  end.

Lemma in_keys_elem ks k : in_keys ks k = true <-> k ∈ ks.
Proof.
  unfold in_keys. induction ks as [|x ks IH]; simpl.
  - split; [done|inversion 1].
  - rewrite orb_true_iff, elem_of_cons, IH, String.eqb_eq. done.
Qed.

Lemma written_more lr ks ks' l k :
  ks ⊆ ks' -> written lr ks l k -> written lr ks' l k.
Proof.
  intros Hs [?|Hk]; [by left|right]. apply in_keys_elem, Hs. by apply in_keys_elem.
Qed.

Lemma kept P (h0 h : heap) l k :
  changed P h0 h -> is_Some (h0 !! l) -> ~ P l k -> field h l k = field h0 l k.
Proof. intros Hc Hl HP. by apply (Hc l Hl). Qed.

Lemma kept_key (h0 h : heap) l k :
  changed (fun (_ : loc) k' => k' <> k) h0 h -> is_dict h0 l = true ->
  field h l k = field h0 l k.
Proof.
  intros Hc Hd. apply (kept _ _ _ _ _ Hc); [by apply is_dict_allocated|]. by intros ?.
Qed.

Lemma not_written lr ks l k :
  l <> lr -> in_keys ks k = false -> ~ written lr ks l k.
Proof. intros Hl Hk [?|?]; congruence. Qed.

(** [if x.get(k) is not None: del x[k]] *)
Lemma clear_ok l k b w t w' u :
  when b (py_delitem (VRef l) k) w = (t, w', Ok u) ->
  field (store w') l k = (if b then None else field (store w) l k)
  /\ is_dict (store w') l = is_dict (store w) l.
Proof.
  destruct b; unfold when; [|by inversion 1].
  intros H. apply py_delitem_ok in H as (_ & l' & Hx & Hd & ->).
  injection Hx as <-. simpl. split; [apply field_hdel|].
  destruct (changed_hdel (store w) l k l (is_dict_allocated _ _ Hd)) as (_ & ? & _).
  done.
Qed.

(** [if b: del x[k0][k]] *)
Lemma clear_in_ok l0 k0 lu k b w t w' u :
  field (store w) l0 k0 = Some (VRef lu) ->
  when b (bind (py_getitem (VRef l0) k0) (fun x => py_delitem x k)) w
  = (t, w', Ok u) ->
  field (store w') lu k = (if b then None else field (store w) lu k)
  /\ (is_dict (store w) lu = true -> is_dict (store w') lu = true).
Proof.
  intros Hu. destruct b; unfold when; [|by inversion 1].
  intros H. ok_bind H. rewrite Hu in Hf. injection Hf as <-.
  apply (clear_ok lu k true) in H. simpl in H. destruct H as [-> ->]. done.
Qed.

(** [if b: x["user"]["id"] = str(x["user"]["id"])] *)
Lemma str_id_ok env l0 lu b w t w' u :
  field (store w) l0 "user" = Some (VRef lu) ->
  when b (bind (py_getitem (VRef l0) "user") (fun x =>
          bind (py_getitem x "id") (fun i =>
          bind (py_str env i) (fun s =>
          bind (py_getitem (VRef l0) "user") (fun x =>
          py_setitem x "id" (VStr s)))))) w
  = (t, w', Ok u) ->
  (if b
   then exists i s, field (store w) lu "id" = Some i
                    /\ (forall s0, text_of i = Some s0 -> s = s0)
                    /\ field (store w') lu "id" = Some (VStr s)
   else field (store w') lu "id" = field (store w) lu "id")
  /\ (is_dict (store w) lu = true -> is_dict (store w') lu = true).
Proof.
  intros Hu. destruct b; unfold when; [|by inversion 1].
  intros H. ok_bind H. rewrite Hu in Hf. injection Hf as <-.
  apply bind_ok in H as (i & ? & ? & ? & Hi & H & ->).
  apply py_getitem_ok in Hi as (-> & -> & ? & Hx & Hi). injection Hx as <-.
  apply bind_ok in H as (s & ? & ? & ? & Hs & H & ->).
  inversion Hs; subst; clear Hs.
  apply bind_ok in H as (x & ? & ? & ? & Hx & H & ->).
  apply py_getitem_ok in Hx as (-> & -> & ? & Hy & Hx). injection Hy as <-.
  rewrite Hu in Hx. injection Hx as <-.
  apply py_setitem_ok in H as (_ & l2 & Hx & Hd & ->). injection Hx as <-.
  cbn [store]. split.
  - eexists _, _. split; [exact Hi|]. split; [|by apply field_hset].
    intros s0 Hs0. destruct i as [|[]| | | |]; simpl in *; congruence.
  - intros _. by rewrite is_dict_hset.
Qed.

(** [if b: r["user"]["email"] = v] *)
Lemma backfill_ok lr lu v b w t w' u :
  field (store w) lr "user" = Some (VRef lu) ->
  when b (bind (py_getitem (VRef lr) "user") (fun x => py_setitem x "email" v)) w
  = (t, w', Ok u) ->
  field (store w') lu "email" = (if b then Some v else field (store w) lu "email").
Proof.
  intros Hu. destruct b; unfold when; [|by inversion 1].
  intros H. ok_bind H. rewrite Hu in Hf. injection Hf as <-.
  apply py_setitem_ok in H as (_ & l2 & Hx & Hd & ->). injection Hx as <-.
  by apply field_hset.
Qed.

Ltac more_written Hinv ks :=
  match type of Hinv with
  | changed (written ?lr _) _ _ =>
      apply (changed_weaken _ (written lr ks)) in Hinv;
      [|intros ? ?; apply written_more; set_solver]
  end.

(** The field [k] of the old object [l] has not changed yet. *)
Ltac unchanged Hinv l k Hl Hne F :=
  match type of Hinv with
  | changed (written ?lr ?ks) _ _ =>
      assert (F := kept _ _ _ l k Hinv Hl (not_written lr ks l k Hne eq_refl))
  end.

Lemma fix_in_place env l w t w' rv :
  fix_for_issue_platform env (VRef l) w = (t, w', Ok rv) ->
  sound_event (store w) l ->
  field (store w') l "dist" = cleared (field (store w) l "dist")
  /\ forall lu, field (store w) l "user" = Some (VRef lu) ->
       field (store w') lu "name" = cleared (field (store w) lu "name")
       /\ field (store w') lu "isStaff" = cleared (field (store w) lu "isStaff")
       /\ (if is_none (default VNone (field (store w) lu "id"))
           then field (store w') lu "id" = field (store w) lu "id"
           else exists i s, field (store w) lu "id" = Some i
                  /\ (forall s0, text_of i = Some s0 -> s = s0)
                  /\ field (store w') lu "id" = Some (VStr s))
       /\ ((forall h, truthy h (default (VStr "") (field (store w) lu "email")) = false) ->
           field (store w') lu "email" = Some (feedback_contact_email (store w) l)).
Proof.
  intros H [Suser Sctx]. assert (H' := H).
  unfold fix_for_issue_platform in H.
  apply bind_ok in H as (a & t1 & w0 & t2 & Hm & H & ->).
  apply new_obj_ok in Hm as (-> & -> & Hw0).
  assert (Hrv : rv = VRef (fresh (dom (store w)))).
  { revert H. match goal with |- ?m _ = _ -> _ =>
      assert (Hr : returns (VRef (fresh (dom (store w)))) m);
      [|intros H; apply (Hr _ _ _ _ H)] end.
    repeat (apply returns_bind; intros ?). apply returns_ret. }
  destruct (fix_returns _ _ _ _ _ _ H')
    as (l0 & lr & Hl0 & Hrv' & Hl & Hlr & _ & Hdr & Hall & Hrc & Hc & _ & _ & _ & Hru).
  injection Hl0 as <-. rewrite Hrv in Hrv'. injection Hrv' as Hlr'.
  rewrite Hlr' in *. clear Hlr' Hrv H'.
  assert (Hinv : changed (written lr ["replay"]) (store w) (store w0))
    by (subst w0; apply changed_halloc).
  assert (Hold : forall l, is_Some (store w !! l) -> l <> lr).
  { intros l1 Hl1 ->. rewrite Hlr in Hl1. by destruct Hl1. }
  clear Hw0.
  do 31 track H.
  clear - H Hinv Hold Suser Sctx Hl Hlr Hc Hru.
  (* dist *)
  track H.
  unchanged Hinv l "dist" Hl (Hold l Hl) Fpre.
  more_written Hinv ["replay"; "dist"].
  track H. apply clear_ok in Hm as [Hdist Hdd]. rewrite Hd in Hdd.
  rest_modifies H (fun (_ : loc) k => k <> "dist") Hk Hke.
  assert (Fdist : field (store w') l "dist" = cleared (field (store w) l "dist")).
  { rewrite (kept _ _ _ l "dist" Hk) by (by apply is_dict_allocated || naive_solver).
    rewrite Hdist, Hv, Fpre. unfold cleared.
    destruct (is_none (default VNone (field (store w) l "dist"))); reflexivity. }
  split; [exact Fdist|]. intros lu Hu.
  assert (Hlu := Suser lu Hu). assert (Hnu := Hold lu Hlu).
  clear Fdist Hdist Fpre Hk Hke Hv Hd Hdd.
  (* name *)
  unchanged Hinv l "user" Hl (Hold l Hl) Fu.
  track H. rewrite Fu, Hu in Hv. simpl in Hv.
  match type of Hv with ?x = _ => subst x end. clear Fu.
  unchanged Hinv l "user" Hl (Hold l Hl) Fu.
  unchanged Hinv lu "name" Hlu Hnu Fpre.
  track H. more_written Hinv ["replay"; "dist"; "name"].
  track H. apply (clear_in_ok l "user" lu "name") in Hm as [Hn Hdn];
    [|by rewrite Fu, Hu].
  rest_modifies H (fun (_ : loc) k => k <> "name") Hk Hke.
  assert (Fname : field (store w') lu "name" = cleared (field (store w) lu "name")).
  { rewrite (kept_key _ _ lu "name" Hk (Hdn Hd0)), Hn, Hv, Fpre. unfold cleared.
    destruct (is_none (default VNone (field (store w) lu "name"))); reflexivity. }
  clear - H Hinv Hold Suser Sctx Hl Hlr Hc Hru Hu Hlu Hnu Fname.
  split; [exact Fname|]. clear Fname.
  (* isStaff *)
  unchanged Hinv l "user" Hl (Hold l Hl) Fu.
  track H. rewrite Fu, Hu in Hv. simpl in Hv.
  match type of Hv with ?x = _ => subst x end. clear Fu.
  unchanged Hinv l "user" Hl (Hold l Hl) Fu.
  unchanged Hinv lu "isStaff" Hlu Hnu Fpre.
  track H. more_written Hinv ["replay"; "dist"; "name"; "isStaff"].
  track H. apply (clear_in_ok l "user" lu "isStaff") in Hm as [Hn Hdn];
    [|by rewrite Fu, Hu].
  rest_modifies H (fun (_ : loc) k => k <> "isStaff") Hk Hke.
  assert (Fstaff : field (store w') lu "isStaff"
                   = cleared (field (store w) lu "isStaff")).
  { rewrite (kept_key _ _ lu "isStaff" Hk (Hdn Hd0)), Hn, Hv, Fpre. unfold cleared.
    destruct (is_none (default VNone (field (store w) lu "isStaff"))); reflexivity. }
  clear - H Hinv Hold Suser Sctx Hl Hlr Hc Hru Hu Hlu Hnu Fstaff.
  split; [exact Fstaff|]. clear Fstaff.
  (* id *)
  unchanged Hinv l "user" Hl (Hold l Hl) Fu.
  track H. rewrite Fu, Hu in Hv. simpl in Hv.
  match type of Hv with ?x = _ => subst x end. clear Fu.
  unchanged Hinv l "user" Hl (Hold l Hl) Fu.
  unchanged Hinv lu "id" Hlu Hnu Fpre.
  track H. more_written Hinv ["replay"; "dist"; "name"; "isStaff"; "id"].
  track H. apply (str_id_ok env l lu) in Hm as [Hn Hdn]; [|by rewrite Fu, Hu].
  rest_modifies H (fun (_ : loc) k => k <> "id") Hk Hke.
  assert (Fid : if is_none (default VNone (field (store w) lu "id"))
                then field (store w') lu "id" = field (store w) lu "id"
                else exists i s, field (store w) lu "id" = Some i
                       /\ (forall s0, text_of i = Some s0 -> s = s0)
                       /\ field (store w') lu "id" = Some (VStr s)).
  { rewrite (kept_key _ _ lu "id" Hk (Hdn Hd0)). rewrite Hv, Fpre in Hn.
    destruct (is_none (default VNone (field (store w) lu "id"))); simpl in Hn.
    - congruence.
    - destruct Hn as (i & s & Hi & Hs & Hn). exists i, s.
      split; [exact Hi|]. split; [exact Hs|exact Hn]. }
  clear - H Hinv Hold Suser Sctx Hl Hlr Hc Hru Hu Hlu Hnu Fid.
  split; [exact Fid|]. clear Fid.
  (* email *)
  intros Hfalse. destruct Hc as [cv Hcv].
  unchanged Hinv l "contexts" Hl (Hold l Hl) Fc.
  track H. rewrite Fc, Hcv in Hv. simpl in Hv.
  match type of Hv with ?x = _ => subst x end. clear Fc.
  destruct cv as [| | | | |lc];
    try (exfalso; apply bind_ok in H as (? & ? & ? & ? & Hm & _); by inversion Hm).
  destruct (Sctx lc Hcv) as [Hlc Sf].
  unchanged Hinv lc "feedback" Hlc (Hold lc Hlc) Ff.
  track H. rewrite Ff in Hv. clear Ff.
  track H.
  assert (Hce : a0 = feedback_contact_email (store w) l).
  { unfold feedback_contact_email. rewrite Hcv.
    destruct (field (store w) lc "feedback") as [fv|] eqn:Hfv; simpl in Hx.
    - subst fv. assert (Hlf := Sf _ eq_refl).
      unchanged Hinv l0 "contact_email" Hlf (Hold _ Hlf) Fce. by rewrite <- Fce.
    - injection Hx as <-. subst w1. cbn [store] in Hv0.
      by rewrite field_halloc, lookup_empty in Hv0. }
  clear - H Hinv Hold Hl Hlr Hru Hu Hlu Hnu Hfalse Hce.
  assert (Hfu : field (store w') lr "user" = Some (VRef lu)) by (by apply Hru).
  rest_modifies H (fun (_ : loc) k => k <> "user") Hk Hke.
  track H. assert (Hfr := Hf).
  rewrite <- (kept_key _ _ lr "user" Hk (field_is_dict _ _ _ _ Hf)), Hfu in Hf.
  injection Hf as <-. clear Hk Hke.
  unchanged Hinv lu "email" Hlu Hnu Fpre.
  track H. rewrite Fpre in Hv.
  track H. rewrite Hv, Hfalse in Hv0. subst.
  apply bind_ok in H as (? & ? & w2 & ? & Hm & H & _).
  apply (backfill_ok lr lu) in Hm; [|exact Hfr]. simpl in Hm.
  rest_modifies H (fun (_ : loc) k => k <> "email") Hk Hke.
  by rewrite (kept_key _ _ lu "email" Hk (field_is_dict _ _ _ _ Hm)), Hm.
Qed.

(** C10. [fix_for_issue_platform] changes its argument.  When it returns, on
    an event whose references point to objects of the store: the result is a
    new dictionary; the event's [dist] is deleted when it was there and not
    [None]; the [contexts], [user] and [tags] of the result are the very
    values the event holds, and still holds, under these keys; in the user
    mapping, reached from both, [name] and [isStaff] are deleted when they
    were there and not [None], [id] is replaced by its text when it was there
    and not [None], and [email], when it was missing, [None] or empty, is set
    to the contact email of the feedback context, which is [None] when there
    is none. *)
Theorem C10_fix_changes_its_argument env l w t w' rv :
  fix_for_issue_platform env (VRef l) w = (t, w', Ok rv) ->
  sound_event (store w) l ->
  exists lr,
    rv = VRef lr /\ store w !! lr = None /\ is_Some (store w !! l)
    /\ field (store w') l "dist" = cleared (field (store w) l "dist")
    /\ (forall k v, k ∈ ["contexts"; "user"; "tags"] ->
          field (store w) l k = Some v ->
          field (store w') l k = Some v /\ field (store w') lr k = Some v)
    /\ forall lu, field (store w) l "user" = Some (VRef lu) ->
         field (store w') lu "name" = cleared (field (store w) lu "name")
         /\ field (store w') lu "isStaff" = cleared (field (store w) lu "isStaff")
         /\ (if is_none (default VNone (field (store w) lu "id"))
             then field (store w') lu "id" = field (store w) lu "id"
             else exists i s, field (store w) lu "id" = Some i
                    /\ (forall s0, text_of i = Some s0 -> s = s0)
                    /\ field (store w') lu "id" = Some (VStr s))
         /\ ((forall h, truthy h (default (VStr "") (field (store w) lu "email"))
                        = false) ->
             field (store w') lu "email" = Some (feedback_contact_email (store w) l)).
Proof.
  intros H Hs. destruct (fix_in_place _ _ _ _ _ _ H Hs) as [Hdist Huser].
  destruct (fix_returns _ _ _ _ _ _ H)
    as (l0 & lr & Hl0 & -> & Hl & Hlr & _ & _ & Hall & Hrc & _ & _ & _ & Hrt & Hru).
  injection Hl0 as <-. exists lr.
  split; [done|]. split; [done|]. split; [done|]. split; [done|].
  split; [|done].
  intros k v Hk Hv. destruct (Hall l Hl) as (_ & _ & Hf). split.
  - rewrite Hf; [done|].
    rewrite !elem_of_cons in Hk. destruct Hk as [->|[->|[->|Hk]]]; [done..|].
    by inversion Hk.
  - rewrite !elem_of_cons in Hk. destruct Hk as [->|[->|[->|Hk]]].
    + by rewrite Hrc.
    + by apply Hru.
    + by apply Hrt.
    + by inversion Hk.
Qed.

Lemma C10_witness :
  let env := sample_env (Ok false) in
  let w := mkWorld sample_user_store 0 in
  let run := fix_for_issue_platform env (VRef 1%positive) w in
  exists lr,
    run.2 = Ok (VRef lr)
    /\ field (store w) 1%positive "dist" = Some (VStr "1.0")
    /\ field (store run.1.2) 1%positive "dist" = None
    /\ field (store run.1.2) 1%positive "user" = Some (VRef 4%positive)
    /\ field (store run.1.2) lr "user" = Some (VRef 4%positive)
    /\ field (store run.1.2) 4%positive "name" = None
    /\ field (store run.1.2) 4%positive "isStaff" = None
    /\ field (store run.1.2) 4%positive "id" = Some (VStr "42")
    /\ field (store run.1.2) 4%positive "email" = Some VNone.
Proof.
  intros env w run.
  assert (Hrun : fix_for_issue_platform env (VRef 1%positive) w
                 = (calls run, run.1.2, Ok (VRef 6%positive))).
  { vm_compute. reflexivity. }
  assert (Hs : sound_event (store w) 1%positive).
  { split.
    - intros lu Hu. vm_compute in Hu. injection Hu as <-. vm_compute. eauto.
    - intros lc Hc. vm_compute in Hc. injection Hc as <-. split.
      + vm_compute. eauto.
      + intros lf Hf. vm_compute in Hf. injection Hf as <-. vm_compute. eauto. }
  assert (H := C10_fix_changes_its_argument env 1%positive w (calls run) run.1.2
                 (VRef 6%positive) Hrun Hs).
  assert (Hr : run.2 = Ok (VRef 6%positive)) by (vm_compute; reflexivity).
  assert (Edist : field (store w) 1%positive "dist" = Some (VStr "1.0"))
    by (vm_compute; reflexivity).
  assert (Euser : field (store w) 1%positive "user" = Some (VRef 4%positive))
    by (vm_compute; reflexivity).
  assert (Ename : cleared (field (store w) 4%positive "name") = None)
    by (vm_compute; reflexivity).
  assert (Estaff : cleared (field (store w) 4%positive "isStaff") = None)
    by (vm_compute; reflexivity).
  assert (Eid : field (store w) 4%positive "id" = Some (VInt 42))
    by (vm_compute; reflexivity).
  assert (Eemail : field (store w) 4%positive "email" = None)
    by (vm_compute; reflexivity).
  assert (Ece : feedback_contact_email (store w) 1%positive = VNone)
    by (vm_compute; reflexivity).
  clear Hrun Hs. clearbody run w.
  destruct H as (lr & Hrv & _ & _ & Hdist & Hsame & Huser).
  injection Hrv as <-.
  destruct (Hsame "user" (VRef 4%positive)) as [Hu1 Hu2];
    [set_solver | exact Euser |].
  destruct (Huser 4%positive Euser) as (Hname & Hstaff & Hid & Hemail).
  rewrite Edist in Hdist. rewrite Ename in Hname. rewrite Estaff in Hstaff.
  rewrite Eid in Hid. rewrite Eemail, Ece in Hemail. simpl in Hid.
  exists 6%positive. split; [exact Hr|].
  split; [exact Edist|]. split; [exact Hdist|].
  split; [exact Hu1|]. split; [exact Hu2|].
  split; [exact Hname|]. split; [exact Hstaff|].
  split.
  - destruct Hid as (i & s & Hi & Hs' & Hid). rewrite Hid.
    injection Hi as <-. by rewrite (Hs' "42" eq_refl).
  - apply Hemail. intros h. reflexivity.
Defined.

(** * Further properties *)

(** ** The sources *)

(** The values of the sources are distinct, and each is in exactly one of the
    two categories; the new-feedback category is the one the first-seen signal
    of [create_feedback_issue] tests for. *)
Theorem source_categories_partition (c : FeedbackCreationSource) :
  bool_decide (value c ∈ new_feedback_category_values) = is_new_feedback c
  /\ bool_decide (value c ∈ old_feedback_category_values) = negb (is_new_feedback c)
  /\ forall c', value c = value c' -> c = c'.
Proof.
  split; [by destruct c|]. split; [by destruct c|].
  intros c'. destruct c, c'; simpl; congruence.
Qed.

(** ** The filter *)

(** [should_filter_feedback] only reads: whatever it answers, the world is
    as it was; it makes one call, the rejection counter with one of its three
    reasons, exactly when it answers [True], and none otherwise, also when it
    raises. *)
Theorem filter_only_reads event pid source w t w' r :
  should_filter_feedback event pid source w = (t, w', r) ->
  w' = w
  /\ ((r = Ok true
       /\ exists reason, reason ∈ ["missing_context"; "unreal.unattended"; "empty"]
                         /\ t = [filtered_metric reason])
      \/ (r <> Ok true /\ t = [])).
Proof.
  unfold should_filter_feedback. intros H.
  read_step H. destruct r0 as [[|]|e]; [| |inversion H; subst; eauto].
  { inversion H. split; [done|]. left. split; [done|].
    exists "missing_context". split; [set_solver|done]. }
  read_step H. destruct r0 as [m|e]; [|inversion H; subst; eauto].
  destruct (py_eq_str m _).
  { inversion H. split; [done|]. left. split; [done|].
    exists "unreal.unattended". split; [set_solver|done]. }
  read_step H. destruct r0 as [m'|e]; [|inversion H; subst; eauto].
  read_step H. destruct r0 as [s|e]; [|inversion H; subst; eauto].
  destruct (String.eqb s ""); inversion H; [|eauto].
  split; [done|]. left. split; [done|].
  exists "empty". split; [set_solver|done].
Qed.

Lemma filter_only_reads_witness :
  let w := sample_world (VStr "   ") in
  let run := should_filter_feedback sample_event 7 NEW_FEEDBACK_ENVELOPE w in
  run.1.2 = w
  /\ ((run.2 = Ok true
       /\ exists reason, reason ∈ ["missing_context"; "unreal.unattended"; "empty"]
                         /\ calls run = [filtered_metric reason])
      \/ (run.2 <> Ok true /\ calls run = [])).
Proof.
  intros w run.
  apply (filter_only_reads sample_event 7%Z NEW_FEEDBACK_ENVELOPE w).
  apply run_of.
Defined.

(** A message that is neither [None] nor a string: the filter raises
    [AttributeError] where it strips the message, and counts nothing;
    [create_feedback_issue] raises it after the entry counter, with nothing
    classified, built or published. *)
Theorem filter_raises_on_non_string env event pid source w m :
  has_message (store w) event m -> (forall s, m <> VStr s) ->
  should_filter_feedback event pid source w = ([], w, Raise AttributeError)
  /\ create_feedback_issue env event pid source w
     = ([entered_metric], w, Raise AttributeError).
Proof.
  intros Hm Hs.
  assert (Hf : should_filter_feedback event pid source w
               = ([], w, Raise AttributeError)).
  { unfold should_filter_feedback.
    step (missing_check_false _ _ _ Hm).
    step (feedback_message_has _ _ _ Hm).
    assert (Hne : py_eq_str m UNREAL_FEEDBACK_UNATTENDED_MESSAGE = false).
    { destruct m; try done. by destruct (Hs s). }
    rewrite Hne. step (feedback_message_has _ _ _ Hm).
    destruct m; try done. by destruct (Hs s). }
  split; [done|].
  unfold create_feedback_issue, metrics_incr. fold entered_metric.
  rewrite bind_emit. unfold bind. by rewrite Hf.
Qed.

Lemma filter_raises_on_non_string_witness :
  should_filter_feedback sample_event 7 NEW_FEEDBACK_ENVELOPE (sample_world (VInt 5))
  = ([], sample_world (VInt 5), Raise AttributeError)
  /\ create_feedback_issue (sample_env (Ok false)) sample_event 7
       NEW_FEEDBACK_ENVELOPE (sample_world (VInt 5))
     = ([entered_metric], sample_world (VInt 5), Raise AttributeError).
Proof.
  apply (filter_raises_on_non_string (sample_env (Ok false)) sample_event 7%Z
           NEW_FEEDBACK_ENVELOPE (sample_world (VInt 5)) (VInt 5)).
  - apply sample_has_message. done.
  - intros s. discriminate.
Defined.

(** ** The project *)

(** When the filter accepts and the project cannot be loaded, the failure is
    raised as it is after the entry counter alone: the classifier is not
    called, no identifier is drawn, the event is not touched. *)
Theorem project_lookup_failure env event pid source w e :
  should_filter_feedback event pid source w = ([], w, Ok false) ->
  get_from_cache env pid = Raise e ->
  create_feedback_issue env event pid source w = ([entered_metric], w, Raise e).
Proof.
  intros Hf He. unfold create_feedback_issue, metrics_incr. fold entered_metric.
  rewrite bind_emit. rewrite (bind_pure _ _ _ _ Hf). cbv iota.
  unfold bind, lift. by rewrite He.
Qed.

Lemma project_lookup_failure_witness :
  create_feedback_issue
    (with_get_from_cache (sample_env (Ok false))
       (fun _ => Raise (OtherException "DoesNotExist")))
    sample_event 7 NEW_FEEDBACK_ENVELOPE (sample_world (VStr "Great app!"))
  = ([entered_metric], sample_world (VStr "Great app!"),
     Raise (OtherException "DoesNotExist")).
Proof.
  apply project_lookup_failure.
  - vm_compute. reflexivity.
  - reflexivity.
Defined.

(** ** The legacy report without its event, through the filter *)

Lemma field_inv h l k v :
  field h l k = Some v -> exists d, hdict h l = Some d /\ d !! k = Some v.
Proof. unfold field. destruct (hdict h l) as [d|]; [eauto|done]. Qed.

Lemma field_present h l k v :
  field h l k = Some v -> v <> VNone -> present h (VRef l) k v.
Proof.
  intros Hf Hv. apply field_inv in Hf as (d & Hd & Hk). by exists l, d.
Qed.

(** The event made for a report without event holds a new feedback context:
    the report's name, or the empty string when it has none, its email as
    contact email, its comments as message, and its event id as associated
    event id when there is a true one, and no associated event id otherwise. *)
Theorem shim_feedback_context env report project source w :
  exists l lc lf w1,
    (let run := create_feedback_issue env (VRef l) (project_id project) source w1 in
     shim_to_feedback env report None project source w
     = (missing_event_metric :: calls run ++ shim_handled run.2, run.1.2, Ok tt))
    /\ store w !! lc = None /\ store w !! lf = None
    /\ field (store w1) l "contexts" = Some (VRef lc)
    /\ field (store w1) lc "feedback" = Some (VRef lf)
    /\ field (store w1) lf "name" = Some (default (VStr "") (report_name report))
    /\ field (store w1) lf "contact_email" = Some (report_email report)
    /\ field (store w1) lf "message" = Some (report_comments report)
    /\ field (store w1) lf "associated_event_id"
       = (if truthy (store w1) (default VNone (report_event_id report))
          then report_event_id report else None).
Proof.
  destruct (shim_synthesis env report project source w)
    as (l & lc & lf & w1 & Hrun & _ & Hlc & Hlf & _ & _ & _ & _ & _ & H).
  by exists l, lc, lf, w1.
Qed.

(** A report without event whose comments the filter rejects: the run is the
    missing-event counter, the entry counter and the rejection counter, and it
    returns; every object of the store is as it was and no identifier is
    drawn. *)
Theorem shim_rejected_report env report project source w :
  exists w1,
    entropy w1 = entropy w
    /\ (forall x, is_Some (store w !! x) -> store w1 !! x = store w !! x)
    /\ (report_comments report = VNone ->
        shim_to_feedback env report None project source w
        = ([missing_event_metric; entered_metric; filtered_metric "missing_context"],
           w1, Ok tt))
    /\ (report_comments report = VStr UNREAL_FEEDBACK_UNATTENDED_MESSAGE ->
        shim_to_feedback env report None project source w
        = ([missing_event_metric; entered_metric;
            filtered_metric "unreal.unattended"], w1, Ok tt))
    /\ (forall s, report_comments report = VStr s ->
        s <> UNREAL_FEEDBACK_UNATTENDED_MESSAGE -> strip s = "" ->
        shim_to_feedback env report None project source w
        = ([missing_event_metric; entered_metric; filtered_metric "empty"],
           w1, Ok tt)).
Proof.
  destruct (shim_synthesis_kept env report project source w)
    as (l & lc & lf & w1 & Hrun & _ & _ & _ & He & _ & _ & _ & _
        & Hfc & Hff & _ & _ & Hfm & _ & Hc).
  exists w1. split; [done|]. split; [done|]. cbv zeta in Hrun.
  assert (Hrej : forall reason,
            should_filter_feedback (VRef l) (project_id project) source w1
            = ([filtered_metric reason], w1, Ok true) ->
            shim_to_feedback env report None project source w
            = ([missing_event_metric; entered_metric; filtered_metric reason],
               w1, Ok tt)).
  { intros reason Hf. rewrite Hrun.
    by rewrite (cfi_rejected env _ _ _ _ _ _ Hf). }
  assert (Hpc : present (store w1) (VRef l) "contexts" (VRef lc))
    by (by apply field_present).
  assert (Hpf : present (store w1) (VRef lc) "feedback" (VRef lf))
    by (by apply field_present).
  split; [|split].
  - intros Hn. apply Hrej, sf_missing. right. right.
    exists (VRef lc), (VRef lf). split; [done|]. split; [done|].
    rewrite Hn in Hfm. apply field_inv in Hfm as (d & Hd & Hk).
    exists lf, d. by rewrite Hk.
  - intros Hs. apply Hrej. rewrite Hs in Hfm.
    rewrite (sf_message _ _ _ _ UNREAL_FEEDBACK_UNATTENDED_MESSAGE); [done|].
    exists (VRef lc), (VRef lf). split; [done|]. split; [done|].
    by apply field_present.
  - intros s Hs Hne Hst. apply Hrej. rewrite Hs in Hfm.
    rewrite (sf_message _ _ _ _ s).
    + apply String.eqb_neq in Hne as ->. by rewrite Hst.
    + exists (VRef lc), (VRef lf). split; [done|]. split; [done|].
      by apply field_present.
Qed.

Lemma shim_rejected_report_witness :
  exists w1,
    store w1 !! 1%positive = Some (OList [VStr "kept"])
    /\ shim_to_feedback (sample_env (Ok false))
         (mkUserReport (Some (VStr "Ada")) (VStr "a@b.com") (VStr "  ") None None)
         None sample_project CRASH_REPORT_EMBED_FORM
         (mkWorld (<[1%positive := OList [VStr "kept"]]> ∅) 0)
       = ([missing_event_metric; entered_metric; filtered_metric "empty"], w1, Ok tt).
Proof.
  destruct (shim_rejected_report (sample_env (Ok false))
              (mkUserReport (Some (VStr "Ada")) (VStr "a@b.com") (VStr "  ")
                 None None)
              sample_project CRASH_REPORT_EMBED_FORM
              (mkWorld (<[1%positive := OList [VStr "kept"]]> ∅) 0))
    as (w1 & _ & Hk & _ & _ & H).
  exists w1. split.
  - rewrite Hk; [reflexivity|]. by eexists.
  - apply (H "  "); [reflexivity|discriminate|reflexivity].
Defined.

(** ** [fix_for_issue_platform]: what it leaves alone *)

(** Whatever [fix_for_issue_platform] does, and also when it raises: it makes
    no call and draws no identifier; every object of the store is still
    there, and its fields keep their values except under the keys replay,
    dist, name, isStaff, id and email. *)
Theorem fix_frame env x w t w' r :
  fix_for_issue_platform env x w = (t, w', r) ->
  t = [] /\ entropy w' = entropy w
  /\ changed (fun _ k => in_keys fixed_keys k = true) (store w) (store w').
Proof.
  intros H. split; [by apply (silent_fix_for_issue_platform _ _ _ _ _ _ H)|].
  unfold fix_for_issue_platform in H.
  apply bind_inv in H as (t1 & w1 & r1 & H1 & H).
  inversion H1; subst; clear H1. destruct H as (t2 & H & _).
  set (lr := fresh (dom (store w))) in *.
  rest_modifies H (may_change lr) Hall Hent. cbn [store entropy] in Hall, Hent.
  split; [done|].
  intros l Hl. assert (Hne := fresh_not_allocated _ _ Hl). fold lr in Hne.
  destruct (changed_halloc (fun _ _ => False) (store w) (ODict ∅) l Hl)
    as (Ha & Hb & Hc).
  destruct (Hall l Ha) as (Ha' & Hb' & Hc').
  split; [done|]. split; [congruence|]. intros k Hk.
  rewrite Hc'; [apply Hc; tauto|]. apply not_may_change; [done|].
  by destruct (in_keys fixed_keys k).
Qed.

Lemma fix_frame_witness :
  let run := fix_for_issue_platform (sample_env (Ok false)) (VRef 1%positive)
               (mkWorld sample_user_store 0) in
  calls run = [] /\ entropy run.1.2 = 0
  /\ changed (fun _ k => in_keys fixed_keys k = true) sample_user_store
       (store run.1.2).
Proof.
  intros run.
  apply (fix_frame (sample_env (Ok false)) (VRef 1%positive)
           (mkWorld sample_user_store 0) (calls run) run.1.2 run.2).
  apply run_of.
Defined.

(** The result of [fix_for_issue_platform] is the dictionary it makes first. *)
Lemma fix_result_loc env x w t w' rv :
  fix_for_issue_platform env x w = (t, w', Ok rv) ->
  rv = VRef (fresh (dom (store w))).
Proof.
  intros H. unfold fix_for_issue_platform in H.
  apply bind_ok in H as (a & t1 & w0 & t2 & Hm & H & ->).
  apply new_obj_ok in Hm as (-> & -> & Hw0).
  revert H. match goal with |- ?m _ = _ -> _ =>
    assert (Hr : returns (VRef (fresh (dom (store w)))) m);
    [|intros H; apply (Hr _ _ _ _ H)] end.
  repeat (apply returns_bind; intros ?). apply returns_ret.
Qed.

(** The result is a new dictionary and holds nothing under a key the function
    never writes: of the event it is given, only what is copied key by key
    gets into the result. *)
Theorem fix_result_has_no_other_key env x w t w' rv :
  fix_for_issue_platform env x w = (t, w', Ok rv) ->
  exists lr, rv = VRef lr /\ store w !! lr = None
    /\ is_dict (store w') lr = true
    /\ forall k, in_keys (result_keys ++ fixed_keys) k = false ->
                 field (store w') lr k = None.
Proof.
  intros H. rewrite (fix_result_loc _ _ _ _ _ _ H).
  exists (fresh (dom (store w))). split; [done|].
  split; [apply fresh_unallocated|].
  unfold fix_for_issue_platform in H.
  apply bind_ok in H as (a & t1 & w0 & t2 & Hm & H & ->).
  apply new_obj_ok in Hm as (-> & -> & ->).
  rest_modifies H (fun (_ : loc) k => in_keys (result_keys ++ fixed_keys) k = true)
    Hall Hent.
  cbn [store] in Hall.
  destruct (Hall (fresh (dom (store w)))) as (_ & Hd & Hf).
  { unfold halloc. rewrite lookup_insert_eq. eauto. }
  rewrite is_dict_halloc in Hd. split; [done|].
  intros k Hk. rewrite Hf by (by rewrite Hk). by rewrite field_halloc.
Qed.

Lemma fix_result_has_no_other_key_witness :
  let run := fix_for_issue_platform (sample_env (Ok false)) (VRef 1%positive)
               (mkWorld sample_user_store 0) in
  exists lr, run.2 = Ok (VRef lr) /\ sample_user_store !! lr = None
    /\ is_dict (store run.1.2) lr = true
    /\ forall k, in_keys (result_keys ++ fixed_keys) k = false ->
                 field (store run.1.2) lr k = None.
Proof.
  intros run.
  destruct (fix_result_has_no_other_key (sample_env (Ok false)) (VRef 1%positive)
              (mkWorld sample_user_store 0) (calls run) run.1.2 (VRef 6%positive))
    as (lr & Hrv & H); [vm_compute; reflexivity|].
  exists lr. injection Hrv as <-. split; [vm_compute; reflexivity|]. exact H.
Defined.

(** ** [fix_for_issue_platform]: the keys it requires *)

Lemma py_getitem_missing l d k w :
  hdict (store w) l = Some d -> d !! k = None ->
  py_getitem (VRef l) k w = ([], w, Raise (KeyError k)).
Proof. intros Hd Hk. unfold py_getitem. by rewrite Hd, Hk. Qed.

Lemma hdict_hset_ne h l k v l' : l <> l' -> hdict (hset h l k v) l' = hdict h l'.
Proof.
  intros Hne. unfold hset. destruct (hdict h l); [|done].
  by apply hdict_insert_ne.
Qed.

Lemma hdict_halloc_ne h o l : is_Some (h !! l) -> hdict (halloc h o) l = hdict h l.
Proof.
  intros Hl. apply hdict_insert_ne. intros <-. by apply (fresh_not_allocated h _ Hl).
Qed.

Lemma hdict_allocated h l d : hdict h l = Some d -> is_Some (h !! l).
Proof. intros Hd. by eapply is_dict_allocated, hdict_is_dict. Qed.

Lemma copying_start l d w :
  hdict (store w) l = Some d ->
  copying (fresh (dom (store w))) l d (entropy w)
    (mkWorld (halloc (store w) (ODict ∅)) (entropy w)).
Proof.
  intros Hd. assert (Hl := hdict_allocated _ _ _ Hd).
  unfold copying. cbn [store entropy].
  split; [apply is_dict_halloc|]. split; [by apply fresh_not_allocated|].
  split; [|done]. by rewrite hdict_halloc_ne.
Qed.

Lemma copying_read {B} lr l d n k v (f : val -> M B) w :
  copying lr l d n w -> d !! k = Some v ->
  bind (py_getitem (VRef l) k) f w = f v w.
Proof.
  intros (_ & _ & Hd & _) Hk. apply bind_pure. by eapply py_getitem_dict.
Qed.

Lemma copying_read_missing {B} lr l d n k (f : val -> M B) w :
  copying lr l d n w -> d !! k = None ->
  bind (py_getitem (VRef l) k) f w = ([], w, Raise (KeyError k)).
Proof.
  intros (_ & _ & Hd & _) Hk. apply bind_pure_raise. by eapply py_getitem_missing.
Qed.

Lemma copying_write {B} lr l d n k v (f : unit -> M B) w :
  copying lr l d n w ->
  exists w1, copying lr l d n w1 /\ bind (py_setitem (VRef lr) k v) f w = f tt w1.
Proof.
  intros (Hr & Hne & Hd & He).
  exists (mkWorld (hset (store w) lr k v) (entropy w)). split.
  - unfold copying. cbn [store entropy].
    split; [by rewrite is_dict_hset|]. split; [done|]. split; [|done].
    by rewrite hdict_hset_ne.
  - apply bind_quiet. by apply py_setitem_run.
Qed.

Lemma copying_get_new {B} lr l d n k o (f : val -> M B) w :
  copying lr l d n w -> d !! k = None ->
  exists w1 v, copying lr l d n w1 /\ bind (py_get_new (VRef l) k o) f w = f v w1.
Proof.
  intros (Hr & Hne & Hd & He) Hk.
  exists (mkWorld (halloc (store w) o) (entropy w)), (VRef (fresh (dom (store w)))).
  split.
  - unfold copying. cbn [store entropy].
    split; [by apply is_dict_halloc_old|]. split; [done|]. split; [|done].
    rewrite hdict_halloc_ne; [done|]. by eapply hdict_allocated.
  - apply bind_quiet. unfold py_get_new. rewrite Hd.
    rewrite (bind_quiet _ _ _ _ _ (new_obj_run o w)).
    unfold py_get. cbn [store]. rewrite hdict_halloc_ne by (by eapply hdict_allocated).
    by rewrite Hd, Hk.
Qed.

Ltac copy_write C :=
  match goal with
  | |- context [bind (py_setitem (VRef ?lr) ?k ?v) ?f ?w] =>
      let w1 := fresh "w" in
      let C1 := fresh "C" in
      let E := fresh "E" in
      destruct (copying_write lr _ _ _ k v f w C) as (w1 & C1 & E);
      rewrite E; clear E C; rename C1 into C
  end.

Ltac copy_get_new C Hk :=
  match goal with
  | |- context [bind (py_get_new (VRef ?l) ?k ?o) ?f ?w] =>
      let w1 := fresh "w" in
      let v := fresh "v" in
      let C1 := fresh "C" in
      let E := fresh "E" in
      destruct (copying_get_new _ l _ _ k o f w C Hk) as (w1 & v & C1 & E);
      rewrite E; clear E C; rename C1 into C
  end.

(** [fix_for_issue_platform] on a dictionary [d] fails on the first of
    these: no [timestamp] ([KeyError]); a timestamp that is not an instant
    (the conversion's error); no [received]; no [project_id]; no [contexts]
    (each a [KeyError]).  It then has made no call and drawn no identifier,
    and the dictionary is as it was. *)
Theorem fix_requires_keys env l d w :
  hdict (store w) l = Some d ->
  let fails e :=
    exists w', fix_for_issue_platform env (VRef l) w = ([], w', Raise e)
               /\ entropy w' = entropy w /\ hdict (store w') l = Some d in
  (d !! "timestamp" = None -> fails (KeyError "timestamp"))
  /\ (forall ts e, d !! "timestamp" = Some ts -> fromtimestamp env ts = Raise e ->
        fails e)
  /\ (forall ts dt, d !! "timestamp" = Some ts -> fromtimestamp env ts = Ok dt ->
        (d !! "received" = None -> fails (KeyError "received"))
        /\ (is_Some (d !! "received") -> d !! "project_id" = None ->
            fails (KeyError "project_id"))
        /\ (is_Some (d !! "received") -> is_Some (d !! "project_id") ->
            d !! "contexts" = None -> fails (KeyError "contexts"))).
Proof.
  intros Hd fails. assert (C := copying_start l d w Hd).
  set (lr := fresh (dom (store w))) in C.
  unfold fails, fix_for_issue_platform.
  rewrite (bind_quiet _ _ _ _ _ (new_obj_run (ODict ∅) w)). fold lr.
  set (w0 := mkWorld (halloc (store w) (ODict ∅)) (entropy w)) in *.
  assert (Hdone : forall w1 e, copying lr l d (entropy w) w1 ->
            exists w', ([] : list effect, w1, @Raise val e) = ([], w', Raise e)
                       /\ entropy w' = entropy w /\ hdict (store w') l = Some d).
  { intros w1 e (_ & _ & ? & ?). by exists w1. }
  split; [|split].
  - intros Hk. rewrite (copying_read_missing _ _ _ _ _ _ _ C Hk). by apply Hdone.
  - intros ts e Hk He. rewrite (copying_read _ _ _ _ _ _ _ _ C Hk).
    unfold bind at 1, lift. rewrite He. by apply Hdone.
  - intros ts dt Hk He. rewrite (copying_read _ _ _ _ _ _ _ _ C Hk).
    assert (Hl : lift (fromtimestamp env ts) w0 = ([], w0, Ok dt))
      by (unfold lift; by rewrite He).
    rewrite (bind_pure _ _ _ _ Hl). clear Hl. copy_write C.
    split; [|split].
    + intros Hr. rewrite (copying_read_missing _ _ _ _ _ _ _ C Hr). by apply Hdone.
    + intros [rv Hr] Hp. rewrite (copying_read _ _ _ _ _ _ _ _ C Hr). copy_write C.
      rewrite (copying_read_missing _ _ _ _ _ _ _ C Hp). by apply Hdone.
    + intros [rv Hr] [pv Hp] Hc.
      rewrite (copying_read _ _ _ _ _ _ _ _ C Hr). copy_write C.
      rewrite (copying_read _ _ _ _ _ _ _ _ C Hp). copy_write C.
      copy_get_new C Hc. copy_write C.
      rewrite (copying_read_missing _ _ _ _ _ _ _ C Hc). by apply Hdone.
Qed.

Lemma fix_requires_keys_witness :
  exists w',
    fix_for_issue_platform (sample_env (Ok false)) sample_event
      (sample_world (VStr "Great app!"))
    = ([], w', Raise (KeyError "received"))
    /\ entropy w' = 0
    /\ hdict (store w') 1%positive
       = Some {["contexts" := VRef 2%positive;
                "timestamp" := VInt 1700000000%Z;
                "event_id" := VStr "abc123"]}.
Proof.
  destruct (fix_requires_keys (sample_env (Ok false)) 1%positive
              {["contexts" := VRef 2%positive;
                "timestamp" := VInt 1700000000%Z;
                "event_id" := VStr "abc123"]}
              (sample_world (VStr "Great app!")))
    as (_ & _ & H); [vm_compute; reflexivity|].
  destruct (H (VInt 1700000000%Z) 1700000000%Z) as (H1 & _);
    [vm_compute; reflexivity | reflexivity |].
  apply H1. vm_compute. reflexivity.
Defined.

(** ** [fix_for_issue_platform]: what the result holds *)

(** The value just written under [K] of the result stays to the end. *)
Ltac written_key H K F :=
  match goal with
  | Hw : ?w1 = mkWorld (hset (store ?w0) ?lr K ?v) _,
    Hd : is_dict (store ?w0) ?lr = true |- _ =>
      let Hk := fresh "Hk" in
      let Hke := fresh "Hke" in
      rest_modifies H (fun (_ : loc) k => k <> K) Hk Hke;
      rewrite Hw in Hk; cbn [store] in Hk;
      apply (keep_written _ _ lr K v Hd) in Hk;
      clear Hke; rename Hk into F
  end.

Lemma fix_copies env l w t w' rv :
  fix_for_issue_platform env (VRef l) w = (t, w', Ok rv) ->
  exists ts dt,
    field (store w) l "timestamp" = Some ts /\ fromtimestamp env ts = Ok dt
    /\ field (store w') (fresh (dom (store w))) "timestamp"
       = Some (VStr (isoformat env dt))
    /\ is_Some (field (store w) l "received")
    /\ field (store w') (fresh (dom (store w))) "received"
       = field (store w) l "received"
    /\ is_Some (field (store w) l "project_id")
    /\ field (store w') (fresh (dom (store w))) "project_id"
       = field (store w) l "project_id"
    /\ field (store w') (fresh (dom (store w))) "platform"
       = Some (default (VStr "other") (field (store w) l "platform"))
    /\ field (store w') (fresh (dom (store w))) "level"
       = Some (default (VStr "info") (field (store w) l "level"))
    /\ field (store w') (fresh (dom (store w))) "environment"
       = Some (default (VStr "production") (field (store w) l "environment")).
Proof.
  intros H.
  destruct (fix_returns _ _ _ _ _ _ H) as (l0 & _ & Hl0 & _ & Hl & _).
  injection Hl0 as <-.
  unfold fix_for_issue_platform in H.
  apply bind_ok in H as (a & t1 & w0 & t2 & Hm & H & ->).
  apply new_obj_ok in Hm as (-> & -> & Hw0).
  set (lr := fresh (dom (store w))) in *.
  assert (Hinv : changed (written lr fixed_keys) (store w) (store w0))
    by (subst w0; apply changed_halloc).
  assert (Hne : l <> lr) by (by apply fresh_not_allocated).
  clear Hw0.
  (* timestamp *)
  track H. unchanged Hinv l "timestamp" Hl Hne F. rewrite F in Hf. clear F.
  track H. track H. written_key H "timestamp" Rts.
  (* received, project_id *)
  track H. unchanged Hinv l "received" Hl Hne F.
  match goal with
  | Hx : field (store _) l "received" = Some _ |- _ =>
      rewrite F in Hx; rename Hx into Hrec
  end. clear F.
  track H. written_key H "received" Rrec.
  track H. unchanged Hinv l "project_id" Hl Hne F.
  match goal with
  | Hx : field (store _) l "project_id" = Some _ |- _ =>
      rewrite F in Hx; rename Hx into Hpid
  end. clear F.
  track H. written_key H "project_id" Rpid.
  do 11 track H.
  (* platform, level, environment *)
  track H. unchanged Hinv l "platform" Hl Hne F.
  match goal with
  | Hx : _ = default _ (field (store _) l "platform") |- _ =>
      rewrite F in Hx; rename Hx into Hplat
  end. clear F.
  track H. written_key H "platform" Rplat.
  track H. unchanged Hinv l "level" Hl Hne F.
  match goal with
  | Hx : _ = default _ (field (store _) l "level") |- _ =>
      rewrite F in Hx; rename Hx into Hlev
  end. clear F.
  track H. written_key H "level" Rlev.
  track H. unchanged Hinv l "environment" Hl Hne F.
  match goal with
  | Hx : _ = default _ (field (store _) l "environment") |- _ =>
      rewrite F in Hx; rename Hx into Henv
  end. clear F.
  track H. written_key H "environment" Renv.
  exists a, a0.
  split; [done|]. split; [done|]. split; [done|].
  split; [by rewrite Hrec|]. split; [by rewrite Rrec, Hrec|].
  split; [by rewrite Hpid|]. split; [by rewrite Rpid, Hpid|].
  split; [by rewrite Rplat, Hplat|]. split; [by rewrite Rlev, Hlev|].
  by rewrite Renv, Henv.
Qed.

(** When [fix_for_issue_platform] returns, its result holds: under
    [timestamp] the ISO text of the instant of the event's timestamp; under
    [received], [project_id] and [event_id] what the event holds there, which
    it must hold; under [platform], [level] and [environment] what the event
    holds there, and "other", "info" and "production" when it has no such
    key (a key holding [None] keeps [None]). *)
Theorem fix_result_fields env l w t w' rv :
  fix_for_issue_platform env (VRef l) w = (t, w', Ok rv) ->
  exists lr ts dt,
    rv = VRef lr
    /\ field (store w) l "timestamp" = Some ts /\ fromtimestamp env ts = Ok dt
    /\ field (store w') lr "timestamp" = Some (VStr (isoformat env dt))
    /\ (forall k, k ∈ ["received"; "project_id"; "event_id"] ->
          is_Some (field (store w) l k)
          /\ field (store w') lr k = field (store w) l k)
    /\ field (store w') lr "platform"
       = Some (default (VStr "other") (field (store w) l "platform"))
    /\ field (store w') lr "level"
       = Some (default (VStr "info") (field (store w) l "level"))
    /\ field (store w') lr "environment"
       = Some (default (VStr "production") (field (store w) l "environment")).
Proof.
  intros H.
  destruct (fix_copies _ _ _ _ _ _ H)
    as (ts & dt & Hts & Hdt & Rts & Hrec & Rrec & Hpid & Rpid & Rplat & Rlev & Renv).
  destruct (fix_returns _ _ _ _ _ _ H)
    as (l0 & lr & Hl0 & Hrv & _ & _ & _ & _ & _ & _ & _ & Reid & Heid & _).
  injection Hl0 as <-.
  rewrite (fix_result_loc _ _ _ _ _ _ H) in Hrv. injection Hrv as Hlr.
  rewrite Hlr in *.
  exists lr, ts, dt. split; [by rewrite (fix_result_loc _ _ _ _ _ _ H), Hlr|].
  split; [done|]. split; [done|]. split; [done|].
  split; [|done].
  intros k Hk. rewrite !elem_of_cons in Hk.
  destruct Hk as [->|[->|[->|Hk]]]; [done..|by inversion Hk].
Qed.

Lemma fix_result_fields_witness :
  let w := mkWorld sample_user_store 0 in
  let run := fix_for_issue_platform (sample_env (Ok false)) (VRef 1%positive) w in
  exists lr,
    run.2 = Ok (VRef lr)
    /\ field (store run.1.2) lr "timestamp" = Some (VStr "1700000000")
    /\ field (store run.1.2) lr "received" = Some (VStr "2023-11-14T22:13:20")
    /\ field (store run.1.2) lr "platform" = Some (VStr "other")
    /\ field (store run.1.2) lr "level" = Some (VStr "info")
    /\ field (store run.1.2) lr "environment" = Some (VStr "production").
Proof.
  intros w run.
  assert (Hrun : fix_for_issue_platform (sample_env (Ok false)) (VRef 1%positive) w
                 = (calls run, run.1.2, Ok (VRef 6%positive)))
    by (vm_compute; reflexivity).
  assert (H := fix_result_fields (sample_env (Ok false)) 1%positive w (calls run)
                 run.1.2 (VRef 6%positive) Hrun).
  assert (Hr : run.2 = Ok (VRef 6%positive)) by (vm_compute; reflexivity).
  assert (Ets : field (store w) 1%positive "timestamp" = Some (VInt 1700000000))
    by (vm_compute; reflexivity).
  assert (Erec : field (store w) 1%positive "received"
                 = Some (VStr "2023-11-14T22:13:20")) by (vm_compute; reflexivity).
  assert (Eplat : field (store w) 1%positive "platform" = None)
    by (vm_compute; reflexivity).
  assert (Elev : field (store w) 1%positive "level" = None)
    by (vm_compute; reflexivity).
  assert (Eenv : field (store w) 1%positive "environment" = None)
    by (vm_compute; reflexivity).
  assert (Eiso : isoformat (sample_env (Ok false)) 1700000000%Z = "1700000000")
    by (vm_compute; reflexivity).
  clear Hrun. clearbody run w.
  destruct H as (lr & ts & dt & Hrv & Hts & Hdt & Rts & Hcopy & Rplat & Rlev & Renv).
  injection Hrv as <-. rewrite Ets in Hts. injection Hts as <-.
  injection Hdt as <-. rewrite Eiso in Rts.
  destruct (Hcopy "received") as [_ Rrec]; [set_solver|].
  rewrite Erec in Rrec. rewrite Eplat in Rplat. rewrite Elev in Rlev.
  rewrite Eenv in Renv.
  exists 6%positive. by repeat split.
Defined.

(** When [fix_for_issue_platform] returns, on an event whose references
    point to objects of the store: the result's [logentry] is a new
    dictionary that holds the message of the feedback context, [None] when
    there is none, and nothing else. *)
Theorem fix_logentry env l w t w' rv :
  fix_for_issue_platform env (VRef l) w = (t, w', Ok rv) ->
  sound_event (store w) l ->
  exists lr ll,
    rv = VRef lr /\ ll <> lr /\ store w !! ll = None
    /\ field (store w') lr "logentry" = Some (VRef ll)
    /\ hdict (store w') ll = Some {["message" := feedback_get (store w) l "message"]}.
Proof.
  intros H [Suser Sctx].
  destruct (fix_returns _ _ _ _ _ _ H) as (l0 & _ & Hl0 & _ & Hl & _ & _ & _ & _ & _ & Hc & _).
  injection Hl0 as <-.
  rewrite (fix_result_loc _ _ _ _ _ _ H).
  unfold fix_for_issue_platform in H.
  apply bind_ok in H as (a & t1 & w0 & t2 & Hm & H & ->).
  apply new_obj_ok in Hm as (-> & -> & Hw0).
  set (lr := fresh (dom (store w))) in *.
  assert (Hinv : changed (written lr fixed_keys) (store w) (store w0))
    by (subst w0; apply changed_halloc).
  assert (Hold : forall l, is_Some (store w !! l) -> l <> lr)
    by (intros ? ?; by apply fresh_not_allocated).
  clear Hw0.
  do 42 track H.
  clear - H Hinv Hold Sctx Hl Hc.
  destruct Hc as [cv Hcv].
  unchanged Hinv l "contexts" Hl (Hold l Hl) Fc.
  track H. rewrite Fc, Hcv in Hv. simpl in Hv.
  match type of Hv with ?x = _ => subst x end. clear Fc.
  destruct cv as [| | | | |lc];
    try (exfalso; apply bind_ok in H as (? & ? & ? & ? & Hm & _); by inversion Hm).
  destruct (Sctx lc Hcv) as [Hlc Sf].
  unchanged Hinv lc "feedback" Hlc (Hold lc Hlc) Ff.
  track H. rewrite Ff in Hv. clear Ff.
  assert (Fs : forall lf, a = VRef lf ->
            is_Some (store w1 !! lf)
            /\ default VNone (field (store w1) lf "message")
               = feedback_get (store w) l "message").
  { intros lf ->. unfold feedback_get. rewrite Hcv.
    destruct (field (store w) lc "feedback") as [fv|] eqn:Hfv; simpl in Hv.
    - subst fv. assert (Hlf := Sf _ eq_refl).
      unchanged Hinv lf "message" Hlf (Hold _ Hlf) F. rewrite F.
      split; [|done]. by destruct (Hinv lf Hlf).
    - injection Hv as ->. subst w1. cbn [store].
      rewrite field_halloc, lookup_empty. split; [|done].
      unfold halloc. rewrite lookup_insert_eq. eauto. }
  rest_modifies H (fun (_ : loc) k => k <> "message") Hks Hkes.
  clear Hv Hw Hw0 Hd Hd0.
  track H.
  destruct (Fs l0 eq_refl) as [Hlf Fm]. clear Fs Hv Hd.
  do 3 track H.
  assert (Hlr1 := is_dict_allocated _ _ (field_is_dict _ _ _ _ Hf)).
  track H. rest_modifies Hm (fun (_ : loc) (_ : string) => True) Hcw Hew.
  destruct (Hcw lr Hlr1) as [Hlr2 _].
  clear - H Hinv Hold Hl Hlf Fm Hks Hlr2.
  track H. rest_modifies H (fun (_ : loc) k => k <> "message") Hkj Hkej.
  rewrite <- (kept _ _ _ l0 "message" Hkj (is_dict_allocated _ _ Hd)) in Hv
    by (by intros ?).
  rewrite (kept _ _ _ l0 "message" Hks Hlf) in Hv by (by intros ?).
  rewrite Fm in Hv. subst a. clear Hkj Hkej Hks Fm Hlf Hd.
  assert (Hwl : store w !! fresh (dom (store w2)) = None).
  { destruct (store w !! fresh (dom (store w2))) eqn:E; [|done].
    destruct (Hinv (fresh (dom (store w2)))) as [Hx _]; [by rewrite E|].
    rewrite fresh_unallocated in Hx. by destruct Hx. }
  track H. track H. apply ret_ok in H as (_ & -> & _).
  set (ll := fresh (dom (store w2))) in *.
  assert (Hne : ll <> lr) by (apply not_eq_sym; by apply fresh_not_allocated).
  exists lr, ll. split; [done|]. split; [done|]. split; [done|].
  subst w3 w0. cbn [store].
  split; [by apply field_hset|].
  rewrite hdict_hset_ne by done. unfold halloc. by rewrite hdict_insert_eq.
Qed.

Lemma sample_user_store_sound : sound_event sample_user_store 1%positive.
Proof.
  split.
  - intros lu Hu. vm_compute in Hu. injection Hu as <-. vm_compute. eauto.
  - intros lc Hc. vm_compute in Hc. injection Hc as <-. split.
    + vm_compute. eauto.
    + intros lf Hf. vm_compute in Hf. injection Hf as <-. vm_compute. eauto.
Qed.

Lemma fix_logentry_witness :
  let w := mkWorld sample_user_store 0 in
  let run := fix_for_issue_platform (sample_env (Ok false)) (VRef 1%positive) w in
  exists lr ll,
    run.2 = Ok (VRef lr) /\ ll <> lr
    /\ field (store run.1.2) lr "logentry" = Some (VRef ll)
    /\ hdict (store run.1.2) ll = Some {["message" := VStr "Great app!"]}.
Proof.
  intros w run.
  assert (Hrun : fix_for_issue_platform (sample_env (Ok false)) (VRef 1%positive) w
                 = (calls run, run.1.2, Ok (VRef 6%positive)))
    by (vm_compute; reflexivity).
  assert (H := fix_logentry (sample_env (Ok false)) 1%positive w (calls run)
                 run.1.2 (VRef 6%positive) Hrun sample_user_store_sound).
  assert (Hr : run.2 = Ok (VRef 6%positive)) by (vm_compute; reflexivity).
  assert (Em : feedback_get (store w) 1%positive "message" = VStr "Great app!")
    by (vm_compute; reflexivity).
  clear Hrun. clearbody run w.
  destruct H as (lr & ll & Hrv & Hne & _ & Hlog & Hd).
  injection Hrv as <-. rewrite Em in Hd.
  by exists 6%positive, ll.
Defined.


(** ** What a run never does twice *)

(** Every run of [create_feedback_issue], however it ends, counts its entry
    once and as its first call, calls the classifier at most once, publishes
    at most one occurrence, at most one status change and only with an
    occurrence, sends each first-seen signal at most once, and records at
    most one outcome. *)
Theorem pipeline_at_most_once env event pid source w t w' r :
  create_feedback_issue env event pid source w = (t, w', r) ->
  (exists t0, t = entered_metric :: t0)
  /\ count (is_metric "feedback.create_feedback_issue.entered") t = 1
  /\ count is_classifier_call t <= 1
  /\ count is_occurrence t <= 1
  /\ count is_status_change t <= count is_occurrence t
  /\ count (is_send first_feedback_received) t <= 1
  /\ count (is_send first_new_feedback_received) t <= 1
  /\ count is_outcome t <= 1.
Proof.
  intros H. apply issue_runs in H.
  run_shapes H;
    (split; [eexists; reflexivity|]);
    repeat split; vm_compute; lia.
Qed.

Lemma pipeline_at_most_once_witness :
  let run := create_feedback_issue (sample_env (Ok true)) sample_event 7
               NEW_FEEDBACK_ENVELOPE (sample_world (VStr "Great app!")) in
  (exists t0, calls run = entered_metric :: t0)
  /\ count (is_metric "feedback.create_feedback_issue.entered") (calls run) = 1
  /\ count is_classifier_call (calls run) <= 1
  /\ count is_occurrence (calls run) <= 1
  /\ count is_status_change (calls run) <= count is_occurrence (calls run)
  /\ count (is_send first_feedback_received) (calls run) <= 1
  /\ count (is_send first_new_feedback_received) (calls run) <= 1
  /\ count is_outcome (calls run) <= 1.
Proof.
  intros run.
  apply (pipeline_at_most_once (sample_env (Ok true)) sample_event 7%Z
           NEW_FEEDBACK_ENVELOPE (sample_world (VStr "Great app!"))
           (calls run) run.1.2 run.2).
  apply run_of.
Defined.

(** ** The first-seen signals *)

(** A run that accepts the submission and returns sends
    [first_feedback_received] exactly when the project has no feedback yet,
    and [first_new_feedback_received] exactly when the source is one of the
    two new-feedback sources and the project has no new feedback yet; each is
    sent for the project of the submission. *)
Theorem first_seen_signals_sent env event pid source w t w' :
  should_filter_feedback event pid source w = ([], w, Ok false) ->
  create_feedback_issue env event pid source w = (t, w', Ok tt) ->
  exists project,
    get_from_cache env pid = Ok project
    /\ count (is_send first_feedback_received) t
       = (if flags_has_feedbacks project then 0 else 1)
    /\ count (is_send first_new_feedback_received) t
       = (if is_new_feedback source && negb (flags_has_new_feedbacks project)
          then 1 else 0)
    /\ forall s p, SendRobust s p ∈ t -> p = project_id project.
Proof.
  intros Hf H.
  destruct (issue_accepted_inv _ _ _ _ _ _ _ _ Hf H)
    as [(e & _ & _ & ?) | (project & tc & v & t0 & Hp & Hv & Hc & Ho & ->)]; [done|].
  apply occurrence_returns in Ho
    as (l & eid & ts & dt & occ & sent & cs & tv & _ & _ & _ & _ & _ & _
        & _ & _ & _ & _ & _ & Hval & ->).
  exists project. split; [done|].
  inversion Hc; subst; destruct Hval; subst;
    unfold first_seen_signals, spam_triage;
    destruct (flags_has_feedbacks project);
    destruct (is_new_feedback source && negb (flags_has_new_feedbacks project));
    cbn [negb];
    repeat match goal with
      | |- context [if ?b then _ else _] => destruct b eqn:?
      end;
    (split; [reflexivity|]); (split; [reflexivity|]);
    intros s p Hin; cbn in Hin;
    repeat (apply elem_of_cons in Hin as [Hin|Hin]; [by inversion Hin|]);
    by inversion Hin.
Qed.

Lemma first_seen_signals_sent_witness :
  let run := create_feedback_issue (sample_env (Ok false)) sample_event 7
               NEW_FEEDBACK_ENVELOPE (sample_world (VStr "Great app!")) in
  count (is_send first_feedback_received) (calls run) = 1
  /\ count (is_send first_new_feedback_received) (calls run) = 1.
Proof.
  intros run.
  destruct (first_seen_signals_sent (sample_env (Ok false)) sample_event 7%Z
              NEW_FEEDBACK_ENVELOPE (sample_world (VStr "Great app!"))
              (calls run) run.1.2)
    as (project & Hp & H1 & H2 & _);
    [vm_compute; reflexivity | vm_compute; reflexivity |].
  injection Hp as <-. clearbody run. split; [exact H1 | exact H2].
Defined.

(** ** The legacy report with its event *)

Lemma silent_tag_lists items : silent (tag_lists items).
Proof.
  induction items as [|[k v] rest IH]; simpl.
  - apply silent_ret.
  - apply silent_bind; [apply silent_new_obj|]. intros x.
    apply silent_bind; [exact IH|]. intros xs. apply silent_ret.
Qed.

Lemma reads_oracle {A} (f : world -> A) : reads (fun w => ([], w, Ok (f w))).
Proof. intros w. by eexists. Qed.


(** ** The evidence data *)

Lemma evidence_block_data w lf feedback name important
    (e : dict * list IssueEvidence) :
  hdict (store w) lf = Some feedback ->
  forall B (k : dict * list IssueEvidence -> M B),
  bind (py_get (VRef lf) name VNone) (fun a =>
    bind (py_truthy a) (fun ta =>
      bind (if ta : bool then
              bind (py_getitem (VRef lf) name) (fun v1 =>
                bind (py_getitem (VRef lf) name) (fun v2 =>
                  ret (<[name := v1]> (e.1),
                       e.2 ++ [mkIssueEvidence name v2 important])))
            else ret e) k)) w
  = k (evidence_value (store w) feedback name (e.1),
       e.2 ++ evidence_entry (store w) feedback name important) w.
Proof.
  intros Hd B k. unfold evidence_entry, evidence_value.
  destruct (feedback !! name) as [v|] eqn:Hv.
  - destruct (truthy (store w) v) eqn:Ht.
    + step (py_get_dict _ w _ _ name VNone eq_refl Hd). rewrite Hv. simpl default.
      step (py_truthy_run v w). rewrite Ht.
      step (py_getitem_dict _ w _ _ _ _ eq_refl Hd Hv).
      step (py_getitem_dict _ w _ _ _ _ eq_refl Hd Hv). by norm.
    + step (py_get_dict _ w _ _ name VNone eq_refl Hd). rewrite Hv. simpl default.
      step (py_truthy_run v w). rewrite Ht. norm. rewrite app_nil_r. by destruct e.
  - step (py_get_dict _ w _ _ name VNone eq_refl Hd). rewrite Hv. simpl default.
    step (py_truthy_run VNone w). simpl truthy. cbv iota. norm.
    rewrite app_nil_r. by destruct e.
Qed.

Lemma make_evidence_data w lf feedback source v :
  hdict (store w) lf = Some feedback ->
  make_evidence (VRef lf) source v w
  = ([], w, Ok (evidence_data_of (store w) feedback source v,
                ordered_evidence (store w) feedback source v)).
Proof.
  intros Hd. unfold make_evidence, ordered_evidence, evidence_data_of.
  assert (Heq := evidence_block_data w lf feedback "associated_event_id" false
                   (∅, []) Hd).
  cbn [fst snd] in Heq. rewrite Heq. clear Heq. cbv beta.
  rewrite (evidence_block_data w lf feedback "contact_email" false _ Hd). cbv beta.
  rewrite (evidence_block_data w lf feedback "message" true _ Hd). cbv beta.
  rewrite (evidence_block_data w lf feedback "name" false _ Hd). cbv beta.
  simpl fst. simpl snd. unfold ret.
  destruct v as [[|]|]; simpl; by rewrite <- ?app_assoc.
Qed.

Lemma evidence_entry_inv h feedback name important e :
  e ∈ evidence_entry h feedback name important ->
  exists v, e = mkIssueEvidence name v important
            /\ feedback !! name = Some v /\ truthy h v = true.
Proof.
  unfold evidence_entry. destruct (feedback !! name) as [v|]; [|inversion 1].
  destruct (truthy h v) eqn:Ht; [|inversion 1].
  intros He. apply list_elem_of_singleton in He as ->. by exists v.
Qed.

Lemma evidence_value_ne h feedback name data k :
  k <> name -> evidence_value h feedback name data !! k = data !! k.
Proof.
  intros Hk. unfold evidence_value. destruct (feedback !! name) as [v|]; [|done].
  destruct (truthy h v); [|done]. by rewrite lookup_insert_ne.
Qed.

Lemma displayed_value h feedback name important ks data display :
  displayed ks data display -> name ∉ ks ->
  displayed (ks ++ [name]) (evidence_value h feedback name data)
    (display ++ evidence_entry h feedback name important).
Proof.
  intros Hinv Hn e He. apply elem_of_app in He as [He|He].
  - destruct (Hinv e He) as [Hd Hk]. split; [|apply elem_of_app; by left].
    assert (Hne : name <> ev_name e) by (intros ->; done).
    unfold evidence_value. destruct (feedback !! name) as [v|]; [|done].
    destruct (truthy h v); [|done]. by rewrite lookup_insert_ne.
  - apply evidence_entry_inv in He as (v & -> & Hv & Ht). simpl.
    split; [|apply elem_of_app; right; by apply list_elem_of_singleton].
    unfold evidence_value. by rewrite Hv, Ht, lookup_insert_eq.
Qed.

(** [evidence_data] against [evidence_display]: under the name of each
    displayed entry the data hold the displayed value, but for [is_spam],
    held as the boolean [True] and displayed as the text "True"; the
    displayed values of the feedback context are the context's own, true
    values; only the message is marked important; the spam entry is there
    exactly for the verdict [True]. *)
Theorem evidence_data_matches_display w lf feedback source v :
  hdict (store w) lf = Some feedback ->
  exists data display,
    make_evidence (VRef lf) source v w = ([], w, Ok (data, display))
    /\ (forall e, e ∈ display -> ev_name e <> "is_spam" ->
          data !! ev_name e = Some (ev_value e))
    /\ (forall e, e ∈ display ->
          ev_name e ∈ ["associated_event_id"; "contact_email"; "message"; "name"] ->
          feedback !! ev_name e = Some (ev_value e)
          /\ truthy (store w) (ev_value e) = true)
    /\ (forall e, e ∈ display -> ev_important e = true <-> ev_name e = "message")
    /\ data !! "source" = Some (VStr (value source))
    /\ (mkIssueEvidence "is_spam" (VStr "True") false ∈ display <-> v = Some true)
    /\ data !! "is_spam" = (if verdict_truthy v then Some (VBool true) else None).
Proof.
  intros Hd. eexists _, _. split; [by apply make_evidence_data|].
  set (h := store w).
  assert (H0 : displayed [] (∅ : dict) []) by (intros e He; inversion He).
  apply (displayed_value h feedback "associated_event_id" false) in H0; [|set_solver].
  apply (displayed_value h feedback "contact_email" false) in H0; [|set_solver].
  apply (displayed_value h feedback "message" true) in H0; [|set_solver].
  apply (displayed_value h feedback "name" false) in H0; [|set_solver].
  simpl app in H0. rewrite <- !app_assoc in H0.
  unfold ordered_evidence, evidence_data_of. fold h.
  set (d4 := evidence_value h feedback "name" _) in *.
  set (S := mkIssueEvidence "source" (VStr (value source)) false).
  set (Sp := match v with
             | Some true => [mkIssueEvidence "is_spam" (VStr "True") false]
             | _ => []
             end).
  set (D4 := evidence_entry h feedback "associated_event_id" false ++ _) in H0.
  assert (Hmem : forall e,
            e ∈ evidence_entry h feedback "associated_event_id" false
                ++ evidence_entry h feedback "contact_email" false
                ++ evidence_entry h feedback "message" true
                ++ evidence_entry h feedback "name" false ++ [S] ++ Sp
            <-> e ∈ D4 \/ e = S \/ e ∈ Sp).
  { intros e. unfold D4. rewrite !elem_of_app, list_elem_of_singleton. tauto. }
  assert (Hsp : forall e, e ∈ Sp ->
            v = Some true /\ e = mkIssueEvidence "is_spam" (VStr "True") false).
  { intros e. unfold Sp. destruct v as [[|]|]; try by inversion 1.
    intros He. by apply list_elem_of_singleton in He as ->. }
  assert (Hin : forall e, e ∈ D4 ->
            exists x, e = mkIssueEvidence (ev_name e) x
                            (bool_decide (ev_name e = "message"))
                      /\ feedback !! ev_name e = Some x /\ truthy h x = true).
  { intros e. unfold D4. rewrite !elem_of_app.
    intros [He|[He|[He|He]]];
      apply evidence_entry_inv in He as (x & -> & Hx & Ht); by exists x. }
  assert (Hd4 : d4 !! "is_spam" = None /\ d4 !! "source" = None).
  { unfold d4. by rewrite !evidence_value_ne. }
  assert (Hdata : forall k, k <> "is_spam" ->
            match v with
            | Some true => <["is_spam" := VBool true]> (<["source" := VStr (value source)]> d4)
            | _ => <["source" := VStr (value source)]> d4
            end !! k = <["source" := VStr (value source)]> d4 !! k).
  { intros k Hk. destruct v as [[|]|]; try done. by rewrite lookup_insert_ne. }
  split; [|split; [|split; [|split; [|split]]]].
  - intros e He Hn. rewrite (Hdata _ Hn).
    apply Hmem in He as [He|[->|He]].
    + destruct (H0 e He) as [Hl Hk]. rewrite lookup_insert_ne; [done|].
      intros Heq. rewrite <- Heq in Hk. set_solver.
    + simpl. by rewrite lookup_insert_eq.
    + apply Hsp in He as [_ ->]. done.
  - intros e He Hk. apply Hmem in He as [He|[->|He]].
    + destruct (Hin e He) as (x & -> & Hx & Ht). done.
    + simpl in Hk. set_solver.
    + apply Hsp in He as [_ ->]. simpl in Hk. set_solver.
  - intros e He. apply Hmem in He as [He|[->|He]].
    + destruct (Hin e He) as (x & -> & _). simpl.
      by rewrite bool_decide_eq_true.
    + by simpl.
    + apply Hsp in He as [_ ->]. by simpl.
  - rewrite Hdata by done. by rewrite lookup_insert_eq.
  - rewrite Hmem. split.
    + intros [He|[He|He]].
      * destruct (H0 _ He) as [_ Hk]. simpl in Hk. set_solver.
      * discriminate.
      * by apply Hsp in He as [-> _].
    + intros ->. right. right. unfold Sp. by apply list_elem_of_singleton.
  - destruct v as [[|]|]; simpl.
    + by rewrite lookup_insert_eq.
    + rewrite lookup_insert_ne by done. apply Hd4.
    + rewrite lookup_insert_ne by done. apply Hd4.
Qed.

Lemma evidence_data_matches_display_witness :
  exists data display,
    make_evidence (VRef 3%positive) NEW_FEEDBACK_ENVELOPE (Some true)
      (sample_world (VStr "Great app!"))
    = ([], sample_world (VStr "Great app!"), Ok (data, display))
    /\ data !! "source" = Some (VStr "new_feedback_envelope")
    /\ mkIssueEvidence "is_spam" (VStr "True") false ∈ display
    /\ data !! "is_spam" = Some (VBool true).
Proof.
  destruct (evidence_data_matches_display (sample_world (VStr "Great app!"))
              3%positive
              {["message" := VStr "Great app!"; "contact_email" := VStr "a@b.com"]}
              NEW_FEEDBACK_ENVELOPE (Some true))
    as (data & display & Hrun & _ & _ & _ & Hsrc & Hsp & Hspam);
    [vm_compute; reflexivity|].
  exists data, display. split; [exact Hrun|]. split; [exact Hsrc|].
  split; [by apply Hsp | exact Hspam].
Defined.


(** ** [fix_for_issue_platform]: the replay context *)

Lemma field_halloc_empty h l k : field (halloc h (ODict ∅)) l k = field h l k.
Proof.
  unfold halloc, field. destruct (decide (fresh (dom h) = l)) as [<-|Hne].
  - rewrite hdict_insert_eq. unfold hdict. by rewrite fresh_unallocated.
  - by rewrite hdict_insert_ne.
Qed.

(** [event.get-style reading of the feedback context, then [g]]: the value
    read is [feedback_get] of the store at that point, and one empty
    dictionary is made on the way. *)
Lemma feedback_get_bind_ok {B} l k (g : val -> M B) w t w' b :
  bind (py_getitem (VRef l) "contexts") (fun c =>
    bind (py_get_new c "feedback" (ODict ∅)) (fun f =>
      bind (py_get f k VNone) g)) w = (t, w', Ok b) ->
  exists lc, field (store w) l "contexts" = Some (VRef lc)
    /\ is_dict (store w) lc = true
    /\ g (feedback_get (store w) l k)
         (mkWorld (halloc (store w) (ODict ∅)) (entropy w)) = (t, w', Ok b).
Proof.
  intros H.
  apply bind_ok in H as (c & ? & ? & ? & Hc & H & ->).
  apply py_getitem_ok in Hc as (-> & -> & l1 & Hx & Hc). injection Hx as <-.
  apply bind_ok in H as (f & ? & w1 & ? & Hf & H & ->).
  apply py_get_new_ok in Hf as (-> & lc & -> & Hdc & -> & Hf).
  apply bind_ok in H as (x & ? & ? & t2 & Hx & H & ->).
  apply py_get_ok in Hx as (-> & -> & lf & Hfl & Hdf & Hx).
  exists lc. split; [done|]. split; [done|].
  assert (Hv : x = feedback_get (store w) l k); [|by rewrite <- Hv].
  unfold feedback_get. rewrite Hc. cbn [store] in Hx.
  rewrite field_halloc_empty in Hx.
  destruct (field (store w) lc "feedback") as [fv|] eqn:Hfv; simpl in Hf.
  - subst fv. by rewrite Hfl.
  - rewrite Hf in Hfl. injection Hfl as <-. rewrite Hx.
    unfold field, hdict. by rewrite fresh_unallocated.
Qed.

Lemma feedback_get_unchanged lr ks (h0 h : heap) l k :
  changed (written lr ks) h0 h -> (forall x, is_Some (h0 !! x) -> x <> lr) ->
  is_Some (h0 !! l) -> sound_event h0 l ->
  in_keys ks "contexts" = false -> in_keys ks "feedback" = false ->
  in_keys ks k = false ->
  feedback_get h l k = feedback_get h0 l k.
Proof.
  intros Hc Hold Hl [_ Hs] Hk1 Hk2 Hk3. unfold feedback_get.
  rewrite (kept _ _ _ l "contexts" Hc Hl (not_written lr ks _ _ (Hold _ Hl) Hk1)).
  destruct (field h0 l "contexts") as [[| | | | |lc]|] eqn:Hcx; try done.
  destruct (Hs lc eq_refl) as [Hlc Hsf].
  rewrite (kept _ _ _ lc "feedback" Hc Hlc (not_written lr ks _ _ (Hold _ Hlc) Hk2)).
  destruct (field h0 lc "feedback") as [[| | | | |lf]|] eqn:Hfx; try done.
  assert (Hlf := Hsf lf eq_refl).
  by rewrite (kept _ _ _ lf k Hc Hlf (not_written lr ks _ _ (Hold _ Hlf) Hk3)).
Qed.

(** The condition of the replay backfill. *)
Lemma replay_cond_ok l (b : bool) w t w' b' :
  (if b then ret false
   else bind (py_getitem (VRef l) "contexts") (fun c =>
          bind (py_get_new c "feedback" (ODict ∅)) (fun f =>
            bind (py_get f "replay_id" VNone) (fun rid => py_truthy rid)))) w
  = (t, w', Ok b') ->
  (forall x k, field (store w') x k = field (store w) x k)
  /\ (forall x, is_Some (store w !! x) -> is_Some (store w' !! x))
  /\ b' = (if b then false
           else truthy (store w') (feedback_get (store w) l "replay_id")).
Proof.
  destruct b.
  - intros H. apply ret_ok in H as (_ & -> & ->). done.
  - intros H. apply feedback_get_bind_ok in H as (lc & _ & _ & H).
    apply py_truthy_ok in H as (_ & -> & ->). cbn [store].
    split; [intros; apply field_halloc_empty|]. split; [|done].
    intros x Hx. unfold halloc. rewrite lookup_insert_ne; [done|].
    intros <-. rewrite fresh_unallocated in Hx. by destruct Hx.
Qed.

Lemma allocated_halloc (h : heap) o l :
  is_Some (h !! l) -> is_Some (halloc h o !! l).
Proof.
  intros Hl. unfold halloc. rewrite lookup_insert_ne; [done|].
  intros <-. rewrite fresh_unallocated in Hl. by destruct Hl.
Qed.

Lemma unallocated_halloc (h : heap) o l :
  halloc h o !! l = None -> h !! l = None.
Proof.
  intros Hl. destruct (h !! l) eqn:E; [|done].
  assert (Hs : is_Some (halloc h o !! l)) by (apply allocated_halloc; by rewrite E).
  rewrite Hl in Hs. by destruct Hs.
Qed.

(** The backfill itself. *)
Lemma replay_block_ok l lr lc (b : bool) w t w' u :
  when b
    (bind (py_getitem (VRef l) "contexts") (fun c =>
       bind (py_get_new c "feedback" (ODict ∅)) (fun f =>
         bind (py_get f "replay_id" VNone) (fun rid =>
           bind (new_obj (ODict {["replay_id" := rid]})) (fun replay =>
             bind (py_getitem (VRef lr) "contexts") (fun rc =>
               py_setitem rc "replay" replay)))))) w
  = (t, w', Ok u) ->
  field (store w) lr "contexts" = Some (VRef lc) ->
  if b
  then exists lp, store w !! lp = None
         /\ field (store w') lc "replay" = Some (VRef lp)
         /\ field (store w') lp "replay_id"
            = Some (feedback_get (store w) l "replay_id")
         /\ is_dict (store w') lc = true /\ is_dict (store w') lp = true
  else w' = w.
Proof.
  intros H Hrc. destruct b; unfold when in H; [|by apply ret_ok in H as (_ & -> & _)].
  apply feedback_get_bind_ok in H as (lc' & _ & _ & H).
  apply bind_ok in H as (rp & ? & w2 & ? & Hn & H & ->).
  apply new_obj_ok in Hn as (-> & -> & ->).
  apply bind_ok in H as (rc & ? & ? & ? & Hg & H & ->).
  apply py_getitem_ok in Hg as (-> & -> & ? & Hx & Hg). injection Hx as <-.
  apply py_setitem_ok in H as (_ & lc2 & Hx & Hd & ->).
  cbn [store] in *.
  assert (Hlr : is_Some (store w !! lr))
    by (by eapply is_dict_allocated, field_is_dict).
  rewrite field_halloc_ne in Hg by (by apply allocated_halloc).
  rewrite field_halloc_empty, Hrc in Hg. injection Hg as <-. injection Hx as <-.
  exists (fresh (dom (halloc (store w) (ODict ∅)))).
  split; [eapply unallocated_halloc, fresh_unallocated|].
  split; [by apply field_hset|].
  split.
  { rewrite field_hset_ne by done. rewrite field_halloc. apply lookup_singleton_eq. }
  rewrite !is_dict_hset. split; [done|]. apply is_dict_halloc.
Qed.

Lemma truthy_unwritten lr ks (h0 h : heap) v :
  changed (written lr ks) h0 h -> (forall x, is_Some (h0 !! x) -> x <> lr) ->
  ks = [] -> scalar_or_dict h0 v -> truthy h v = truthy h0 v.
Proof.
  intros Hc Hold -> Hv. destruct v as [| | | | |lp]; try done.
  assert (Hd := Hv lp eq_refl).
  assert (Hl : is_Some (h0 !! lp)) by (by apply is_dict_allocated).
  destruct (Hc lp Hl) as (_ & Hd' & Hf). rewrite Hd in Hd'.
  assert (Hk : forall k, field h lp k = field h0 lp k).
  { intros k. apply Hf, not_written; [by apply Hold|done]. }
  unfold is_dict, field in *.
  destruct (hdict h0 lp) as [d|] eqn:E0; [|done].
  destruct (hdict h lp) as [d'|] eqn:E; [|done].
  assert (d' = d) as -> by (by apply map_eq).
  unfold hdict in E0, E. unfold truthy.
  destruct (h0 !! lp) as [[?|?]|]; try done.
  destruct (h !! lp) as [[?|?]|]; try done.
  injection E0 as ->. by injection E as ->.
Qed.

(** Lines 113-120, the backfill of the replay context.  When
    [fix_for_issue_platform] returns, on an event whose references point to
    objects of the store, the condition of line 115 is decided by the store
    of the call, for a replay context and a replay id that are scalars or
    dictionaries of that store: if the replay context of the contexts is
    false (missing, [None], an empty dictionary) and the replay id of the
    feedback context is true, the contexts of the event, which are those of
    the result, get a new [replay] dictionary holding that id; if the replay
    context is true (a dictionary that is not empty), or the replay id is
    false, the [replay] of the contexts is as it was. *)
Theorem fix_replay_backfill env l w t w' rv :
  fix_for_issue_platform env (VRef l) w = (t, w', Ok rv) ->
  sound_event (store w) l ->
  exists lc,
    field (store w) l "contexts" = Some (VRef lc)
    /\ (scalar_or_dict (store w) (default VNone (field (store w) lc "replay")) ->
        scalar_or_dict (store w) (feedback_get (store w) l "replay_id") ->
        truthy (store w) (default VNone (field (store w) lc "replay")) = false ->
        truthy (store w) (feedback_get (store w) l "replay_id") = true ->
        exists lp, store w !! lp = None
          /\ field (store w') lc "replay" = Some (VRef lp)
          /\ field (store w') lp "replay_id"
             = Some (feedback_get (store w) l "replay_id"))
    /\ (scalar_or_dict (store w) (default VNone (field (store w) lc "replay")) ->
        truthy (store w) (default VNone (field (store w) lc "replay")) = true ->
        field (store w') lc "replay" = field (store w) lc "replay")
    /\ (scalar_or_dict (store w) (feedback_get (store w) l "replay_id") ->
        truthy (store w) (feedback_get (store w) l "replay_id") = false ->
        field (store w') lc "replay" = field (store w) lc "replay").
Proof.
  intros H Hs. assert (Hs' := Hs). destruct Hs' as [_ Sctx].
  destruct (fix_returns _ _ _ _ _ _ H) as (l0 & _ & Hl0 & _ & Hl & _).
  injection Hl0 as <-.
  unfold fix_for_issue_platform in H.
  apply bind_ok in H as (a & t1 & w0 & t2 & Hm & H & ->).
  apply new_obj_ok in Hm as (-> & -> & Hw0).
  set (lr := fresh (dom (store w))) in *.
  assert (Hinv : changed (written lr []) (store w) (store w0))
    by (subst w0; apply changed_halloc).
  assert (Hold : forall l, is_Some (store w !! l) -> l <> lr)
    by (intros ? ?; by apply fresh_not_allocated).
  clear Hw0.
  do 7 track H. clear - H Hinv Hold Hs Sctx Hl.
  (* contexts *)
  unchanged Hinv l "contexts" Hl (Hold l Hl) Fc.
  track H. rewrite Fc in Hv. clear Fc.
  track H.
  assert (Hrc : field (store w1) lr "contexts" = Some a)
    by (subst w1; by apply field_hset).
  clear Hw Hw0 Hd Hd0.
  unchanged Hinv l "contexts" Hl (Hold l Hl) Fc.
  track H. rewrite Fc in Hf. clear Fc. rewrite Hf in Hv. simpl in Hv. subst a.
  track H.
  match type of Hf with _ = Some (VRef ?x) => rename x into lc end.
  destruct (Sctx lc Hf) as [Hlc _].
  unchanged Hinv lc "replay" Hlc (Hold lc Hlc) Fr.
  assert (Fg1 := feedback_get_unchanged lr [] _ _ l "replay_id" Hinv Hold Hl Hs
                   eq_refl eq_refl eq_refl).
  rewrite Fr in Hv.
  assert (T1 := fun v => truthy_unwritten lr [] _ _ v Hinv Hold eq_refl).
  track H.
  assert (Hmono : forall x, is_Some (store w !! x) -> is_Some (store w1 !! x))
    by (intros x Hx; by destruct (Hinv x Hx)).
  track H. apply replay_cond_ok in Hm as (Hfield & Halloc & Hb).
  rewrite Fg1 in Hb.
  assert (T2 := fun v => truthy_unwritten lr [] _ _ v Hinv Hold eq_refl).
  assert (Fg2 := feedback_get_unchanged lr [] _ _ l "replay_id" Hinv Hold Hl Hs
                   eq_refl eq_refl eq_refl).
  more_written Hinv ["replay"].
  track H. apply (replay_block_ok l lr lc) in Hm; [|by rewrite Hfield].
  rewrite Fg2 in Hm.
  rest_modifies H (fun (_ : loc) k => k <> "replay") Hk1 Hke1.
  rest_modifies H (fun (_ : loc) k => k <> "replay_id") Hk2 Hke2.
  exists lc. split; [done|]. subst a a1.
  assert (Hlc2 : is_Some (store w2 !! lc)) by (by apply Halloc, Hmono).
  assert (Hkeep : a2 = false ->
            field (store w') lc "replay" = field (store w) lc "replay").
  { intros Ha2. rewrite Ha2 in Hm. subst w4.
    rewrite (kept _ _ _ lc "replay" Hk1 Hlc2) by (by intros ?).
    by rewrite Hfield, Fr. }
  split; [|split].
  - intros Sr Si Hrep Hrid.
    rewrite (T1 _ Sr), Hrep, (T2 _ Si), Hrid in Hb. subst a2.
    destruct Hm as (lp & Hnew & Hr & Hid & Hdc & Hdp).
    exists lp. split.
    { destruct (store w !! lp) eqn:E; [|done].
      assert (Hx : is_Some (store w2 !! lp)) by (apply Halloc, Hmono; by rewrite E).
      rewrite Hnew in Hx. by destruct Hx. }
    by rewrite (kept_key _ _ lc "replay" Hk1 Hdc),
               (kept_key _ _ lp "replay_id" Hk2 Hdp).
  - intros Sr Hrep. apply Hkeep. by rewrite Hb, (T1 _ Sr), Hrep.
  - intros Si Hrid. apply Hkeep. rewrite Hb, (T2 _ Si), Hrid.
    by destruct (truthy _ _).
Qed.

Lemma fix_replay_backfill_witness :
  (let run := fix_for_issue_platform (sample_env (Ok false)) (VRef 1%positive)
                (mkWorld sample_replay_store 0) in
   exists lp,
     sample_replay_store !! lp = None
     /\ field (store run.1.2) 2%positive "replay" = Some (VRef lp)
     /\ field (store run.1.2) lp "replay_id" = Some (VStr "r1"))
  /\ (let run := fix_for_issue_platform (sample_env (Ok false)) (VRef 1%positive)
                   (mkWorld sample_replayed_store 0) in
      field (store run.1.2) 2%positive "replay" = Some (VRef 4%positive)).
Proof.
  split.
  - set (w := mkWorld sample_replay_store 0). intros run.
    assert (Hrun : fix_for_issue_platform (sample_env (Ok false)) (VRef 1%positive) w
                   = (calls run, run.1.2, Ok (VRef 4%positive)))
      by (vm_compute; reflexivity).
    assert (Hs : sound_event (store w) 1%positive).
    { split.
      - intros lu Hu. vm_compute in Hu. discriminate.
      - intros lc Hc. vm_compute in Hc. injection Hc as <-. split.
        + vm_compute. eauto.
        + intros lf Hf. vm_compute in Hf. injection Hf as <-. vm_compute. eauto. }
    assert (H := fix_replay_backfill (sample_env (Ok false)) 1%positive w
                   (calls run) run.1.2 (VRef 4%positive) Hrun Hs).
    assert (Ec : field (store w) 1%positive "contexts" = Some (VRef 2%positive))
      by (vm_compute; reflexivity).
    assert (Er : default VNone (field (store w) 2%positive "replay") = VNone)
      by (vm_compute; reflexivity).
    assert (Ei : feedback_get (store w) 1%positive "replay_id" = VStr "r1")
      by (vm_compute; reflexivity).
    assert (Ew : store w = sample_replay_store) by reflexivity.
    clear Hrun Hs. clearbody run w.
    destruct H as (lc & Hc & Hfill & _).
    rewrite Ec in Hc. injection Hc as <-. rewrite Er, Ei, Ew in Hfill.
    apply Hfill; try reflexivity; intros lp Hlp; discriminate.
  - set (w := mkWorld sample_replayed_store 0). intros run.
    assert (Hrun : fix_for_issue_platform (sample_env (Ok false)) (VRef 1%positive) w
                   = (calls run, run.1.2, Ok (VRef 5%positive)))
      by (vm_compute; reflexivity).
    assert (Hs : sound_event (store w) 1%positive).
    { split.
      - intros lu Hu. vm_compute in Hu. discriminate.
      - intros lc Hc. vm_compute in Hc. injection Hc as <-. split.
        + vm_compute. eauto.
        + intros lf Hf. vm_compute in Hf. injection Hf as <-. vm_compute. eauto. }
    assert (H := fix_replay_backfill (sample_env (Ok false)) 1%positive w
                   (calls run) run.1.2 (VRef 5%positive) Hrun Hs).
    assert (Ec : field (store w) 1%positive "contexts" = Some (VRef 2%positive))
      by (vm_compute; reflexivity).
    assert (Er : field (store w) 2%positive "replay" = Some (VRef 4%positive))
      by (vm_compute; reflexivity).
    assert (Et : truthy (store w) (VRef 4%positive) = true)
      by (vm_compute; reflexivity).
    assert (Ed : is_dict (store w) 4%positive = true) by (vm_compute; reflexivity).
    clear Hrun Hs. clearbody run w.
    destruct H as (lc & Hc & _ & Hkeep & _).
    rewrite Ec in Hc. injection Hc as <-. rewrite Er in Hkeep. cbn [default] in Hkeep.
    apply Hkeep; [|exact Et]. intros lp Hlp. by injection Hlp as <-.
Defined.



(** ** The event made for a legacy report with its event *)

Lemma same_object_field (h h' : heap) l k :
  h' !! l = h !! l -> field h' l k = field h l k.
Proof. intros He. unfold field, hdict. by rewrite He. Qed.

Lemma same_object_is_dict (h h' : heap) l :
  h' !! l = h !! l -> is_dict h' l = is_dict h l.
Proof. intros He. unfold is_dict, hdict. by rewrite He. Qed.

Lemma lookup_halloc_old (h : heap) o l :
  is_Some (h !! l) -> halloc h o !! l = h !! l.
Proof.
  intros Hl. unfold halloc. rewrite lookup_insert_ne; [done|].
  intros <-. rewrite fresh_unallocated in Hl. by destruct Hl.
Qed.

(** [[list(item) for item in event.tags]] makes one new list per tag and
    leaves every object of the store as it is. *)
Lemma tag_lists_run items w :
  exists w' xs,
    tag_lists items w = ([], w', Ok xs)
    /\ entropy w' = entropy w
    /\ (forall l, is_Some (store w !! l) -> store w' !! l = store w !! l)
    /\ Forall2 (fun x kv => exists lx, x = VRef lx /\ store w !! lx = None
                              /\ store w' !! lx = Some (OList [kv.1; kv.2]))
         xs items.
Proof.
  revert w. induction items as [|[k v] rest IH]; intros w; simpl.
  - exists w, []. by repeat split.
  - rewrite (bind_quiet _ _ _ _ _ (new_obj_run (OList [k; v]) w)).
    set (w1 := mkWorld (halloc (store w) (OList [k; v])) (entropy w)).
    destruct (IH w1) as (w2 & xs & Hrun & He & Hkeep & Hxs).
    exists w2, (VRef (fresh (dom (store w))) :: xs).
    split. { rewrite (bind_quiet _ _ _ _ _ Hrun). reflexivity. }
    split; [done|]. split.
    + intros l Hl. rewrite Hkeep by (by apply allocated_halloc).
      by apply lookup_halloc_old.
    + constructor.
      * exists (fresh (dom (store w))). split; [done|].
        split; [apply fresh_unallocated|]. simpl.
        rewrite Hkeep.
        -- unfold w1, halloc. cbn [store]. by rewrite lookup_insert_eq.
        -- unfold w1, halloc. cbn [store]. rewrite lookup_insert_eq. eauto.
      * eapply Forall2_impl; [exact Hxs|].
        intros x kv (lx & -> & Hn & Hv). exists lx. split; [done|].
        split; [|done]. exact (unallocated_halloc (store w) (OList [k; v]) lx Hn).
Qed.

Lemma field_hset_other h l k v l' k' :
  l <> l' -> field (hset h l k v) l' k' = field h l' k'.
Proof. intros Hne. unfold field. by rewrite hdict_hset_ne. Qed.

(** A legacy report with its event, when the event's data is a dictionary
    with a [level] and the condition of line 329 is false, no replay id being
    found in the data: the pipeline runs on a new event that takes the
    timestamp, platform, environment and tags of the event, one new list per
    tag, the level of its data, and its id as associated event id of the
    feedback context; the event's data is left as it was. *)
Theorem shim_event_synthesis env report ev project source w le d lv :
  event_data ev = VRef le -> hdict (store w) le = Some d ->
  d !! "level" = Some lv ->
  (let h := shim_event_store report (event_event_id ev) (store w) in
   truthy h (get_path env h (VRef le) ["contexts"; "replay"; "replay_id"]) = false) ->
  exists l lc lf lt xs w1,
    (let run := create_feedback_issue env (VRef l) (project_id project) source w1 in
     shim_to_feedback env report (Some ev) project source w
     = (calls run ++ shim_handled run.2, run.1.2, Ok tt))
    /\ store w !! l = None /\ entropy w1 = entropy w
    /\ hdict (store w1) le = Some d
    /\ field (store w1) l "timestamp" = Some (timestamp env (event_datetime ev))
    /\ field (store w1) l "level" = Some lv
    /\ field (store w1) l "platform" = Some (event_platform ev)
    /\ field (store w1) l "environment" = Some (event_environment_name ev)
    /\ field (store w1) l "tags" = Some (VRef lt)
    /\ store w1 !! lt = Some (OList xs)
    /\ Forall2 (fun x kv => exists lx, x = VRef lx /\ store w !! lx = None
                              /\ store w1 !! lx = Some (OList [kv.1; kv.2]))
         xs (event_tags ev)
    /\ field (store w1) l "contexts" = Some (VRef lc)
    /\ field (store w1) lc "feedback" = Some (VRef lf)
    /\ field (store w1) lf "associated_event_id" = Some (event_event_id ev)
    /\ field (store w1) lf "message" = Some (report_comments report).
Proof.
  intros Hev Hd Hlv Hnr.
  set (h0 := store w).
  set (df := {["name" := default (VStr "") (report_name report);
               "contact_email" := report_email report;
               "message" := report_comments report]} : dict).
  set (l1 := fresh (dom h0)). set (h1 := halloc h0 (ODict df)).
  set (l2 := fresh (dom h1)). set (h2 := halloc h1 (ODict {["feedback" := VRef l1]})).
  set (l3 := fresh (dom h2)). set (h3 := halloc h2 (ODict {["contexts" := VRef l2]})).
  set (h4 := hset h3 l1 "associated_event_id" (event_event_id ev)).
  change (truthy h4 (get_path env h4 (VRef le) ["contexts"; "replay"; "replay_id"])
          = false) in Hnr.
  set (h5 := hset h4 l3 "timestamp" (timestamp env (event_datetime ev))).
  set (h6 := hset h5 l3 "level" lv).
  set (h7 := hset h6 l3 "platform" (event_platform ev)).
  set (h8 := hset h7 l3 "level" lv).
  set (h9 := hset h8 l3 "environment" (event_environment_name ev)).
  assert (A0 : is_Some (h0 !! le)) by (by eapply hdict_allocated).
  assert (A1 : is_Some (h1 !! l1))
    by (unfold h1, halloc; rewrite lookup_insert_eq; eauto).
  assert (A2 : is_Some (h2 !! l2))
    by (unfold h2, halloc; rewrite lookup_insert_eq; eauto).
  assert (A3 : is_Some (h3 !! l3))
    by (unfold h3, halloc; rewrite lookup_insert_eq; eauto).
  assert (Ae1 : is_Some (h1 !! le)) by (by apply allocated_halloc).
  assert (Ae2 : is_Some (h2 !! le)) by (by apply allocated_halloc).
  assert (A12 : is_Some (h2 !! l1)) by (by apply allocated_halloc).
  assert (N1 : le <> l1) by (by apply fresh_not_allocated).
  assert (N3 : le <> l3) by (by apply fresh_not_allocated).
  assert (N13 : l1 <> l3) by (by apply fresh_not_allocated).
  assert (N23 : l2 <> l3) by (by apply fresh_not_allocated).
  assert (D3 : is_dict h3 l3 = true) by apply is_dict_halloc.
  assert (D1 : is_dict h3 l1 = true).
  { unfold h3, h2. do 2 apply is_dict_halloc_old. apply is_dict_halloc. }
  assert (F32 : field h3 l3 "contexts" = Some (VRef l2)).
  { unfold h3, l3. by rewrite field_halloc. }
  assert (F21 : field h3 l2 "feedback" = Some (VRef l1)).
  { unfold h3. apply field_halloc_keep. unfold h2, l2. by rewrite field_halloc. }
  assert (He3 : hdict h3 le = Some d).
  { unfold h3, h2, h1. by rewrite !hdict_halloc_ne. }
  assert (D4 : is_dict h4 l3 = true) by (unfold h4; by rewrite is_dict_hset).
  assert (D5 : is_dict h5 l3 = true) by (unfold h5; by rewrite is_dict_hset).
  assert (D6 : is_dict h6 l3 = true) by (unfold h6; by rewrite is_dict_hset).
  assert (D7 : is_dict h7 l3 = true) by (unfold h7; by rewrite is_dict_hset).
  assert (D8 : is_dict h8 l3 = true) by (unfold h8; by rewrite is_dict_hset).
  assert (D9 : is_dict h9 l3 = true) by (unfold h9; by rewrite is_dict_hset).
  assert (He5 : hdict h5 le = Some d).
  { unfold h5, h4. by rewrite !hdict_hset_ne. }
  assert (He7 : hdict h7 le = Some d).
  { unfold h7, h6. by rewrite !hdict_hset_ne. }
  assert (He9 : hdict h9 le = Some d).
  { unfold h9, h8. by rewrite !hdict_hset_ne. }
  destruct (tag_lists_run (event_tags ev) (mkWorld h9 (entropy w)))
    as (w10 & xs & Htl & Hte & Hkeep & Hxs).
  cbn [store entropy] in Hte, Hkeep, Hxs.
  set (lt := fresh (dom (store w10))).
  set (h11 := halloc (store w10) (OList xs)).
  set (h12 := hset h11 l3 "tags" (VRef lt)).
  assert (A9 : forall x, is_Some (h3 !! x) -> is_Some (h9 !! x)).
  { intros x Hx. unfold h9, h8, h7, h6, h5, h4.
    repeat match goal with
      | |- is_Some (hset ?h ?l ?k ?v !! x) =>
          destruct (changed_hset h l k v x) as [? _]; [|done]
      end. done. }
  assert (D11 : is_dict h11 l3 = true).
  { unfold h11. apply is_dict_halloc_old.
    rewrite (same_object_is_dict h9); [done|]. by apply Hkeep, A9. }
  exists l3, l2, l1, lt, xs, (mkWorld h12 (entropy w10)).
  split.
  { unfold shim_to_feedback, try_except, try_except_on. rewrite Hev.
    quiet (new_obj_run (ODict df) w).
    quiet (new_obj_run (ODict {["feedback" := VRef l1]}) (mkWorld h1 (entropy w))).
    quiet (new_obj_run (ODict {["contexts" := VRef l2]}) (mkWorld h2 (entropy w))).
    cbn [store entropy]. fold h0 l1 h1 l2 h2 l3 h3.
    step (py_getitem_field l3 "contexts" (VRef l2) (mkWorld h3 (entropy w)) F32).
    step (py_getitem_field l2 "feedback" (VRef l1) (mkWorld h3 (entropy w)) F21).
    quiet (py_setitem_run l1 "associated_event_id" (event_event_id ev)
             (mkWorld h3 (entropy w)) D1).
    cbn [store entropy]. fold h4. norm.
    rewrite (bind_pure
               (fun w0 : world =>
                  ([], w0, Ok (get_path env (store w0) (VRef le)
                                 ["contexts"; "replay"; "replay_id"])))
               _ (mkWorld h4 (entropy w))
               (get_path env h4 (VRef le) ["contexts"; "replay"; "replay_id"])
               eq_refl).
    step (py_truthy_run (get_path env h4 (VRef le)
                           ["contexts"; "replay"; "replay_id"])
            (mkWorld h4 (entropy w))).
    cbn [store]. rewrite Hnr. unfold when. norm.
    quiet (py_setitem_run l3 "timestamp" (timestamp env (event_datetime ev))
             (mkWorld h4 (entropy w)) D4).
    cbn [store entropy]. fold h5.
    step (py_getitem_dict h5 (mkWorld h5 (entropy w)) le d "level" lv eq_refl He5 Hlv).
    quiet (py_setitem_run l3 "level" lv (mkWorld h5 (entropy w)) D5).
    quiet (py_setitem_run l3 "platform" (event_platform ev)
             (mkWorld h6 (entropy w)) D6).
    cbn [store entropy]. fold h6 h7.
    step (py_getitem_dict h7 (mkWorld h7 (entropy w)) le d "level" lv eq_refl He7 Hlv).
    quiet (py_setitem_run l3 "level" lv (mkWorld h7 (entropy w)) D7).
    quiet (py_setitem_run l3 "environment" (event_environment_name ev)
             (mkWorld h8 (entropy w)) D8).
    cbn [store entropy]. fold h8 h9.
    quiet Htl.
    quiet (new_obj_run (OList xs) w10).
    fold lt h11.
    quiet (py_setitem_run l3 "tags" (VRef lt) (mkWorld h11 (entropy w10)) D11).
    cbn [store entropy]. fold h12.
    destruct (create_feedback_issue _ _ _ _ _) as [[t w'] [[]|e]];
      cbn; by rewrite ?app_nil_r. }
  cbn [store entropy].
  assert (A10 : forall x, is_Some (h3 !! x) -> is_Some (store w10 !! x)).
  { intros x Hx. rewrite Hkeep; by apply A9. }
  assert (N3t : l3 <> lt) by (apply fresh_not_allocated; by apply A10).
  assert (F12 : forall x k, is_Some (h3 !! x) -> x <> l3 \/ k <> "tags" ->
                  field h12 x k = field h9 x k).
  { intros x k Hx Hor.
    assert (E1 : field h12 x k = field h11 x k).
    { unfold h12. destruct Hor as [Hne|Hne];
        [by apply field_hset_other | by apply field_hset_ne]. }
    rewrite E1. unfold h11.
    rewrite (same_object_field (store w10)) by (by apply lookup_halloc_old, A10).
    apply same_object_field. by apply Hkeep, A9. }
  assert (A13 : is_Some (h3 !! l1)) by (by apply allocated_halloc).
  assert (A23 : is_Some (h3 !! l2)) by (by apply allocated_halloc).
  assert (Ae3 : is_Some (h3 !! le)) by (by apply allocated_halloc).
  split. { apply (unallocated_halloc h0 (ODict df)).
           apply (unallocated_halloc h1 (ODict {["feedback" := VRef l1]})).
           exact (fresh_unallocated h2). }
  split; [done|].
  split.
  { unfold h12. rewrite hdict_hset_ne by done. unfold h11.
    rewrite hdict_halloc_ne by (by apply A10). unfold hdict.
    rewrite Hkeep by (by apply A9). exact He9. }
  split.
  { rewrite F12 by (auto; right; done). unfold h9, h8, h7, h6.
    rewrite !field_hset_ne by done. by apply field_hset. }
  split.
  { rewrite F12 by (auto; right; done). unfold h9.
    rewrite field_hset_ne by done. by apply field_hset. }
  split.
  { rewrite F12 by (auto; right; done). unfold h9, h8.
    rewrite !field_hset_ne by done. by apply field_hset. }
  split.
  { rewrite F12 by (auto; right; done). by apply field_hset. }
  split; [by apply field_hset|].
  split.
  { unfold h12, hset. destruct (hdict h11 l3); [rewrite lookup_insert_ne by done|];
      unfold h11, halloc; apply lookup_insert_eq. }
  split.
  { eapply Forall2_impl; [exact Hxs|].
    intros x kv (lx & -> & Hn & Hv). exists lx. split; [done|].
    assert (Hne : l3 <> lx).
    { intros <-. destruct (A9 l3 A3) as [? Hs]. by rewrite Hs in Hn. }
    split.
    - destruct (h0 !! lx) eqn:E; [|done]. exfalso.
      assert (Hs : is_Some (h9 !! lx)).
      { apply A9. unfold h3, h2, h1. do 3 apply allocated_halloc. by rewrite E. }
      rewrite Hn in Hs. by destruct Hs.
    - unfold h12, hset. destruct (hdict h11 l3); [rewrite lookup_insert_ne by done|];
        unfold h11; rewrite lookup_halloc_old; by rewrite ?Hv. }
  split.
  { rewrite F12 by (auto; right; done). unfold h9, h8, h7, h6, h5, h4.
    by rewrite !field_hset_ne. }
  split.
  { rewrite F12 by (auto; left; done). unfold h9, h8, h7, h6, h5, h4.
    by rewrite !field_hset_ne. }
  split.
  { rewrite F12 by (auto; left; done). unfold h9, h8, h7, h6, h5.
    rewrite !field_hset_ne by done. by apply field_hset. }
  rewrite F12 by (auto; left; done). unfold h9, h8, h7, h6, h5, h4.
  rewrite !field_hset_ne by done. unfold h3, h2.
  rewrite !field_halloc_ne by done. unfold h1, l1. by rewrite field_halloc.
Qed.

Lemma shim_event_synthesis_witness :
  exists l w1,
    sample_event_store !! l = None
    /\ field (store w1) l "level" = Some (VStr "error")
    /\ field (store w1) l "platform" = Some (VStr "python")
    /\ field (store w1) l "environment" = Some (VStr "production")
    /\ field (store w1) l "timestamp" = Some (VInt 1700000000%Z).
Proof.
  set (report := mkUserReport (Some (VStr "Ada")) (VStr "a@b.com")
                   (VStr "It broke") None None).
  set (env := with_get_path (sample_env (Ok false)) sample_get_path).
  assert (Hd : hdict (store (mkWorld sample_event_store 0)) 1%positive
               = Some {["level" := VStr "error"; "contexts" := VRef 2%positive]})
    by (vm_compute; reflexivity).
  assert (Hlv : ({["level" := VStr "error"; "contexts" := VRef 2%positive]} : dict)
                !! "level" = Some (VStr "error"))
    by (vm_compute; reflexivity).
  assert (Hg : let h := shim_event_store report (event_event_id sample_error_event)
                          (store (mkWorld sample_event_store 0)) in
               truthy h (get_path env h (VRef 1%positive)
                           ["contexts"; "replay"; "replay_id"]) = false)
    by (vm_compute; reflexivity).
  destruct (shim_event_synthesis env report
              sample_error_event sample_project CRASH_REPORT_EMBED_FORM
              (mkWorld sample_event_store 0) 1%positive _ _
              eq_refl Hd Hlv Hg)
    as (l & lc & lf & lt & xs & w1 & _ & Hn & _ & _ & Ht & Hl & Hp & He & _).
  exists l, w1. repeat split; assumption.
Defined.

(** ** [shim_to_feedback] with an event: the event handed to the pipeline *)

Lemma modifies_tag_lists P items : modifies P (tag_lists items).
Proof.
  induction items as [|[k v] rest IH]; simpl.
  - apply modifies_reads, reads_ret.
  - apply modifies_bind; [apply modifies_new_obj|]. intros x.
    apply modifies_bind; [exact IH|]. intros xs. apply modifies_reads, reads_ret.
Qed.

(** What is left to run of [shim_to_feedback] changes allowed fields only. *)
Ltac shim_rest H P Hc He :=
  match type of H with
  | ?m ?w = _ =>
      let Hm := fresh "Hmod" in
      assert (Hm : modifies P m)
        by (repeat first
              [ apply modifies_bind; [|intros ?]
              | apply modifies_tag_lists
              | apply modifies_new_obj
              | apply modifies_when
              | apply modifies_py_setitem; modifies_side
              | apply modifies_reads; solve [eauto with reads] ]);
      destruct (Hm _ _ _ _ H) as [Hc He]; clear Hm
  end.

(** [shim_to_feedback] with an event never raises and never counts a missing
    event.  Either the event for the pipeline could not be made, which is
    logged and is all that happens; or the pipeline runs on a new dictionary
    and the call ends in the store the pipeline leaves, its calls being those
    of the pipeline, followed by the log entry when the pipeline raised.  The
    new dictionary has the report's name, contact email and message and the
    event's id in [contexts.feedback], the event's timestamp, platform and
    environment, and the level of the event's data. *)
Theorem shim_with_event env report ev project source w :
  let out := shim_to_feedback env report (Some ev) project source w in
  out.2 = Ok tt
  /\ count (is_metric "feedback.user_report.missing_event") (calls out) = 0
  /\ (calls out = [shim_error_log]
      \/ exists l lc lf w1,
           let run := create_feedback_issue env (VRef l) (project_id project)
                        source w1 in
           calls out = calls run ++ shim_handled run.2
           /\ out.1.2 = run.1.2
           /\ store w !! l = None /\ entropy w1 = entropy w
           /\ field (store w1) l "contexts" = Some (VRef lc)
           /\ field (store w1) lc "feedback" = Some (VRef lf)
           /\ field (store w1) lf "name"
              = Some (default (VStr "") (report_name report))
           /\ field (store w1) lf "contact_email" = Some (report_email report)
           /\ field (store w1) lf "message" = Some (report_comments report)
           /\ field (store w1) lf "associated_event_id" = Some (event_event_id ev)
           /\ field (store w1) l "timestamp"
              = Some (timestamp env (event_datetime ev))
           /\ field (store w1) l "platform" = Some (event_platform ev)
           /\ field (store w1) l "environment" = Some (event_environment_name ev)
           /\ exists le lv,
                event_data ev = VRef le
                /\ field (store w1) le "level" = Some lv
                /\ field (store w1) l "level" = Some lv).
Proof.
  cbv zeta. unfold shim_to_feedback, try_except, try_except_on.
  match goal with
  | |- context [match ?m w with _ => _ end] =>
      destruct (m w) as [[t1 w1] r1] eqn:Hb
  end.
  apply bind_inv in Hb as (? & wa & ra & Ha & Hb). inversion Ha; subst; clear Ha.
  destruct Hb as (ta & Hb & ->).
  apply bind_inv in Hb as (? & wb & rb & Ha & Hb). inversion Ha; subst; clear Ha.
  destruct Hb as (tb & Hb & ->).
  apply bind_inv in Hb as (? & wc & rc & Ha & Hb). inversion Ha; subst; clear Ha.
  destruct Hb as (tc & Hb & ->).
  apply bind_inv in Hb as (tp & wp & rp & Hp & Hb).
  assert (Hs : tp = []).
  { revert Hp. match goal with |- ?m _ = _ -> _ =>
      assert (Hm : silent m); [|intros Hp; apply (Hm _ _ _ _ Hp)] end.
    assert (Hgp := @reads_oracle val).
    repeat first
      [ apply silent_bind; [|intros ?]
      | apply silent_tag_lists
      | apply silent_new_obj
      | apply silent_py_setitem
      | apply silent_when
      | apply silent_reads; solve [eauto with reads] ]. }
  subst tp. destruct rp as [[]|e].
  2:{ destruct Hb as (-> & -> & ->). cbn. split; [done|]. split; [done|]. by left. }
  destruct Hb as (t2 & Hb & ->).
  assert (Hn := issue_run_no_missing_event _ _ _ _ _ (issue_runs _ _ _ _ _ _ _ _ Hb)).
  cbn [store entropy] in *.
  set (h0 := store w) in *.
  set (df := {["name" := default (VStr "") (report_name report);
               "contact_email" := report_email report;
               "message" := report_comments report]} : dict) in *.
  set (l1 := fresh (dom h0)) in *. set (h1 := halloc h0 (ODict df)) in *.
  set (l2 := fresh (dom h1)) in *.
  set (h2 := halloc h1 (ODict {["feedback" := VRef l1]})) in *.
  set (l3 := fresh (dom h2)) in *.
  set (h3 := halloc h2 (ODict {["contexts" := VRef l2]})) in *.
  assert (F32 : field h3 l3 "contexts" = Some (VRef l2)).
  { unfold h3, l3. rewrite field_halloc. apply lookup_singleton_eq. }
  assert (F21 : field h3 l2 "feedback" = Some (VRef l1)).
  { apply field_halloc_keep. unfold h2, l2. rewrite field_halloc.
    apply lookup_singleton_eq. }
  assert (D1 : is_dict h3 l1 = true).
  { do 2 apply is_dict_halloc_old. apply is_dict_halloc. }
  rewrite (bind_pure _ _ _ _
             (py_getitem_field l3 "contexts" (VRef l2) (mkWorld h3 (entropy w)) F32))
    in Hp.
  rewrite (bind_pure _ _ _ _
             (py_getitem_field l2 "feedback" (VRef l1) (mkWorld h3 (entropy w)) F21))
    in Hp.
  rewrite (bind_quiet _ _ _ _ _
             (py_setitem_run l1 "associated_event_id" (event_event_id ev)
                (mkWorld h3 (entropy w)) D1)) in Hp.
  cbn [store entropy] in Hp.
  set (h4 := hset h3 l1 "associated_event_id" (event_event_id ev)) in *.
  assert (Hgp := @reads_oracle val).
  shim_rest Hp (fun (_ : loc) k =>
                  in_keys ["replay"; "replay_id"; "timestamp"; "level"; "platform";
                           "environment"; "tags"] k = true) Call Eall.
  cbn [store entropy] in Call, Eall.
  (* the condition and the replay block *)
  apply bind_ok in Hp as (rid & ? & wa & ? & Hm & Hp & _).
  injection Hm as _ <- _.
  apply bind_ok in Hp as (trid & ? & wa & ? & Hm & Hp & _).
  apply py_truthy_ok in Hm as (_ & -> & _).
  apply bind_ok in Hp as ([] & ? & wr & ? & Hm & Hp & _). clear Hm.
  (* timestamp *)
  apply bind_ok in Hp as ([] & ? & wt & ? & Hm & Hp & _).
  apply py_setitem_ok in Hm as (_ & ? & Hx & Dt & ->). injection Hx as <-.
  shim_rest Hp (fun (_ : loc) k =>
                  in_keys ["level"; "platform"; "environment"; "tags"] k = true)
    Ct Et.
  cbn [store entropy] in Ct, Et.
  (* level, platform *)
  apply bind_ok in Hp as (lv1 & ? & wa & ? & Hm & Hp & _).
  apply py_getitem_ok in Hm as (_ & -> & _).
  apply bind_ok in Hp as ([] & ? & wl & ? & Hm & Hp & _).
  apply py_setitem_ok in Hm as (_ & ? & Hx & Dl & ->). injection Hx as <-.
  apply bind_ok in Hp as ([] & ? & wq & ? & Hm & Hp & _).
  apply py_setitem_ok in Hm as (_ & ? & Hx & Dq & ->). injection Hx as <-.
  shim_rest Hp (fun (_ : loc) k =>
                  in_keys ["level"; "environment"; "tags"] k = true) Cq Eqq.
  cbn [store entropy] in Dq, Cq, Eqq.
  (* level again *)
  apply bind_ok in Hp as (lv & ? & wa & ? & Hm & Hp & _).
  apply py_getitem_ok in Hm as (_ & -> & le & Hle & Flv).
  apply bind_ok in Hp as ([] & ? & wv & ? & Hm & Hp & _).
  apply py_setitem_ok in Hm as (_ & ? & Hx & Dv & ->). injection Hx as <-.
  shim_rest Hp (fun (_ : loc) k => in_keys ["environment"; "tags"] k = true) Cv Ev.
  cbn [store entropy] in Flv, Dv, Cv, Ev.
  (* environment *)
  apply bind_ok in Hp as ([] & ? & wn & ? & Hm & Hp & _).
  apply py_setitem_ok in Hm as (_ & ? & Hx & Dn & ->). injection Hx as <-.
  shim_rest Hp (fun (_ : loc) k => in_keys ["tags"] k = true) Cn En.
  cbn [store entropy] in Dn, Cn, En.
  clear Hp Hgp.
  set (ht := hset (store wr) l3 "timestamp" (timestamp env (event_datetime ev))) in *.
  set (hl := hset ht l3 "level" lv1) in *.
  set (hq := hset hl l3 "platform" (event_platform ev)) in *.
  set (hv := hset hq l3 "level" lv) in *.
  set (hn := hset hv l3 "environment" (event_environment_name ev)) in *.
  assert (A1 : is_Some (h4 !! l1)) by (apply is_dict_allocated; unfold h4; by rewrite is_dict_hset).
  assert (A2 : is_Some (h4 !! l2)).
  { apply is_dict_allocated. unfold h4. rewrite is_dict_hset.
    by eapply field_is_dict. }
  assert (A3 : is_Some (h4 !! l3)).
  { apply is_dict_allocated. unfold h4. rewrite is_dict_hset.
    by eapply field_is_dict. }
  assert (N0 : h0 !! l3 = None).
  { apply (unallocated_halloc h0 (ODict df)).
    apply (unallocated_halloc h1 (ODict {["feedback" := VRef l1]})).
    exact (fresh_unallocated h2). }
  assert (G1 : forall k, k <> "associated_event_id" ->
                 in_keys ["replay"; "replay_id"; "timestamp"; "level"; "platform";
                          "environment"; "tags"] k = false ->
                 field (store wp) l1 k = df !! k).
  { intros k Hk Hin. rewrite (kept _ _ _ l1 k Call A1) by (by rewrite Hin).
    unfold h4. rewrite field_hset_ne by done. unfold h3, h2.
    rewrite !field_halloc_ne; [apply field_halloc| |].
    - by apply is_dict_allocated, is_dict_halloc.
    - apply allocated_halloc. by apply is_dict_allocated, is_dict_halloc. }
  assert (Gc : field (store wp) l3 "contexts" = Some (VRef l2)).
  { rewrite (kept _ _ _ l3 "contexts" Call A3) by done.
    unfold h4. by rewrite field_hset_ne. }
  assert (Gf : field (store wp) l2 "feedback" = Some (VRef l1)).
  { rewrite (kept _ _ _ l2 "feedback" Call A2) by done.
    unfold h4. by rewrite field_hset_ne. }
  assert (Ga : field (store wp) l1 "associated_event_id" = Some (event_event_id ev)).
  { rewrite (kept _ _ _ l1 "associated_event_id" Call A1) by done.
    by apply field_hset. }
  assert (Gt : field (store wp) l3 "timestamp"
               = Some (timestamp env (event_datetime ev))).
  { rewrite (kept _ _ _ l3 "timestamp" Ct) by (done || by apply is_dict_allocated).
    by apply field_hset. }
  assert (Gp : field (store wp) l3 "platform" = Some (event_platform ev)).
  { rewrite (kept _ _ _ l3 "platform" Cq) by (done || by apply is_dict_allocated).
    by apply field_hset. }
  assert (Ge : field (store wp) l3 "environment" = Some (event_environment_name ev)).
  { rewrite (kept _ _ _ l3 "environment" Cn); [by apply field_hset| |done].
    apply is_dict_allocated. unfold hn. by rewrite is_dict_hset. }
  assert (Gl : field (store wp) l3 "level" = Some lv).
  { rewrite (kept _ _ _ l3 "level" Cv) by (done || by apply is_dict_allocated).
    by apply field_hset. }
  assert (Fv : field hv le "level" = Some lv).
  { destruct (decide (l3 = le)) as [<-|Hne]; [by apply field_hset|].
    unfold hv. by rewrite field_hset_other. }
  assert (Gd : field (store wp) le "level" = Some lv).
  { rewrite (kept _ _ _ le "level" Cv); [done| |done].
    by eapply is_dict_allocated, field_is_dict. }
  assert (Gfin :
    h0 !! l3 = None /\ entropy wp = entropy w
    /\ field (store wp) l3 "contexts" = Some (VRef l2)
    /\ field (store wp) l2 "feedback" = Some (VRef l1)
    /\ field (store wp) l1 "name" = Some (default (VStr "") (report_name report))
    /\ field (store wp) l1 "contact_email" = Some (report_email report)
    /\ field (store wp) l1 "message" = Some (report_comments report)
    /\ field (store wp) l1 "associated_event_id" = Some (event_event_id ev)
    /\ field (store wp) l3 "timestamp" = Some (timestamp env (event_datetime ev))
    /\ field (store wp) l3 "platform" = Some (event_platform ev)
    /\ field (store wp) l3 "environment" = Some (event_environment_name ev)
    /\ exists le lv,
         event_data ev = VRef le
         /\ field (store wp) le "level" = Some lv
         /\ field (store wp) l3 "level" = Some lv).
  { rewrite !G1 by done. repeat (split; [done|]). by exists le, lv. }
  clear - Hb Hn Gfin.
  destruct r1 as [[]|e]; cbn -[create_feedback_issue count app field].
  - split; [done|]. split; [done|]. right. exists l3, l2, l1, wp.
    rewrite Hb. cbn [calls fst snd shim_handled]. split; [by rewrite app_nil_r|].
    split; [done|]. exact Gfin.
  - split; [done|]. split; [rewrite !count_app, Hn; reflexivity|].
    right. exists l3, l2, l1, wp.
    rewrite Hb. cbn [calls fst snd shim_handled]. split; [done|].
    split; [done|]. exact Gfin.
Qed.
